(** * AI sales dashboard: a shallow embedding of [app.py]

    The dashboard keeps one table, loaded once at start-up, and a handful of
    Dash callbacks that copy it, filter the copy with boolean masks, group
    and sum it, and hand the outcome to plotly.  This development embeds

    - the fragment of pandas that the callbacks rely on (column lookup,
      boolean-mask selection, [groupby(..).sum()], [nlargest]/[nsmallest],
      [head], [to_dict('records')], the percentage normalisation),
    - Python's object store: every data frame is an object with an
      identity, the module-level name [df] refers to one of them, and the
      callbacks are written in a state-and-exception monad over that store,
    - the credential check [verify_user] and the [login] callback,

    and then states and proves the properties of the specification.

    The parts after the sample installation cover the rest of the module:
    the session callbacks ([logout], [display_page], [update_user_display],
    [toggle_password]), navigation ([update_active_tab],
    [update_summary_titles]), start-up ([load_users], [load_data] and the
    module-level lists), the five PDF report callbacks, and further
    properties of the tab callbacks.

    Conventions.  Numeric cells are integers ([CInt]); a column without
    missing values is an [int64] column in pandas, so column sums wrap
    around at 64 bits ([wrap64]).  A missing value ([NaN], [NaT], [None]) is
    [CNull].  Binary64 values only arise from the percentage view and are
    kept as primitive floats ([CFloat]).  Plotly figures are kept as the
    constructor call that builds them together with its data arguments;
    purely cosmetic arguments (margins, colours, heights) are left out. *)

From Stdlib Require Import ZArith List Bool Lia Floats Uint63 QArith Qfield.
From stdpp Require Import base decidable option list sorting strings gmap.

Local Open Scope string_scope.
Local Open Scope list_scope.
Local Open Scope Z_scope.

(* ===================================================================== *)
(** * Python outcomes *)
(* ===================================================================== *)

(** The exceptions that the modelled fragment can raise. *)
Inductive exn : Type :=
  | KeyError (key : string)
  | TypeError (what : string)
  | ValueError (what : string)
  | AttributeError (what : string)
  | IndexError (what : string)
  | ReferenceError (what : string).

Inductive outcome (A : Type) : Type :=
  | Returns (a : A)
  | Raises (e : exn).
Arguments Returns {A} a.
Arguments Raises {A} e.

Definition obind {A B} (o : outcome A) (k : A -> outcome B) : outcome B :=
  match o with
  | Returns a => k a
  | Raises e => Raises e
  end.

(** Sequencing over a list, stopping at the first exception. *)
Fixpoint mapE {A B} (f : A -> outcome B) (l : list A) : outcome (list B) :=
  match l with
  | [] => Returns []
  | x :: l' =>
      obind (f x) (fun y => obind (mapE f l') (fun ys => Returns (y :: ys)))
  end.

(** Python truthiness of an optional string ([None] and [""] are falsy). *)
Definition truthy (o : option string) : bool :=
  match o with
  | Some s => negb (bool_decide (s = ""))
  | None => false
  end.

(** [x != "all"] for a callback argument that may be [None]. *)
Definition neq_all (o : option string) : bool :=
  negb (bool_decide (o = Some "all")).

(* ===================================================================== *)
(** * Cells *)
(* ===================================================================== *)

#[global] Instance spec_float_eq_dec : EqDecision SpecFloat.spec_float.
Proof. solve_decision. Defined.

#[global] Instance float_eq_dec : EqDecision float.
Proof.
  intros x y.
  destruct (decide (Prim2SF x = Prim2SF y)) as [E|E].
  - left. now apply Prim2SF_inj.
  - right. intros ->. now apply E.
Defined.

Inductive cell : Type :=
  | CInt (z : Z)
  | CFloat (f : float)
  | CStr (s : string)
  | CTime (t : Z)
  | CNull.

#[global] Instance cell_eq_dec : EqDecision cell.
Proof. solve_decision. Defined.

(** [pd.isna]. *)
Definition isnull (c : cell) : bool :=
  match c with
  | CNull => true
  | CFloat f => PrimFloat.is_nan f
  | _ => false
  end.

(** int64 wrap-around. *)
Definition wrap64 (z : Z) : Z := (z + 2 ^ 63) mod 2 ^ 64 - 2 ^ 63.

(** An order on cells for sorting group keys: numbers before strings before
    timestamps; pandas only ever sorts keys of one kind here. *)
Definition cell_leb (a b : cell) : bool :=
  match a, b with
  | CInt x, CInt y => Z.leb x y
  | CInt _, _ => true
  | CFloat x, CFloat y => PrimFloat.leb x y
  | CFloat _, CInt _ => false
  | CFloat _, _ => true
  | CStr x, CStr y => String.leb x y
  | CStr _, (CInt _ | CFloat _) => false
  | CStr _, _ => true
  | CTime x, CTime y => Z.leb x y
  | CTime _, CNull => true
  | CTime _, _ => false
  | CNull, CNull => true
  | CNull, _ => false
  end.

(* ===================================================================== *)
(** * Data frames: the pandas fragment *)
(* ===================================================================== *)

(** A frame is a list of column labels and a list of rows, each row a list
    of cells in column order.  The index is left out: the callbacks never
    look a row up by label after filtering, and exports drop it. *)
Record DataFrame : Type := mkFrame {
  columns : list string;
  rows : list (list cell)
}.

#[global] Instance DataFrame_eq_dec : EqDecision DataFrame.
Proof. solve_decision. Defined.

(** Position of the first column labelled [c]. *)
Fixpoint col_pos (c : string) (cols : list string) : option nat :=
  match cols with
  | [] => None
  | x :: cols' =>
      if bool_decide (x = c) then Some 0%nat else S <$> col_pos c cols'
  end.

Definition at_pos (i : nat) (r : list cell) : cell := nth i r CNull.

(** [d[c]]: the column as a series of values; [KeyError] without it. *)
Definition getitem (d : DataFrame) (c : string) : outcome (list cell) :=
  match col_pos c (columns d) with
  | Some i => Returns (map (at_pos i) (rows d))
  | None => Raises (KeyError c)
  end.

(** [c in d.columns], for a label that may be [None]. *)
Definition has_column (d : DataFrame) (c : option string) : bool :=
  match c with
  | Some c => bool_decide (c ∈ columns d)
  | None => false
  end.

(** [d.empty]: one of the two axes has length 0. *)
Definition df_empty (d : DataFrame) : bool :=
  match columns d, rows d with
  | [], _ => true
  | _, [] => true
  | _, _ => false
  end.

(** [series == v] for a string [v] (or [None]): elementwise, never raises;
    only a string cell can be equal to a string. *)
Definition cell_eq_str (v : option string) (c : cell) : bool :=
  match c, v with
  | CStr s, Some s' => bool_decide (s = s')
  | _, _ => false
  end.

Definition series_eq (col : list cell) (v : option string) : list bool :=
  map (cell_eq_str v) col.

(** [series >= ts] and [series <= ts] for a timestamp [ts], where [None]
    stands for [NaT].  A datetime column compares elementwise and [NaT] on
    either side gives [False]; a column holding anything else raises. *)
Definition cmp_ts (op : Z -> Z -> bool) (ts : option Z) (c : cell)
  : outcome bool :=
  match c with
  | CTime t => Returns (match ts with Some b => op t b | None => false end)
  | CNull => Returns false
  | _ => Raises (TypeError "Invalid comparison with Timestamp")
  end.

Definition series_ge_ts (col : list cell) (ts : option Z) : outcome (list bool) :=
  mapE (cmp_ts Z.geb ts) col.

Definition series_le_ts (col : list cell) (ts : option Z) : outcome (list bool) :=
  mapE (cmp_ts Z.leb ts) col.

(** Boolean-mask selection: keep the positions whose mask entry is [True]. *)
Fixpoint mask {A} (m : list bool) (l : list A) : list A :=
  match m, l with
  | b :: m', x :: l' => if b then x :: mask m' l' else mask m' l'
  | _, _ => []
  end.

(** [d[m]] for a boolean series [m]. *)
Definition df_mask (d : DataFrame) (m : list bool) : DataFrame :=
  mkFrame (columns d) (mask m (rows d)).

(** [d[cs]] for a list of labels: the columns in the order asked for. *)
Definition select_columns (d : DataFrame) (cs : list string)
  : outcome DataFrame :=
  obind
    (mapE (fun c => match col_pos c (columns d) with
                    | Some i => Returns i
                    | None => Raises (KeyError c)
                    end) cs)
    (fun ps => Returns (mkFrame cs (map (fun r => map (fun i => at_pos i r) ps) (rows d)))).

(** [d.head(n)]. *)
Definition head (n : nat) (d : DataFrame) : DataFrame :=
  mkFrame (columns d) (take n (rows d)).

(** [d.to_dict('records')]: one dict per row; building a Python dict from
    the (label, value) pairs lets a later pair overwrite an earlier one. *)
Definition to_record (cols : list string) (r : list cell) : gmap string cell :=
  foldl (fun m kv => <[kv.1 := kv.2]> m) ∅ (zip cols r).

Definition to_records (d : DataFrame) : list (gmap string cell) :=
  map (to_record (columns d)) (rows d).

(** The value of a cell in a sum: [sum()] skips missing values.  Text and
    timestamps cannot be added to numbers; fractional values are outside the
    model (the metrics are counts). *)
Definition num_of_cell (c : cell) : outcome Z :=
  match c with
  | CInt z => Returns z
  | CNull => Returns 0
  | CFloat _ => Raises (TypeError "fractional metric")
  | CStr _ => Raises (TypeError "unsupported operand type(s) for +: int and str")
  | CTime _ => Raises (TypeError "datetime64 type does not support sum")
  end.

Definition zsum (zs : list Z) : Z := foldr Z.add 0 zs.

(** [series.sum()] on an integer column. *)
Definition series_sum (col : list cell) : outcome Z :=
  obind (mapE num_of_cell col) (fun zs => Returns (wrap64 (zsum zs))).

(** The group labels of [groupby(key)]: the distinct non-missing values of
    the key column, sorted ([sort=True], [dropna=True] are the defaults). *)
Definition group_keys (ks : list cell) : list cell :=
  merge_sort (fun a b => cell_leb a b)
    (remove_dups (filter (fun c => isnull c = false) ks)).

(** The total of one value column within the group labelled [k]. *)
Definition group_total (ks : list cell) (k : cell) (vs : list cell)
  : outcome Z :=
  series_sum (mask (map (fun c => bool_decide (c = k)) ks) vs).

(** [d.groupby(key)[cols].sum().reset_index()]: one row per group label,
    holding the label and the total of every value column. *)
Definition groupby_sum (d : DataFrame) (key : string) (cols : list string)
  : outcome DataFrame :=
  obind (getitem d key) (fun ks =>
  obind (mapE (getitem d) cols) (fun vss =>
  obind (mapE (fun k =>
           obind (mapE (group_total ks k) vss) (fun tots =>
           Returns (k :: map CInt tots)))
         (group_keys ks)) (fun rs =>
  Returns (mkFrame (key :: cols) rs)))).

(** The integer held by a cell of an integer column. *)
Definition int_of_cell (c : cell) : outcome Z :=
  match c with
  | CInt z => Returns z
  | _ => Raises (TypeError "cannot use method with this dtype")
  end.

Definition cell_int (c : cell) : Z :=
  match c with
  | CInt z => z
  | _ => 0
  end.

(** [d.nlargest(n, col)] and [d.nsmallest(n, col)] on an integer column: the
    rows ordered by the column (descending resp. ascending), the first [n]
    of them; nothing when [n <= 0]. *)
Definition desc_by (i : nat) (a b : list cell) : Prop :=
  cell_int (at_pos i b) <= cell_int (at_pos i a).

Definition asc_by (i : nat) (a b : list cell) : Prop :=
  cell_int (at_pos i a) <= cell_int (at_pos i b).

#[global] Instance desc_by_dec i a b : Decision (desc_by i a b).
Proof. unfold desc_by. apply _. Defined.

#[global] Instance asc_by_dec i a b : Decision (asc_by i a b).
Proof. unfold asc_by. apply _. Defined.

Definition nlargest (n : Z) (col : string) (d : DataFrame) : outcome DataFrame :=
  match col_pos col (columns d) with
  | None => Raises (KeyError col)
  | Some i =>
      obind (mapE (fun r => int_of_cell (at_pos i r)) (rows d)) (fun _ =>
      Returns (mkFrame (columns d)
                 (take (Z.to_nat n) (merge_sort (desc_by i) (rows d)))))
  end.

Definition nsmallest (n : Z) (col : string) (d : DataFrame) : outcome DataFrame :=
  match col_pos col (columns d) with
  | None => Raises (KeyError col)
  | Some i =>
      obind (mapE (fun r => int_of_cell (at_pos i r)) (rows d)) (fun _ =>
      Returns (mkFrame (columns d)
                 (take (Z.to_nat n) (merge_sort (asc_by i) (rows d)))))
  end.

(* ===================================================================== *)
(** * The percentage view *)
(* ===================================================================== *)

(** The arithmetic used by [frame.div(row_sums, axis=0) * 100].  pandas
    computes in binary64; the same expression is also read in exact rational
    arithmetic to tell rounding apart from the algebra. *)
Class Arith (R : Type) : Type := {
  of_int : Z -> R;
  rdiv : R -> R -> R;
  rmul : R -> R -> R;
  radd : R -> R -> R
}.

(** int64 -> binary64, rounding to nearest even. *)
Definition float_of_int (z : Z) : float :=
  let mag (n : Z) : float :=
    if n <? 2 ^ 63 then PrimFloat.of_uint63 (Uint63.of_Z n)
    else PrimFloat.mul (PrimFloat.of_uint63 (Uint63.of_Z (n / 2))) 2%float in
  if z <? 0 then PrimFloat.opp (mag (- z)) else mag z.

#[global] Instance binary64 : Arith float := {
  of_int := float_of_int;
  rdiv := PrimFloat.div;
  rmul := PrimFloat.mul;
  radd := PrimFloat.add
}.

#[global] Instance exact : Arith Q := {
  of_int := inject_Z;
  rdiv := Qdiv;
  rmul := Qmult;
  radd := Qplus
}.

(** One row of [frame.div(frame.sum(axis=1), axis=0) * 100]: every total
    divided by the (int64) sum of the row, times 100. *)
Definition pct_row {R} `{Arith R} (tots : list Z) : list R :=
  map (fun t => rmul (rdiv (of_int t) (of_int (wrap64 (zsum tots)))) (of_int 100)) tots.


Definition col_pos_or_raise (d : DataFrame) (c : string) : outcome nat :=
  match col_pos c (columns d) with
  | Some i => Returns i
  | None => Raises (KeyError c)
  end.

(** Writing the cells [vs] at the positions [ps] of a row. *)
Definition set_cells (r : list cell) (ps : list nat) (vs : list cell) : list cell :=
  foldl (fun acc iv => <[iv.1 := iv.2]> acc) r (zip ps vs).

(** The frame obtained from [d] by
    [d[cols] = d[cols].div(d[cols].sum(axis=1), axis=0) * 100]. *)
Definition pct_columns (d : DataFrame) (cols : list string) : outcome DataFrame :=
  obind (mapE (col_pos_or_raise d) cols) (fun ps =>
  obind (mapE (fun r =>
           obind (mapE (fun i => int_of_cell (at_pos i r)) ps) (fun tots =>
           Returns (set_cells r ps (map CFloat (pct_row tots)))))
         (rows d)) (fun rs =>
  Returns (mkFrame (columns d) rs))).

(* ===================================================================== *)
(** * Values handed to Dash *)
(* ===================================================================== *)

(** Numbers that are only formatted or plotted: an integer the model
    computes, or a pandas statistic of a column kept by name. *)
Inductive num : Type :=
  | NInt (z : Z)
  | NStat (stat : string) (col : list cell).

(** Plotly figures: the constructor call and its data. *)
Inductive Figure : Type :=
  | go_Figure
  | px_line_empty
  | px_line (data : DataFrame) (x : string) (y : list (option string))
      (trendline : bool)
  | px_bar (data : DataFrame) (x y : list (option string)) (title : string)
  | px_pie (data : DataFrame) (names : string) (values : option string)
      (title : string)
  | px_pie_values (names : list string) (values : list Z)
  | px_choropleth (data : DataFrame) (locations : string) (color : option string)
  | px_imshow_pivot (data : DataFrame) (index cols : string) (values : option string)
  | go_Indicator (value : num) (title : string) (scale : num).

#[warnings="-register-all"]
Inductive pyval : Type :=
  | PNone
  | PNoUpdate
  | PBool (b : bool)
  | PStr (s : string)
  | PCell (c : cell)
  | PFormat (spec : string) (x : num)
  | PStrftime (fmt : string) (t : Z)
  | PFig (f : Figure)
  | PRecords (rs : list (gmap string cell))
  | PDownload (filename : string) (d : DataFrame)
  | PDict (kvs : list (string * pyval))
  | PList (l : list pyval)
  | PTuple (l : list pyval).

(** [str(x)] of an optional string, as an f-string prints it. *)
Definition py_str (o : option string) : string :=
  match o with
  | Some s => s
  | None => "None"
  end.

(** [dict.get(k, k)] on a dict with string keys and values. *)
Definition dict_get (m : list (string * string)) (k : option string)
  : option string :=
  match k with
  | Some k' =>
      match list_find (fun kv => kv.1 = k') m with
      | Some (_, kv) => Some kv.2
      | None => k
      end
  | None => None
  end.

Definition metric_map : list (string * string) :=
  [("jobs_placed", "Jobs Placed");
   ("scheduled_demos", "Scheduled Demos");
   ("ai_requests", "AI Requests");
   ("promotional_events", "Promotional Events")].

(** [metrics = list(metric_map.keys())]. *)
Definition metrics : list string := map fst metric_map.

(* ===================================================================== *)
(** * The object store and the callback monad *)
(* ===================================================================== *)

Definition loc : Type := nat.

Inductive log_entry : Type :=
  | LogError (msg : string) (e : exn).

(** The state of the Python process that the callbacks can touch: the
    data-frame objects, the log, and how many UUIDs have been drawn. *)
Record state : Type := mkState {
  heap : list DataFrame;
  log : list log_entry;
  uuids_drawn : nat
}.

Definition set_heap (s : state) (h : list DataFrame) : state :=
  mkState h (log s) (uuids_drawn s).

Definition M (A : Type) : Type := state -> outcome A * state.

Definition ret {A} (a : A) : M A := fun s => (Returns a, s).

Definition bind {A B} (m : M A) (k : A -> M B) : M B :=
  fun s =>
    match m s with
    | (Returns a, s') => k a s'
    | (Raises e, s') => (Raises e, s')
    end.

Definition raise {A} (e : exn) : M A := fun s => (Raises e, s).

Definition lift {A} (o : outcome A) : M A := fun s => (o, s).

(** [try: m  except Exception as e: h e]. *)
Definition try_except {A} (m : M A) (h : exn -> M A) : M A :=
  fun s =>
    match m s with
    | (Returns a, s') => (Returns a, s')
    | (Raises e, s') => h e s'
    end.

Notation "'let*' x ':=' m 'in' k" := (bind m (fun x => k))
  (at level 10, x binder, m at level 100, k at level 200,
   format "'[v' 'let*'  x  :=  m  'in' '/' k ']'").

(** Allocation of a new frame object. *)
Definition new (d : DataFrame) : M loc :=
  fun s => (Returns (length (heap s)), set_heap s (heap s ++ [d])).

(** Reading the object behind a reference. *)
Definition deref (l : loc) : M DataFrame :=
  fun s =>
    match heap s !! l with
    | Some d => (Returns d, s)
    | None => (Raises (ReferenceError "no such object"), s)
    end.

(** In-place update of the object behind a reference. *)
Definition assign (l : loc) (d : DataFrame) : M unit :=
  fun s => (Returns tt, set_heap s (<[l := d]> (heap s))).

Definition logger_error (msg : string) (e : exn) : M unit :=
  fun s => (Returns tt, mkState (heap s) (log s ++ [LogError msg e]) (uuids_drawn s)).

(** The module-level names [df] and [users_df]: the first two objects that
    the module creates. *)
Definition df : loc := 0%nat.
Definition users_df : loc := 1%nat.

(** ** pandas calls on frame objects

    Every pandas call that the callbacks make does one of three things: it
    reads an object, it derives a new object from an existing one, or (one
    call only, in the summary tab) it updates an object in place. *)

(** A call that only reads the object behind [l]. *)
Definition read {A} (l : loc) (f : DataFrame -> outcome A) : M A :=
  let* d := deref l in lift (f d).

(** A call that builds a new frame object from the one behind [l]. *)
Definition derive (l : loc) (f : DataFrame -> outcome DataFrame) : M loc :=
  let* d := deref l in
  let* d' := lift (f d) in
  new d'.

(** A call that replaces the contents of the object behind [l]. *)
Definition update (l : loc) (f : DataFrame -> outcome DataFrame) : M unit :=
  let* d := deref l in
  let* d' := lift (f d) in
  assign l d'.

(** Labels that come from callback arguments may be [None]. *)
Definition label (c : option string) : outcome string :=
  match c with
  | Some c' => Returns c'
  | None => Raises (KeyError "None")
  end.

Definition getitem_opt (c : option string) (d : DataFrame) : outcome (list cell) :=
  obind (label c) (getitem d).

Definition col_sum (c : option string) (d : DataFrame) : outcome Z :=
  obind (getitem_opt c d) series_sum.

Definition groupby_sum_opt (key : string) (cols : list (option string))
    (d : DataFrame) : outcome DataFrame :=
  obind (mapE label cols) (groupby_sum d key).

Definition nlargest_opt (n : Z) (col : option string) (d : DataFrame)
  : outcome DataFrame :=
  obind (label col) (fun c => nlargest n c d).

Definition nsmallest_opt (n : Z) (col : option string) (d : DataFrame)
  : outcome DataFrame :=
  obind (label col) (fun c => nsmallest n c d).

(** [d.iloc[0][c]]. *)
Definition iloc0 (c : string) (d : DataFrame) : outcome cell :=
  match rows d with
  | [] => Raises (IndexError "single positional indexer is out-of-bounds")
  | r :: _ => obind (col_pos_or_raise d c) (fun i => Returns (at_pos i r))
  end.

(** [d.loc[i, c]] on a frame with the default integer index. *)
Definition loc_at (i : nat) (c : string) (d : DataFrame) : outcome cell :=
  match rows d !! i with
  | None => Raises (KeyError "row label")
  | Some r => obind (col_pos_or_raise d c) (fun j => Returns (at_pos j r))
  end.

(** [l.copy()]. *)
Definition df_copy (l : loc) : M loc := derive l Returns.

(** [l[c]]. *)
Definition df_get (l : loc) (c : option string) : M (list cell) :=
  read l (getitem_opt c).

(** [l[m]] for a boolean mask. *)
Definition df_filter (l : loc) (m : list bool) : M loc :=
  derive l (fun d => Returns (df_mask d m)).

(** [l.empty]. *)
Definition df_is_empty (l : loc) : M bool :=
  read l (fun d => Returns (df_empty d)).

(** [c in l.columns]. *)
Definition df_has_column (l : loc) (c : option string) : M bool :=
  read l (fun d => Returns (has_column d c)).

(** [l.groupby(key)[cols].sum().reset_index()]. *)
Definition df_groupby_sum (l : loc) (key : string) (cols : list (option string))
  : M loc :=
  derive l (groupby_sum_opt key cols).

(** [l[cs]] for a list of labels. *)
Definition df_select (l : loc) (cs : list string) : M loc :=
  derive l (fun d => select_columns d cs).

(** [l.nlargest(n, col)] and [l.nsmallest(n, col)]. *)
Definition df_nlargest (l : loc) (n : Z) (col : option string) : M loc :=
  derive l (nlargest_opt n col).

Definition df_nsmallest (l : loc) (n : Z) (col : option string) : M loc :=
  derive l (nsmallest_opt n col).

(** [l[cols] = l[cols].div(l[cols].sum(axis=1), axis=0) * 100]: the object
    behind [l] is updated in place. *)
Definition df_setitem_pct (l : loc) (cols : list string) : M unit :=
  update l (fun d => pct_columns d cols).

(** [l.iloc[0][c]]. *)
Definition df_iloc0 (l : loc) (c : string) : M cell := read l (iloc0 c).

(** [l.loc[i, c]]. *)
Definition df_loc (l : loc) (i : nat) (c : string) : M cell :=
  read l (loc_at i c).

(** [l[c].sum()]. *)
Definition df_sum (l : loc) (c : option string) : M Z := read l (col_sum c).

Fixpoint mapM {A B} (f : A -> M B) (l : list A) : M (list B) :=
  match l with
  | [] => ret []
  | x :: l' =>
      let* y := f x in
      let* ys := mapM f l' in
      ret (y :: ys)
  end.

(** ** Small Python built-ins *)

(** Position of the first maximum, as [max] and [idxmax] pick it. *)
Fixpoint argmax_from (best : nat) (bv : Z) (i : nat) (l : list Z) : nat :=
  match l with
  | [] => best
  | z :: l' =>
      if bv <? z then argmax_from i z (S i) l' else argmax_from best bv (S i) l'
  end.

Definition argmax (l : list Z) : option nat :=
  match l with
  | [] => None
  | z :: l' => Some (argmax_from 0%nat z 1%nat l')
  end.

(** [series.idxmax()] on an integer column with the default index: the
    position of the first maximum among the values that are not missing. *)
Fixpoint idxmax_from (best : option (nat * Z)) (i : nat) (col : list cell)
  : outcome nat :=
  match col with
  | [] =>
      match best with
      | Some (b, _) => Returns b
      | None => Raises (ValueError "attempt to get argmax of an empty sequence")
      end
  | CInt z :: col' =>
      match best with
      | Some (_, bv) =>
          if bv <? z then idxmax_from (Some (i, z)) (S i) col'
          else idxmax_from best (S i) col'
      | None => idxmax_from (Some (i, z)) (S i) col'
      end
  | CNull :: col' => idxmax_from best (S i) col'
  | _ :: _ => Raises (TypeError "reduction operation argmax not allowed for this dtype")
  end.

Definition series_idxmax (col : list cell) : outcome nat :=
  idxmax_from None 0%nat col.

(** [series.unique()]: the distinct values in order of first appearance. *)
Definition unique (col : list cell) : list cell :=
  reverse (remove_dups (reverse col)).

Definition is_str (c : cell) : bool :=
  match c with
  | CStr _ => true
  | _ => false
  end.

(** [sorted(values)]: country and continent labels are strings; a missing
    value among several labels cannot be compared with them. *)
Definition py_sorted (l : list cell) : outcome (list cell) :=
  if forallb is_str l then Returns (merge_sort (fun a b => cell_leb a b) l)
  else
    match l with
    | [] | [_] => Returns l
    | _ => Raises (TypeError "'<' not supported between instances")
    end.

(** Dash's treatment of one output value: [no_update] keeps the property. *)
Definition dash_assign (old : option pyval) (v : pyval) : option pyval :=
  match v with
  | PNoUpdate => old
  | _ => Some v
  end.

(* ===================================================================== *)
(** * The program *)
(* ===================================================================== *)

Section App.

Set Default Proof Using "Type".

(** Library calls whose results the callbacks branch on or pass along. *)

(** [bcrypt.checkpw(password, hashed)]; it raises on a malformed hash. *)
Variable checkpw : string -> string -> outcome bool.
(** [str(uuid.uuid4())], by the number of UUIDs drawn before. *)
Variable uuid4_str : nat -> string.
(** [pd.to_datetime(text)]: a timestamp, [NaT] ([None]), or an exception. *)
Variable to_datetime : string -> outcome (option Z).
(** [d.groupby([*keys, pd.Grouper(key='date', freq=f)])[cols].sum().reset_index()]. *)
Variable grouper_sum :
  list string -> string -> list (option string) -> DataFrame -> outcome DataFrame.
(** [d.set_index('date').resample(f)[cols].sum().reset_index()]. *)
Variable resample_sum :
  option string -> list (option string) -> DataFrame -> outcome DataFrame.
(** [text.title()]. *)
Variable str_title : string -> string.

Definition uuid4 : M string :=
  fun s => (Returns (uuid4_str (uuids_drawn s)),
            mkState (heap s) (log s) (S (uuids_drawn s))).

Definition df_grouper_sum (l : loc) (keys : list string) (f : string)
    (cols : list (option string)) : M loc :=
  derive l (grouper_sum keys f cols).

Definition df_resample_sum (l : loc) (f : option string)
    (cols : list (option string)) : M loc :=
  derive l (resample_sum f cols).

(** [text.title()] on an argument that may be [None]. *)
Definition title_of (o : option string) : outcome string :=
  match o with
  | Some s => Returns (str_title s)
  | None => Raises (AttributeError "'NoneType' object has no attribute 'title'")
  end.

(** ** Credential check (app.py, lines 39-50) *)

Definition verify_user (username password : option string) : M bool :=
  if negb (truthy username) || negb (truthy password) then ret false else
  let* names := df_get users_df (Some "username") in
  let* user := df_filter users_df (series_eq names username) in
  let* none := df_is_empty user in
  if none then ret false else
  let* h := df_iloc0 user "password_hash" in
  match h with
  | CStr hashed =>
      try_except
        (lift (checkpw (py_str password) hashed))
        (fun e =>
           let* _ := logger_error "Password verification failed" e in
           ret false)
  | _ => raise (AttributeError "object has no attribute 'encode'")
  end.

(** ** Login (app.py, lines 1398-1417) *)

Definition login (n_clicks : option Z) (username password : option string)
    (remember : bool) : M pyval :=
  if negb (truthy username) || negb (truthy password) then
    ret (PTuple [PNoUpdate; PStr "Please enter both username and password."])
  else
    let* ok := verify_user username password in
    if ok then
      let* session_id := uuid4 in
      let auth_data :=
        [("authenticated", PBool true);
         ("user", PStr (py_str username));
         ("session_id", PStr session_id)] in
      let auth_data :=
        if remember then auth_data ++ [("persistent", PBool true)]
        else auth_data in
      ret (PTuple [PDict auth_data; PStr ""])
    else
      ret (PTuple [PNoUpdate; PStr "Invalid username or password."]).

(** ** Overview (app.py, lines 1493-1547) *)

(** The body of the [try] block. *)
Definition overview_body : M pyval :=
  let* jobs := df_sum df (Some "jobs_placed") in
  let* demos := df_sum df (Some "scheduled_demos") in
  let* ai := df_sum df (Some "ai_requests") in
  let* events := df_sum df (Some "promotional_events") in
  let metrics_data :=
    [PFormat "," (NInt jobs); PFormat "," (NInt demos);
     PFormat "," (NInt ai); PFormat "," (NInt events)] in
  let* activity_df := df_grouper_sum df [] "W" (map Some metrics) in
  let* activity := deref activity_df in
  let activity_fig := px_line activity "date" (map Some metrics) false in
  let* by_country := df_groupby_sum df "country" [Some "jobs_placed"] in
  let* totals := df_get by_country (Some "jobs_placed") in
  let* labels := df_get by_country (Some "country") in
  let* top_country :=
    lift (match argmax (map cell_int totals) with
          | Some i => Returns (nth i labels CNull)
          | None => Raises (ValueError "attempt to get argmax of an empty sequence")
          end) in
  let* jobs_col := df_get df (Some "jobs_placed") in
  let* peak_row := lift (series_idxmax jobs_col) in
  let* peak_date := df_loc df peak_row "date" in
  let* peak_day :=
    lift (match peak_date with
          | CTime t => Returns (PStrftime "%b %d, %Y" t)
          | CNull => Raises (ValueError "NaTType does not support strftime")
          | _ => Raises (AttributeError "object has no attribute 'strftime'")
          end) in
  let* sums := mapM (fun x => df_sum df (Some x)) metrics in
  let best_metric :=
    match argmax sums with
    | Some i => metrics !! i
    | None => None
    end in
  ret (PTuple (metrics_data ++
               [PFig activity_fig; PCell top_country; peak_day;
                PStr (py_str (dict_get metric_map best_metric))])).

Definition update_overview_content (auth : pyval) (active_tab : option string)
  : M pyval :=
  let* e := df_is_empty df in
  if e || negb (bool_decide (active_tab = Some "overview")) then
    ret (PTuple [PList (replicate 4 (PStr "0")); PFig px_line_empty;
                 PStr "N/A"; PStr "N/A"; PStr "N/A"])
  else
    try_except overview_body
      (fun e =>
         let* _ := logger_error "Error updating overview" e in
         ret (PTuple [PList (replicate 4 (PStr "0")); PFig px_line_empty;
                      PStr "Error"; PStr "Error"; PStr "Error"])).

(** ** Analytics tab (app.py, lines 1549-1652) *)

Definition update_analytics_tab (start_date end_date metric continent : option string)
  : M pyval :=
  let* e := df_is_empty df in
  let* known := df_has_column df metric in
  if e || negb known then
    ret (PTuple [PList (replicate 5 (PStr "N/A"));
                 PFig go_Figure; PFig go_Figure; PFig go_Figure])
  else
    let* dff := df_copy df in
    let* dff :=
      if truthy start_date then
        let* dates := df_get dff (Some "date") in
        let* ts := lift (to_datetime (py_str start_date)) in
        let* m := lift (series_ge_ts dates ts) in
        df_filter dff m
      else ret dff in
    let* dff :=
      if truthy end_date then
        let* dates := df_get dff (Some "date") in
        let* ts := lift (to_datetime (py_str end_date)) in
        let* m := lift (series_le_ts dates ts) in
        df_filter dff m
      else ret dff in
    let* dff :=
      if neq_all continent then
        let* conts := df_get dff (Some "continent") in
        df_filter dff (series_eq conts continent)
      else ret dff in
    let* none := df_is_empty dff in
    if none then
      ret (PTuple [PList (replicate 5 (PStr "No data"));
                   PFig go_Figure; PFig go_Figure; PFig go_Figure])
    else
      let* total := df_sum dff metric in
      let* values := df_get dff metric in
      let avg := NStat "mean" values in
      let mx := NStat "max" values in
      let mn := NStat "min" values in
      let std := NStat "std" values in
      let label := py_str (dict_get metric_map metric) in
      let gauge1 := go_Indicator (NInt total) ("Total " +:+ label) mx in
      let gauge2 := go_Indicator std "Consistency (Std Dev)" avg in
      let* heatmap_df := df_grouper_sum dff ["country"] "M" [metric] in
      let* none := df_is_empty heatmap_df in
      let* heatmap_fig :=
        if negb none then
          let* h := deref heatmap_df in
          ret (px_imshow_pivot h "country" "date" metric)
        else ret go_Figure in
      ret (PTuple [PFormat ",.0f" (NInt total); PFormat ",.2f" avg;
                   PFormat ",.0f" mx; PFormat ",.0f" mn; PFormat ",.2f" std;
                   PFig gauge1; PFig gauge2; PFig heatmap_fig]).

(** ** Country drop-down options (app.py, lines 1676-1678 and the three
    option callbacks): [[{"label": c.title(), "value": c} for c in
    sorted(df[df['continent'] == continent]['country'].unique())]]. *)

Definition all_countries : pyval :=
  PDict [("label", PStr "All Countries"); ("value", PStr "all")].

Definition option_of (c : cell) : outcome pyval :=
  match c with
  | CStr s => Returns (PDict [("label", PStr (str_title s)); ("value", PStr s)])
  | _ => Raises (AttributeError "object has no attribute 'title'")
  end.

Definition countries_in_continent (continent : option string) : M (list pyval) :=
  let* conts := df_get df (Some "continent") in
  let* sub := df_filter df (series_eq conts continent) in
  let* countries := df_get sub (Some "country") in
  let* ordered := lift (py_sorted (unique countries)) in
  lift (mapE option_of ordered).

Definition country_options (continent : option string) : M pyval :=
  if bool_decide (continent = Some "all") then
    ret (PTuple [PList [all_countries]; PBool true])
  else
    let* opts := countries_in_continent continent in
    ret (PTuple [PList (all_countries :: opts); PBool false]).

Definition update_time_country_options := country_options.
Definition update_age_country_options := country_options.
Definition update_country_options := country_options.

(** ** Geo tab (app.py, lines 1654-1736) *)

Definition update_geo_tab (metric continent country performance_type : option string)
    (performance_count : Z) : M pyval :=
  let* e := df_is_empty df in
  let* known := df_has_column df metric in
  if e || negb known then
    ret (PTuple [PList []; PBool true; PFig go_Figure; PFig go_Figure;
                 PStr "Select a metric"])
  else
    let* options :=
      if bool_decide (continent = Some "all") then
        ret ([all_countries], true)
      else
        let* opts := countries_in_continent continent in
        ret (all_countries :: opts, false) in
    let '(country_options, disabled) := options in
    let* dff := df_copy df in
    let* dff :=
      if neq_all continent then
        let* conts := df_get dff (Some "continent") in
        df_filter dff (series_eq conts continent)
      else ret dff in
    let* dff :=
      if neq_all country && negb (bool_decide (country = None)) then
        let* cs := df_get dff (Some "country") in
        df_filter dff (series_eq cs country)
      else ret dff in
    let metric_label := py_str (dict_get metric_map metric) in
    let title_text := metric_label +:+ " - " in
    let* title_text :=
      if bool_decide (continent = Some "all") then
        ret (title_text +:+ "Global View")
      else
        let* ct := lift (title_of continent) in
        let title_text := title_text +:+ ct in
        if neq_all country && negb (bool_decide (country = None)) then
          let* cy := lift (title_of country) in
          ret (title_text +:+ " (" +:+ cy +:+ ")")
        else ret title_text in
    let* map_df := df_groupby_sum dff "country" [metric] in
    let* none := df_is_empty map_df in
    let* map_fig :=
      if negb none then
        let* d := deref map_df in
        ret (px_choropleth d "country" metric)
      else ret go_Figure in
    let* countries_df := df_groupby_sum dff "country" [metric] in
    let* none := df_is_empty countries_df in
    let* bar_fig :=
      if negb none then
        let* countries_df :=
          if bool_decide (performance_type = Some "top") then
            df_nlargest countries_df performance_count metric
          else
            df_nsmallest countries_df performance_count metric in
        let* d := deref countries_df in
        ret (px_bar d [metric] [Some "country"] "")
      else ret go_Figure in
    ret (PTuple [PList country_options; PBool disabled; PFig map_fig;
                 PFig bar_fig; PStr title_text]).

(** ** Time tab (app.py, lines 1753-1838) *)

Definition granularity_map : list (string * string) :=
  [("D", "Daily"); ("W", "Weekly"); ("M", "Monthly"); ("Y", "Yearly")].

(** [", ".join(parts)]. *)
Fixpoint join_comma (parts : list string) : string :=
  match parts with
  | [] => ""
  | [p] => p
  | p :: ps => p +:+ ", " +:+ join_comma ps
  end.

Definition update_time_tab
    (start_date end_date metric continent country granularity : option string)
  : M pyval :=
  let* e := df_is_empty df in
  let* known := df_has_column df metric in
  if e || negb known then
    ret (PTuple [PFig go_Figure; PStr "Select a metric"])
  else
    let* dff := df_copy df in
    let* dff :=
      if truthy start_date then
        let* dates := df_get dff (Some "date") in
        let* ts := lift (to_datetime (py_str start_date)) in
        let* m := lift (series_ge_ts dates ts) in
        df_filter dff m
      else ret dff in
    let* dff :=
      if truthy end_date then
        let* dates := df_get dff (Some "date") in
        let* ts := lift (to_datetime (py_str end_date)) in
        let* m := lift (series_le_ts dates ts) in
        df_filter dff m
      else ret dff in
    let* dff :=
      if neq_all continent then
        let* conts := df_get dff (Some "continent") in
        df_filter dff (series_eq conts continent)
      else ret dff in
    let* dff :=
      if neq_all country then
        let* cs := df_get dff (Some "country") in
        df_filter dff (series_eq cs country)
      else ret dff in
    let* none := df_is_empty dff in
    if none then
      ret (PTuple [PFig go_Figure; PStr "No data available for selected filters"])
    else
      let* resampled := df_resample_sum dff granularity [metric] in
      let metric_label := py_str (dict_get metric_map metric) in
      let granularity_label := py_str (dict_get granularity_map granularity) in
      let* part1 :=
        if neq_all continent then
          let* t := lift (title_of continent) in ret [t]
        else ret [] in
      let* part2 :=
        if neq_all country then
          let* t := lift (title_of country) in ret [t]
        else ret [] in
      let region_parts := part1 ++ part2 in
      let region_label :=
        match region_parts with
        | [] => "Globally"
        | _ => "in " +:+ join_comma region_parts
        end in
      let dynamic_title :=
        granularity_label +:+ " " +:+ metric_label +:+ " " +:+ region_label in
      let* r := deref resampled in
      let fig := px_line r "date" [metric] (bool_decide (2 < length (rows r))%nat) in
      ret (PTuple [PFig fig; PStr dynamic_title]).

(** ** Age tab (app.py, lines 1855-1921) *)

Definition update_age_tab (metric continent country : option string) : M pyval :=
  let* e := df_is_empty df in
  let* has_age := df_has_column df (Some "age_group") in
  let* known := df_has_column df metric in
  if e || negb has_age || negb known then
    ret (PTuple [PFig go_Figure; PFig go_Figure])
  else
    let* dff := df_copy df in
    let* dff :=
      if neq_all continent then
        let* conts := df_get dff (Some "continent") in
        df_filter dff (series_eq conts continent)
      else ret dff in
    let* dff :=
      if neq_all country then
        let* cs := df_get dff (Some "country") in
        df_filter dff (series_eq cs country)
      else ret dff in
    let* none := df_is_empty dff in
    if none then
      ret (PTuple [PFig go_Figure; PFig go_Figure])
    else
      let metric_label := py_str (dict_get metric_map metric) in
      let* bar_df := df_groupby_sum dff "age_group" [metric] in
      let* b := deref bar_df in
      let bar_fig :=
        px_bar b [Some "age_group"] [metric] (metric_label +:+ " Across Age Groups") in
      let pie_fig :=
        px_pie b "age_group" metric (metric_label +:+ " Share by Age Group") in
      ret (PTuple [PFig bar_fig; PFig pie_fig]).

(** ** Summary tab (app.py, lines 1938-2035) *)

Definition update_summary_tab (continent country view_type : option string)
  : M pyval :=
  let* e := df_is_empty df in
  if e then
    ret (PTuple [PFig go_Figure; PFig go_Figure; PFig go_Figure])
  else
    let* dff := df_copy df in
    let* dff :=
      if neq_all continent then
        let* conts := df_get dff (Some "continent") in
        df_filter dff (series_eq conts continent)
      else ret dff in
    let* dff :=
      if neq_all country then
        let* cs := df_get dff (Some "country") in
        df_filter dff (series_eq cs country)
      else ret dff in
    let* d := deref dff in
    let present := filter (fun m => m ∈ columns d) metrics in
    let* totals := mapM (fun m => df_sum dff (Some m)) present in
    let donut_fig :=
      px_pie_values (map (fun m => py_str (dict_get metric_map (Some m))) present)
        totals in
    let group_by :=
      if bool_decide (continent = Some "all") then "continent" else "country" in
    let* stacked_df := df_groupby_sum dff group_by (map Some metrics) in
    let percentage := bool_decide (view_type = Some "percentage") in
    let* _ :=
      if percentage then df_setitem_pct stacked_df metrics else ret tt in
    let* st := deref stacked_df in
    let stacked_fig :=
      px_bar st [Some group_by] (map Some metrics)
        (if percentage then "Percentage" else "Count") in
    let* trend_df := df_resample_sum dff (Some "M") (map Some metrics) in
    let* tr := deref trend_df in
    let trend_fig := px_line tr "date" (map Some metrics) false in
    ret (PTuple [PFig donut_fig; PFig stacked_fig; PFig trend_fig]).

(** ** Export preview and CSV download (app.py, lines 2038-2071, 2324-2349) *)

(** [[col for col in keep if col in d.columns]]. *)
Definition labels_in (d : DataFrame) (keep : list (option string)) : list string :=
  flat_map (fun c =>
              match c with
              | Some c' => if bool_decide (c' ∈ columns d) then [c'] else []
              | None => []
              end) keep.

Definition update_export_preview (start_date end_date metric continent : option string)
  : M pyval :=
  let* e := df_is_empty df in
  if e then
    ret (PTuple [PList []; PStr "No data available"])
  else
    let* dff := df_copy df in
    let* dff :=
      if truthy start_date then
        let* dates := df_get dff (Some "date") in
        let* ts := lift (to_datetime (py_str start_date)) in
        let* m := lift (series_ge_ts dates ts) in
        df_filter dff m
      else ret dff in
    let* dff :=
      if truthy end_date then
        let* dates := df_get dff (Some "date") in
        let* ts := lift (to_datetime (py_str end_date)) in
        let* m := lift (series_le_ts dates ts) in
        df_filter dff m
      else ret dff in
    let* dff :=
      if neq_all continent then
        let* conts := df_get dff (Some "continent") in
        df_filter dff (series_eq conts continent)
      else ret dff in
    let* dff :=
      if neq_all metric then
        let columns_to_keep :=
          [Some "date"; Some "country"; Some "continent"; Some "age_group"; metric] in
        let* d := deref dff in
        df_select dff (labels_in d columns_to_keep)
      else ret dff in
    let filters_applied :=
      negb (bool_decide (start_date = None)) || negb (bool_decide (end_date = None))
      || neq_all continent || neq_all metric in
    let header_text :=
      if filters_applied then "Filtered Dataset Preview"
      else "Dataset Preview (First 10 rows)" in
    let* d := deref dff in
    ret (PTuple [PRecords (to_records (head 10 d)); PStr header_text]).

Definition download_csv (n_clicks : option Z)
    (start_date end_date metric continent : option string) : M pyval :=
  let* e := df_is_empty df in
  if e then ret PNone
  else
    let* dff := df_copy df in
    let* dff :=
      if truthy start_date then
        let* dates := df_get dff (Some "date") in
        let* ts := lift (to_datetime (py_str start_date)) in
        let* m := lift (series_ge_ts dates ts) in
        df_filter dff m
      else ret dff in
    let* dff :=
      if truthy end_date then
        let* dates := df_get dff (Some "date") in
        let* ts := lift (to_datetime (py_str end_date)) in
        let* m := lift (series_le_ts dates ts) in
        df_filter dff m
      else ret dff in
    let* dff :=
      if neq_all continent then
        let* conts := df_get dff (Some "continent") in
        df_filter dff (series_eq conts continent)
      else ret dff in
    let* dff :=
      if neq_all metric then
        let columns_to_keep :=
          [Some "date"; Some "country"; Some "continent"; Some "age_group"; metric] in
        let* d := deref dff in
        df_select dff (labels_in d columns_to_keep)
      else ret dff in
    let* d := deref dff in
    ret (PDownload "exported_data.csv" d).

(** ** The tab callbacks as one family *)

Inductive call : Type :=
  | Overview (auth : pyval) (active_tab : option string)
  | Analytics (start_date end_date metric continent : option string)
  | Geo (metric continent country performance_type : option string)
      (performance_count : Z)
  | TimeOptions (continent : option string)
  | TimeTab (start_date end_date metric continent country granularity : option string)
  | AgeOptions (continent : option string)
  | AgeTab (metric continent country : option string)
  | SummaryOptions (continent : option string)
  | SummaryTab (continent country view_type : option string)
  | ExportPreview (start_date end_date metric continent : option string)
  | DownloadCsv (n_clicks : option Z)
      (start_date end_date metric continent : option string).

Definition run_callback (c : call) : M pyval :=
  match c with
  | Overview auth tab => update_overview_content auth tab
  | Analytics sd ed m ct => update_analytics_tab sd ed m ct
  | Geo m ct cy pt pc => update_geo_tab m ct cy pt pc
  | TimeOptions ct => update_time_country_options ct
  | TimeTab sd ed m ct cy g => update_time_tab sd ed m ct cy g
  | AgeOptions ct => update_age_country_options ct
  | AgeTab m ct cy => update_age_tab m ct cy
  | SummaryOptions ct => update_country_options ct
  | SummaryTab ct cy v => update_summary_tab ct cy v
  | ExportPreview sd ed m ct => update_export_preview sd ed m ct
  | DownloadCsv n sd ed m ct => download_csv n sd ed m ct
  end.

(* ===================================================================== *)
(** * The callbacks as functions of the loaded table

    What each callback returns, written as a function of the contents of
    the table behind [df]; the store no longer appears.  The callbacks are
    proved to compute exactly these values (section "Soundness"). *)
(* ===================================================================== *)

(** ** The filters *)

(** [dff = dff[dff['date'] >= pd.to_datetime(start_date)]], if set. *)
Definition date_from (start_date : option string) (d : DataFrame)
  : outcome DataFrame :=
  if truthy start_date then
    obind (getitem_opt (Some "date") d) (fun dates =>
    obind (to_datetime (py_str start_date)) (fun ts =>
    obind (series_ge_ts dates ts) (fun m =>
    Returns (df_mask d m))))
  else Returns d.

(** [dff = dff[dff['date'] <= pd.to_datetime(end_date)]], if set. *)
Definition date_until (end_date : option string) (d : DataFrame)
  : outcome DataFrame :=
  if truthy end_date then
    obind (getitem_opt (Some "date") d) (fun dates =>
    obind (to_datetime (py_str end_date)) (fun ts =>
    obind (series_le_ts dates ts) (fun m =>
    Returns (df_mask d m))))
  else Returns d.

(** [dff = dff[dff[c] == v]] unless [v] is ["all"]. *)
Definition where_eq (c : string) (v : option string) (d : DataFrame)
  : outcome DataFrame :=
  if neq_all v then
    obind (getitem_opt (Some c) d) (fun col =>
    Returns (df_mask d (series_eq col v)))
  else Returns d.

(** The geo tab also lets [None] through. *)
Definition where_eq_some (c : string) (v : option string) (d : DataFrame)
  : outcome DataFrame :=
  if neq_all v && negb (bool_decide (v = None)) then
    obind (getitem_opt (Some c) d) (fun col =>
    Returns (df_mask d (series_eq col v)))
  else Returns d.

(** The column selection of the export tab. *)
Definition keep_columns (metric : option string) (d : DataFrame)
  : outcome DataFrame :=
  if neq_all metric then
    select_columns d
      (labels_in d [Some "date"; Some "country"; Some "continent";
                    Some "age_group"; metric])
  else Returns d.

(** Date range and continent (analytics, export). *)
Definition filtered (t : DataFrame) (start_date end_date continent : option string)
  : outcome DataFrame :=
  obind (date_from start_date t) (fun d1 =>
  obind (date_until end_date d1) (fun d2 =>
  where_eq "continent" continent d2)).

(** Continent and country (age, summary). *)
Definition in_region (t : DataFrame) (continent country : option string)
  : outcome DataFrame :=
  obind (where_eq "continent" continent t) (fun d1 =>
  where_eq "country" country d1).

(** What the export tab shows and downloads. *)
Definition export_view (t : DataFrame)
    (start_date end_date metric continent : option string) : outcome DataFrame :=
  obind (filtered t start_date end_date continent) (keep_columns metric).

(** ** The callbacks *)

Definition overview_body_value (t : DataFrame) : outcome pyval :=
  obind (col_sum (Some "jobs_placed") t) (fun jobs =>
  obind (col_sum (Some "scheduled_demos") t) (fun demos =>
  obind (col_sum (Some "ai_requests") t) (fun ai =>
  obind (col_sum (Some "promotional_events") t) (fun events =>
  obind (grouper_sum [] "W" (map Some metrics) t) (fun activity =>
  obind (groupby_sum_opt "country" [Some "jobs_placed"] t) (fun by_country =>
  obind (getitem_opt (Some "jobs_placed") by_country) (fun totals =>
  obind (getitem_opt (Some "country") by_country) (fun labels =>
  obind (match argmax (map cell_int totals) with
         | Some i => Returns (nth i labels CNull)
         | None => Raises (ValueError "attempt to get argmax of an empty sequence")
         end) (fun top_country =>
  obind (getitem_opt (Some "jobs_placed") t) (fun jobs_col =>
  obind (series_idxmax jobs_col) (fun peak_row =>
  obind (loc_at peak_row "date" t) (fun peak_date =>
  obind (match peak_date with
         | CTime t => Returns (PStrftime "%b %d, %Y" t)
         | CNull => Raises (ValueError "NaTType does not support strftime")
         | _ => Raises (AttributeError "object has no attribute 'strftime'")
         end) (fun peak_day =>
  obind (mapE (fun x => col_sum (Some x) t) metrics) (fun sums =>
  Returns (PTuple ([PFormat "," (NInt jobs); PFormat "," (NInt demos);
                    PFormat "," (NInt ai); PFormat "," (NInt events)] ++
                   [PFig (px_line activity "date" (map Some metrics) false);
                    PCell top_country; peak_day;
                    PStr (py_str (dict_get metric_map
                                    match argmax sums with
                                    | Some i => metrics !! i
                                    | None => None
                                    end))])))))))))))))))).

Definition overview_value (t : DataFrame) (active_tab : option string) : pyval :=
  if df_empty t || negb (bool_decide (active_tab = Some "overview")) then
    PTuple [PList (replicate 4 (PStr "0")); PFig px_line_empty;
            PStr "N/A"; PStr "N/A"; PStr "N/A"]
  else
    match overview_body_value t with
    | Returns v => v
    | Raises _ =>
        PTuple [PList (replicate 4 (PStr "0")); PFig px_line_empty;
                PStr "Error"; PStr "Error"; PStr "Error"]
    end.

Definition analytics_value (t : DataFrame)
    (start_date end_date metric continent : option string) : outcome pyval :=
  if df_empty t || negb (has_column t metric) then
    Returns (PTuple [PList (replicate 5 (PStr "N/A"));
                     PFig go_Figure; PFig go_Figure; PFig go_Figure])
  else
    obind (filtered t start_date end_date continent) (fun d =>
    if df_empty d then
      Returns (PTuple [PList (replicate 5 (PStr "No data"));
                       PFig go_Figure; PFig go_Figure; PFig go_Figure])
    else
      obind (col_sum metric d) (fun total =>
      obind (getitem_opt metric d) (fun values =>
      obind (grouper_sum ["country"] "M" [metric] d) (fun h =>
      Returns (PTuple
        [PFormat ",.0f" (NInt total); PFormat ",.2f" (NStat "mean" values);
         PFormat ",.0f" (NStat "max" values); PFormat ",.0f" (NStat "min" values);
         PFormat ",.2f" (NStat "std" values);
         PFig (go_Indicator (NInt total)
                 ("Total " +:+ py_str (dict_get metric_map metric))
                 (NStat "max" values));
         PFig (go_Indicator (NStat "std" values) "Consistency (Std Dev)"
                 (NStat "mean" values));
         PFig (if negb (df_empty h)
               then px_imshow_pivot h "country" "date" metric
               else go_Figure)]))))).

Definition countries_of (continent : option string) (t : DataFrame)
  : outcome (list pyval) :=
  obind (getitem_opt (Some "continent") t) (fun conts =>
  obind (getitem_opt (Some "country") (df_mask t (series_eq conts continent)))
    (fun countries =>
  obind (py_sorted (unique countries)) (fun ordered =>
  mapE option_of ordered))).

Definition country_options_value (t : DataFrame) (continent : option string)
  : outcome pyval :=
  if bool_decide (continent = Some "all") then
    Returns (PTuple [PList [all_countries]; PBool true])
  else
    obind (countries_of continent t) (fun opts =>
    Returns (PTuple [PList (all_countries :: opts); PBool false])).

Definition geo_value (t : DataFrame)
    (metric continent country performance_type : option string)
    (performance_count : Z) : outcome pyval :=
  if df_empty t || negb (has_column t metric) then
    Returns (PTuple [PList []; PBool true; PFig go_Figure; PFig go_Figure;
                     PStr "Select a metric"])
  else
    obind (if bool_decide (continent = Some "all") then
             Returns ([all_countries], true)
           else
             obind (countries_of continent t) (fun opts =>
             Returns (all_countries :: opts, false))) (fun options =>
    obind (where_eq "continent" continent t) (fun d1 =>
    obind (where_eq_some "country" country d1) (fun d =>
    obind (if bool_decide (continent = Some "all") then
             Returns ((py_str (dict_get metric_map metric) +:+ " - ")
                      +:+ "Global View")
           else
             obind (title_of continent) (fun ct =>
             if neq_all country && negb (bool_decide (country = None)) then
               obind (title_of country) (fun cy =>
               Returns (((py_str (dict_get metric_map metric) +:+ " - ") +:+ ct)
                        +:+ " (" +:+ cy +:+ ")"))
             else
               Returns ((py_str (dict_get metric_map metric) +:+ " - ") +:+ ct)))
      (fun title_text =>
    obind (groupby_sum_opt "country" [metric] d) (fun g =>
    obind (if negb (df_empty g) then
             obind (if bool_decide (performance_type = Some "top")
                    then nlargest_opt performance_count metric g
                    else nsmallest_opt performance_count metric g) (fun top =>
             Returns (px_bar top [metric] [Some "country"] ""))
           else Returns go_Figure) (fun bar_fig =>
    Returns (PTuple [PList (fst options); PBool (snd options);
                     PFig (if negb (df_empty g)
                           then px_choropleth g "country" metric
                           else go_Figure);
                     PFig bar_fig; PStr title_text]))))))).

Definition time_value (t : DataFrame)
    (start_date end_date metric continent country granularity : option string)
  : outcome pyval :=
  if df_empty t || negb (has_column t metric) then
    Returns (PTuple [PFig go_Figure; PStr "Select a metric"])
  else
    obind (filtered t start_date end_date continent) (fun d0 =>
    obind (where_eq "country" country d0) (fun d =>
    if df_empty d then
      Returns (PTuple [PFig go_Figure;
                       PStr "No data available for selected filters"])
    else
      obind (resample_sum granularity [metric] d) (fun r =>
      obind (if neq_all continent
             then obind (title_of continent) (fun x => Returns [x])
             else Returns []) (fun part1 =>
      obind (if neq_all country
             then obind (title_of country) (fun x => Returns [x])
             else Returns []) (fun part2 =>
      Returns (PTuple
        [PFig (px_line r "date" [metric] (bool_decide (2 < length (rows r))%nat));
         PStr (py_str (dict_get granularity_map granularity) +:+ " " +:+
               py_str (dict_get metric_map metric) +:+ " " +:+
               match (part1 ++ part2)%list with
               | [] => "Globally"
               | _ => "in " +:+ join_comma (part1 ++ part2)%list
               end)])))))).

Definition age_value (t : DataFrame) (metric continent country : option string)
  : outcome pyval :=
  if df_empty t || negb (has_column t (Some "age_group"))
     || negb (has_column t metric) then
    Returns (PTuple [PFig go_Figure; PFig go_Figure])
  else
    obind (in_region t continent country) (fun d =>
    if df_empty d then Returns (PTuple [PFig go_Figure; PFig go_Figure])
    else
      obind (groupby_sum_opt "age_group" [metric] d) (fun b =>
      Returns (PTuple
        [PFig (px_bar b [Some "age_group"] [metric]
                 (py_str (dict_get metric_map metric) +:+ " Across Age Groups"));
         PFig (px_pie b "age_group" metric
                 (py_str (dict_get metric_map metric) +:+ " Share by Age Group"))]))).

(** The table behind the stacked bar chart of the summary tab. *)
Definition stacked_table (d : DataFrame) (continent view_type : option string)
  : outcome DataFrame :=
  obind (groupby_sum_opt
           (if bool_decide (continent = Some "all") then "continent" else "country")
           (map Some metrics) d) (fun st =>
  if bool_decide (view_type = Some "percentage")
  then pct_columns st metrics
  else Returns st).

Definition summary_value (t : DataFrame) (continent country view_type : option string)
  : outcome pyval :=
  if df_empty t then
    Returns (PTuple [PFig go_Figure; PFig go_Figure; PFig go_Figure])
  else
    obind (in_region t continent country) (fun d =>
    obind (mapE (fun m => col_sum (Some m) d)
             (filter (fun m => m ∈ columns d) metrics)) (fun totals =>
    obind (stacked_table d continent view_type) (fun st =>
    obind (resample_sum (Some "M") (map Some metrics) d) (fun tr =>
    Returns (PTuple
      [PFig (px_pie_values
               (map (fun m => py_str (dict_get metric_map (Some m)))
                  (filter (fun m => m ∈ columns d) metrics))
               totals);
       PFig (px_bar st
               [Some (if bool_decide (continent = Some "all")
                      then "continent" else "country")]
               (map Some metrics)
               (if bool_decide (view_type = Some "percentage")
                then "Percentage" else "Count"));
       PFig (px_line tr "date" (map Some metrics) false)]))))).

Definition export_preview_value (t : DataFrame)
    (start_date end_date metric continent : option string) : outcome pyval :=
  if df_empty t then
    Returns (PTuple [PList []; PStr "No data available"])
  else
    obind (export_view t start_date end_date metric continent) (fun d =>
    Returns (PTuple
      [PRecords (to_records (head 10 d));
       PStr (if negb (bool_decide (start_date = None))
                || negb (bool_decide (end_date = None))
                || neq_all continent || neq_all metric
             then "Filtered Dataset Preview"
             else "Dataset Preview (First 10 rows)")])).

Definition download_value (t : DataFrame)
    (start_date end_date metric continent : option string) : outcome pyval :=
  if df_empty t then Returns PNone
  else
    obind (export_view t start_date end_date metric continent) (fun d =>
    Returns (PDownload "exported_data.csv" d)).

(** All tab callbacks. *)
Definition callback_value (t : DataFrame) (c : call) : outcome pyval :=
  match c with
  | Overview auth tab => Returns (overview_value t tab)
  | Analytics sd ed m ct => analytics_value t sd ed m ct
  | Geo m ct cy pt pc => geo_value t m ct cy pt pc
  | TimeOptions ct => country_options_value t ct
  | TimeTab sd ed m ct cy g => time_value t sd ed m ct cy g
  | AgeOptions ct => country_options_value t ct
  | AgeTab m ct cy => age_value t m ct cy
  | SummaryOptions ct => country_options_value t ct
  | SummaryTab ct cy v => summary_value t ct cy v
  | ExportPreview sd ed m ct => export_preview_value t sd ed m ct
  | DownloadCsv n sd ed m ct => download_value t sd ed m ct
  end.

(** The credential check as a function of the user table. *)
Definition verify_value (users : DataFrame) (username password : option string)
  : outcome bool :=
  if negb (truthy username) || negb (truthy password) then Returns false
  else
    obind (getitem_opt (Some "username") users) (fun names =>
    if df_empty (df_mask users (series_eq names username)) then Returns false
    else
      obind (iloc0 "password_hash" (df_mask users (series_eq names username)))
        (fun h =>
      match h with
      | CStr hashed =>
          Returns (match checkpw (py_str password) hashed with
                   | Returns b => b
                   | Raises _ => false
                   end)
      | _ => Raises (AttributeError "object has no attribute 'encode'")
      end)).

(* ===================================================================== *)
(** * Soundness: the callbacks compute the values above *)
(* ===================================================================== *)

Lemma bind_ret {A B} (a : A) (k : A -> M B) s : bind (ret a) k s = k a s.
Proof. reflexivity. Qed.

Lemma bind_assoc {A B C} (m : M A) (f : A -> M B) (k : B -> M C) s :
  bind (bind m f) k s = bind m (fun x => bind (f x) k) s.
Proof. unfold bind. destruct (m s) as [[a|e] s']; reflexivity. Qed.

Lemma bind_if {A B} (c : bool) (m1 m2 : M A) (k : A -> M B) s :
  bind (if c then m1 else m2) k s = if c then bind m1 k s else bind m2 k s.
Proof. destruct c; reflexivity. Qed.

Lemma bind_lift {A B} (o : outcome A) (k : A -> M B) s :
  bind (lift o) k s
  = match o with Returns a => k a s | Raises e => (Raises e, s) end.
Proof. reflexivity. Qed.

Lemma bind_deref {B} l d (k : DataFrame -> M B) s :
  heap s !! l = Some d -> bind (deref l) k s = k d s.
Proof. intros H. unfold bind, deref. by rewrite H. Qed.

Lemma bind_read {A B} l d (f : DataFrame -> outcome A) (k : A -> M B) s :
  heap s !! l = Some d ->
  bind (read l f) k s
  = match f d with Returns a => k a s | Raises e => (Raises e, s) end.
Proof.
  intros H. unfold read. rewrite bind_assoc, (bind_deref _ d) by done.
  apply bind_lift.
Qed.

Lemma bind_derive {B} l d (f : DataFrame -> outcome DataFrame) (k : loc -> M B) s :
  heap s !! l = Some d ->
  bind (derive l f) k s
  = match f d with
    | Returns d' => k (length (heap s)) (set_heap s (heap s ++ [d']))
    | Raises e => (Raises e, s)
    end.
Proof.
  intros H. unfold derive. rewrite bind_assoc, (bind_deref _ d) by done.
  rewrite bind_assoc, bind_lift. destruct (f d); reflexivity.
Qed.

Lemma bind_update {B} l d (f : DataFrame -> outcome DataFrame) (k : unit -> M B) s :
  heap s !! l = Some d ->
  bind (update l f) k s
  = match f d with
    | Returns d' => k tt (set_heap s (<[l := d']> (heap s)))
    | Raises e => (Raises e, s)
    end.
Proof.
  intros H. unfold update. rewrite bind_assoc, (bind_deref _ d) by done.
  rewrite bind_assoc, bind_lift. destruct (f d); reflexivity.
Qed.

Lemma insert_snoc_here (h : list DataFrame) d d' :
  <[length h := d']> (h ++ [d]) = h ++ [d'].
Proof.
  rewrite insert_app_r_alt by lia. by rewrite Nat.sub_diag.
Qed.

Lemma bind_mapM_read {A B} l d (f : A -> DataFrame -> outcome Z) xs
    (k : list Z -> M B) s :
  heap s !! l = Some d ->
  bind (mapM (fun x => read l (f x)) xs) k s
  = match mapE (fun x => f x d) xs with
    | Returns zs => k zs s
    | Raises e => (Raises e, s)
    end.
Proof.
  intros H. revert k. induction xs as [|x xs IH]; intros k; [reflexivity|].
  cbn [mapM mapE]. rewrite bind_assoc, (bind_read _ d) by done.
  destruct (f x d) as [z|e]; cbn [obind]; [|reflexivity].
  rewrite bind_assoc, IH.
  destruct (mapE (fun x0 => f x0 d) xs); reflexivity.
Qed.

Lemma lookup_snoc_here (h : list DataFrame) d : (h ++ [d]) !! length h = Some d.
Proof. by rewrite list_lookup_middle. Qed.

Lemma lookup_snoc_old (h : list DataFrame) d l x :
  h !! l = Some x -> (h ++ [d]) !! l = Some x.
Proof. intros. by apply lookup_app_l_Some. Qed.

Create HintDb heapdb.
#[local] Hint Resolve lookup_snoc_here lookup_snoc_old : heapdb.

(** The object behind a reference, read off the shape of the store. *)
Ltac points := unfold set_heap; cbn [heap]; eauto 20 with heapdb.

Ltac unfold_calls :=
  unfold df_copy, df_get, df_filter, df_is_empty, df_has_column,
    df_groupby_sum, df_select, df_nlargest, df_nsmallest, df_iloc0, df_loc,
    df_sum, df_grouper_sum, df_resample_sum, df_setitem_pct.

(** One step of the callback on the left of [exists s', m s = (v, s') /\ _];
    the value [v] on the right follows along. *)
Ltac step :=
  first
    [ rewrite bind_ret
    | rewrite bind_assoc
    | rewrite bind_if
    | rewrite bind_lift
    | erewrite bind_mapM_read by points
    | erewrite bind_read by points
    | erewrite bind_derive by points
    | erewrite bind_update by points
    | rewrite insert_snoc_here
    | erewrite bind_deref by points
    | match goal with
      | |- exists _, match ?o with Returns _ => _ | Raises _ => _ end = _ /\ _ =>
          first [ match goal with H : o = _ |- _ => rewrite H end
                | destruct o eqn:? ]
      | |- exists _, (if ?c then _ else _) = _ /\ _ =>
          first [ match goal with H : c = _ |- _ => rewrite H end
                | destruct c eqn:? ]
      | |- exists _, (if ?c then _ else _) _ = _ /\ _ =>
          first [ match goal with H : c = _ |- _ => rewrite H end
                | destruct c eqn:? ]
      end ];
  unfold set_heap; cbn [obind heap log uuids_drawn fst snd].

Ltac run :=
  match goal with s : state |- _ => destruct s as [? ? ?] end;
  cbn [heap log uuids_drawn] in *;
  unfold_calls; repeat step.

Ltac done_run := eexists; split; [reflexivity | points].

Lemma update_analytics_tab_sound sd ed metric continent s t :
  heap s !! df = Some t ->
  exists s', update_analytics_tab sd ed metric continent s
             = (analytics_value t sd ed metric continent, s')
             /\ heap s' !! df = Some t.
Proof.
  intros Hdf.
  unfold update_analytics_tab, analytics_value, filtered, date_from, date_until, where_eq.
  run.
  all: try done_run.
Qed.

Lemma country_options_sound continent s t :
  heap s !! df = Some t ->
  exists s', country_options continent s = (country_options_value t continent, s')
             /\ heap s' !! df = Some t.
Proof.
  intros Hdf.
  unfold country_options, country_options_value, countries_in_continent, countries_of.
  run.
  all: try done_run.
Qed.

Lemma overview_body_sound s t :
  heap s !! df = Some t ->
  exists s', overview_body s = (overview_body_value t, s')
             /\ (heap s' !! df = Some t /\ log s' = log s).
Proof.
  intros Hdf.
  unfold overview_body, overview_body_value.
  run.
  all: try (eexists; split; [reflexivity | split; [points | reflexivity]]).
Qed.

Lemma update_geo_tab_sound m ct cy pt pc s t :
  heap s !! df = Some t ->
  exists s', update_geo_tab m ct cy pt pc s = (geo_value t m ct cy pt pc, s')
             /\ heap s' !! df = Some t.
Proof.
  intros Hdf.
  unfold update_geo_tab, geo_value, countries_in_continent, countries_of,
    where_eq, where_eq_some.
  run.
  all: try done_run.
Qed.

Lemma update_time_tab_sound sd ed m ct cy g s t :
  heap s !! df = Some t ->
  exists s', update_time_tab sd ed m ct cy g s = (time_value t sd ed m ct cy g, s')
             /\ heap s' !! df = Some t.
Proof.
  intros Hdf.
  unfold update_time_tab, time_value, filtered, date_from, date_until, where_eq.
  run.
  all: try done_run.
Qed.

Lemma update_age_tab_sound m ct cy s t :
  heap s !! df = Some t ->
  exists s', update_age_tab m ct cy s = (age_value t m ct cy, s')
             /\ heap s' !! df = Some t.
Proof.
  intros Hdf.
  unfold update_age_tab, age_value, in_region, where_eq.
  run.
  all: try done_run.
Qed.

Lemma update_summary_tab_sound ct cy v s t :
  heap s !! df = Some t ->
  exists s', update_summary_tab ct cy v s = (summary_value t ct cy v, s')
             /\ heap s' !! df = Some t.
Proof.
  intros Hdf.
  unfold update_summary_tab, summary_value, stacked_table, in_region, where_eq.
  run.
  all: try done_run.
Qed.

Lemma update_export_preview_sound sd ed m ct s t :
  heap s !! df = Some t ->
  exists s', update_export_preview sd ed m ct s
             = (export_preview_value t sd ed m ct, s')
             /\ heap s' !! df = Some t.
Proof.
  intros Hdf.
  unfold update_export_preview, export_preview_value, export_view, filtered,
    date_from, date_until, where_eq, keep_columns.
  run.
  all: try done_run.
Qed.

Lemma download_csv_sound n sd ed m ct s t :
  heap s !! df = Some t ->
  exists s', download_csv n sd ed m ct s = (download_value t sd ed m ct, s')
             /\ heap s' !! df = Some t.
Proof.
  intros Hdf.
  unfold download_csv, download_value, export_view, filtered,
    date_from, date_until, where_eq, keep_columns.
  run.
  all: try done_run.
Qed.

Lemma try_except_run {A} (m : M A) (h : exn -> M A) s :
  try_except m h s
  = match m s with
    | (Returns a, s') => (Returns a, s')
    | (Raises e, s') => h e s'
    end.
Proof. reflexivity. Qed.

Lemma update_overview_content_sound auth tab s t :
  heap s !! df = Some t ->
  exists s', update_overview_content auth tab s = (Returns (overview_value t tab), s')
             /\ heap s' !! df = Some t.
Proof.
  intros Hdf.
  unfold update_overview_content, overview_value.
  destruct (overview_body_sound s t Hdf) as (s1 & Hbody & Hdf1 & _).
  unfold df_is_empty. erewrite bind_read by eassumption.
  destruct (df_empty t || negb (bool_decide (tab = Some "overview"))).
  - eexists; split; [reflexivity | done].
  - rewrite try_except_run, Hbody.
    destruct (overview_body_value t).
    + eexists; split; [reflexivity | done].
    + eexists; split; [reflexivity | done].
Qed.

Lemma run_callback_sound c s t :
  heap s !! df = Some t ->
  exists s', run_callback c s = (callback_value t c, s') /\ heap s' !! df = Some t.
Proof.
  intros Hdf. destruct c; cbn [run_callback callback_value].
  - by apply update_overview_content_sound.
  - by apply update_analytics_tab_sound.
  - by apply update_geo_tab_sound.
  - by apply country_options_sound.
  - by apply update_time_tab_sound.
  - by apply country_options_sound.
  - by apply update_age_tab_sound.
  - by apply country_options_sound.
  - by apply update_summary_tab_sound.
  - by apply update_export_preview_sound.
  - by apply download_csv_sound.
Qed.

(* ===================================================================== *)
(** * Facts about the pandas fragment *)
(* ===================================================================== *)

Lemma obind_returns {A B} (o : outcome A) (k : A -> outcome B) a :
  o = Returns a -> obind o k = k a.
Proof. by intros ->. Qed.

Lemma mapE_map {A B} (f : A -> outcome B) (g : A -> B) (l : list A) :
  (forall x, x ∈ l -> f x = Returns (g x)) ->
  mapE f l = Returns (map g l).
Proof.
  induction l as [|x l IH]; intros H; [reflexivity|].
  cbn [mapE map]. rewrite (H x) by left. cbn [obind].
  rewrite IH; [reflexivity|]. intros y Hy. apply H. by right.
Qed.


Lemma col_pos_elem c cols : c ∈ cols <-> is_Some (col_pos c cols).
Proof.
  induction cols as [|x cols IH]; cbn [col_pos].
  - split; [by intros ?%elem_of_nil | by intros [? [=]]].
  - case_bool_decide as E.
    + subst. split; [by eexists | left].
    + rewrite elem_of_cons, IH. split.
      * intros [->|[i Hi]]; [done|]. rewrite Hi. by eexists.
      * intros [i Hi]. right. destruct (col_pos c cols); [by eexists | done].
Qed.

Lemma getitem_at d c i :
  col_pos c (columns d) = Some i -> getitem d c = Returns (map (at_pos i) (rows d)).
Proof. unfold getitem. by intros ->. Qed.

Lemma mask_map_filter {A} (p : A -> bool) (l : list A) :
  mask (map p l) l = List.filter p l.
Proof.
  induction l as [|x l IH]; [reflexivity|].
  cbn [map mask List.filter]. by destruct (p x); rewrite IH.
Qed.

Lemma mask_map_rows {A B} (f : A -> B) (p : B -> bool) (l : list A) :
  mask (map p (map f l)) l = List.filter (fun x => p (f x)) l.
Proof. rewrite map_map. apply (mask_map_filter (fun x => p (f x))). Qed.

Lemma filter_true {A} (l : list A) : List.filter (fun _ => true) l = l.
Proof. induction l; cbn; congruence. Qed.

Lemma filter_filter_andb {A} (p q : A -> bool) (l : list A) :
  List.filter q (List.filter p l) = List.filter (fun x => p x && q x) l.
Proof.
  induction l as [|x l IH]; [reflexivity|].
  cbn [List.filter]. destruct (p x); cbn [List.filter andb]; [|done].
  by destruct (q x); rewrite IH.
Qed.

Lemma forallb_filter {A} (p q : A -> bool) (l : list A) :
  forallb p l = true -> forallb p (List.filter q l) = true.
Proof.
  induction l as [|x l IH]; [done|]. cbn [forallb List.filter].
  intros [Hx Hl]%andb_prop. destruct (q x); cbn [forallb]; [rewrite Hx|]; auto.
Qed.

(** ** Date and region filters as row predicates *)

Definition temporal (c : cell) : bool :=
  match c with
  | CTime _ | CNull => true
  | _ => false
  end.

(** What start-up establishes about a table that is not empty:
    [load_data] converts the [date] column with [pd.to_datetime(...,
    errors='coerce')], and the module-level statements that compute
    [continents] and [countries] read both columns. *)
Definition loaded_at (t : DataFrame) (i j k : nat) : Prop :=
  col_pos "date" (columns t) = Some i /\
  forallb (fun r => temporal (at_pos i r)) (rows t) = true /\
  col_pos "continent" (columns t) = Some j /\
  col_pos "country" (columns t) = Some k.

(** A date bound as the callbacks read it: not applied when the argument is
    [None] or empty, else the parsed timestamp ([Some None] for [NaT]). *)
Definition bound (o : option string) : outcome (option (option Z)) :=
  if truthy o then obind (to_datetime (py_str o)) (fun ts => Returns (Some ts))
  else Returns None.

Definition on_or_after (lo : option (option Z)) (c : cell) : bool :=
  match lo with
  | None => true
  | Some ts =>
      match c, ts with
      | CTime x, Some b => Z.geb x b
      | _, _ => false
      end
  end.

Definition on_or_before (hi : option (option Z)) (c : cell) : bool :=
  match hi with
  | None => true
  | Some ts =>
      match c, ts with
      | CTime x, Some b => Z.leb x b
      | _, _ => false
      end
  end.

Definition region_ok (v : option string) (c : cell) : bool :=
  if neq_all v then cell_eq_str v c else true.

(** The rows that the date range and the continent select. *)
Definition row_selected (i j : nat) (lo hi : option (option Z))
    (continent : option string) (r : list cell) : bool :=
  on_or_after lo (at_pos i r) && on_or_before hi (at_pos i r)
  && region_ok continent (at_pos j r).

Lemma series_cmp_rows op ts i (rs : list (list cell)) :
  forallb (fun r => temporal (at_pos i r)) rs = true ->
  mapE (cmp_ts op ts) (map (at_pos i) rs)
  = Returns (map (fun r => match at_pos i r, ts with
                           | CTime x, Some b => op x b
                           | _, _ => false
                           end) rs).
Proof.
  intros H.
  transitivity
    (Returns (map (fun c => match c, ts with
                            | CTime x, Some b => op x b
                            | _, _ => false
                            end) (map (at_pos i) rs))).
  - apply mapE_map. intros c Hc.
    apply list_elem_of_fmap in Hc as (r & -> & Hr).
    rewrite forallb_forall in H. specialize (H r).
    rewrite <- list_elem_of_In in H. specialize (H Hr).
    unfold cmp_ts. by destruct (at_pos i r).
  - by rewrite map_map.
Qed.

Lemma date_from_rows sd d i lo :
  col_pos "date" (columns d) = Some i ->
  forallb (fun r => temporal (at_pos i r)) (rows d) = true ->
  bound sd = Returns lo ->
  date_from sd d
  = Returns (mkFrame (columns d)
               (List.filter (fun r => on_or_after lo (at_pos i r)) (rows d))).
Proof.
  intros Hi Ht Hb. unfold date_from, bound in *.
  destruct (truthy sd).
  - destruct (to_datetime (py_str sd)) as [ts|] eqn:E; cbn [obind] in *; [|done].
    injection Hb as <-.
    unfold getitem_opt. cbn [label obind]. rewrite (getitem_at _ _ i Hi). cbn [obind].
    unfold series_ge_ts. rewrite series_cmp_rows by done. cbn [obind].
    unfold df_mask. do 2 f_equal.
    apply (mask_map_filter (fun r => on_or_after (Some ts) (at_pos i r))).
  - injection Hb as <-. cbn [on_or_after]. rewrite filter_true. by destruct d.
Qed.

Lemma date_until_rows ed d i hi :
  col_pos "date" (columns d) = Some i ->
  forallb (fun r => temporal (at_pos i r)) (rows d) = true ->
  bound ed = Returns hi ->
  date_until ed d
  = Returns (mkFrame (columns d)
               (List.filter (fun r => on_or_before hi (at_pos i r)) (rows d))).
Proof.
  intros Hi Ht Hb. unfold date_until, bound in *.
  destruct (truthy ed).
  - destruct (to_datetime (py_str ed)) as [ts|] eqn:E; cbn [obind] in *; [|done].
    injection Hb as <-.
    unfold getitem_opt. cbn [label obind]. rewrite (getitem_at _ _ i Hi). cbn [obind].
    unfold series_le_ts. rewrite series_cmp_rows by done. cbn [obind].
    unfold df_mask. do 2 f_equal.
    apply (mask_map_filter (fun r => on_or_before (Some ts) (at_pos i r))).
  - injection Hb as <-. cbn [on_or_before]. rewrite filter_true. by destruct d.
Qed.

Lemma where_eq_rows c v d j :
  col_pos c (columns d) = Some j ->
  where_eq c v d
  = Returns (mkFrame (columns d)
               (List.filter (fun r => region_ok v (at_pos j r)) (rows d))).
Proof.
  intros Hj. unfold where_eq, region_ok.
  destruct (neq_all v).
  - unfold getitem_opt. cbn [label obind]. rewrite (getitem_at _ _ j Hj). cbn [obind].
    unfold df_mask, series_eq. by rewrite mask_map_rows.
  - rewrite filter_true. by destruct d.
Qed.

Lemma filtered_rows t sd ed continent i j k lo hi :
  loaded_at t i j k ->
  bound sd = Returns lo ->
  bound ed = Returns hi ->
  filtered t sd ed continent
  = Returns (mkFrame (columns t)
               (List.filter (row_selected i j lo hi continent) (rows t))).
Proof.
  intros (Hi & Ht & Hj & Hk) Hlo Hhi. unfold filtered, row_selected.
  rewrite (date_from_rows _ _ i lo) by done. cbn [obind].
  rewrite (date_until_rows _ _ i hi); cbn [columns rows]; [|done|by apply forallb_filter|done].
  cbn [obind].
  rewrite (where_eq_rows _ _ _ j) by done. cbn [columns rows].
  rewrite (filter_filter_andb (fun r => on_or_after lo (at_pos i r))
             (fun r => on_or_before hi (at_pos i r))).
  by rewrite filter_filter_andb.
Qed.

(** ** Column selection *)

(** The cell of a row under a label. *)
Definition cell_of (d : DataFrame) (c : string) (r : list cell) : cell :=
  match col_pos c (columns d) with
  | Some i => at_pos i r
  | None => CNull
  end.

Lemma labels_in_columns d d' keep :
  columns d = columns d' -> labels_in d keep = labels_in d' keep.
Proof. unfold labels_in. by intros ->. Qed.

Lemma labels_in_elem d keep c : c ∈ labels_in d keep -> c ∈ columns d.
Proof.
  unfold labels_in. intros H%list_elem_of_In.
  apply in_flat_map in H as (x & _ & Hx).
  destruct x as [c'|]; [|done].
  case_bool_decide; [|done].
  apply list_elem_of_In in Hx. apply list_elem_of_singleton in Hx. by subst.
Qed.

Lemma select_columns_rows d cs :
  (forall c, c ∈ cs -> c ∈ columns d) ->
  select_columns d cs
  = Returns (mkFrame cs (map (fun r => map (fun c => cell_of d c r) cs) (rows d))).
Proof.
  intros H. unfold select_columns.
  assert (Hpos : forall c, c ∈ cs -> exists i, col_pos c (columns d) = Some i).
  { intros c Hc. by apply col_pos_elem, H. }
  rewrite (mapE_map _ (fun c => default 0%nat (col_pos c (columns d)))).
  2:{ intros c Hc. destruct (Hpos c Hc) as [i ->]. reflexivity. }
  cbn [obind]. do 2 f_equal. apply map_ext. intros r.
  rewrite map_map. apply map_ext_in. intros c Hc%list_elem_of_In.
  unfold cell_of. by destruct (Hpos c Hc) as [i ->].
Qed.

(** The columns and rows of the export. *)
Definition export_columns (t : DataFrame) (metric : option string) : list string :=
  if neq_all metric
  then labels_in t [Some "date"; Some "country"; Some "continent";
                    Some "age_group"; metric]
  else columns t.

Definition export_row (t : DataFrame) (metric : option string) (r : list cell)
  : list cell :=
  if neq_all metric
  then map (fun c => cell_of t c r) (export_columns t metric)
  else r.

Lemma export_view_rows t sd ed metric continent i j k lo hi :
  loaded_at t i j k ->
  bound sd = Returns lo ->
  bound ed = Returns hi ->
  export_view t sd ed metric continent
  = Returns (mkFrame (export_columns t metric)
               (map (export_row t metric)
                  (List.filter (row_selected i j lo hi continent) (rows t)))).
Proof.
  intros Hl Hlo Hhi. unfold export_view.
  rewrite (filtered_rows _ _ _ _ i j k lo hi) by done. cbn [obind].
  unfold keep_columns, export_row, export_columns.
  destruct (neq_all metric).
  - set (d := mkFrame _ _).
    rewrite select_columns_rows by apply labels_in_elem.
    rewrite (labels_in_columns d t) by reflexivity.
    reflexivity.
  - by rewrite map_id.
Qed.

(* ===================================================================== *)
(** * C6: what the CSV download contains *)
(* ===================================================================== *)


(* ===================================================================== *)
(** * C9: the preview shows the head of the download *)
(* ===================================================================== *)


(* ===================================================================== *)
(** * C3: placeholders instead of errors *)
(* ===================================================================== *)


Lemma df_empty_no_rows d : rows d = [] -> df_empty d = true.
Proof. unfold df_empty. intros ->. by destruct (columns d). Qed.


(* ===================================================================== *)
(** * C4: the tab callbacks are functions of their arguments and the table *)
(* ===================================================================== *)

(** C4.  Two calls of a tab callback with the same arguments, in two states
    of the process that hold the same table behind [df], return the same
    value (or raise the same exception); the call leaves the table behind
    [df] as it was; and calling again afterwards gives the same result. *)
Theorem callbacks_are_pure (c : call) (s1 s2 : state) (t : DataFrame) :
  heap s1 !! df = Some t ->
  heap s2 !! df = Some t ->
  fst (run_callback c s1) = fst (run_callback c s2)
  /\ heap (snd (run_callback c s1)) !! df = Some t
  /\ fst (run_callback c (snd (run_callback c s1))) = fst (run_callback c s1).
Proof.
  intros H1 H2.
  destruct (run_callback_sound c s1 t H1) as (s1' & E1 & H1').
  destruct (run_callback_sound c s2 t H2) as (s2' & E2 & _).
  destruct (run_callback_sound c s1' t H1') as (s1'' & E3 & _).
  rewrite E1, E2. cbn [fst snd]. by rewrite E3.
Qed.

(* ===================================================================== *)
(** * C8: the failure paths of the overview *)
(* ===================================================================== *)

(** The values inside a returned tuple or list, in order. *)
Fixpoint leaves (v : pyval) : list pyval :=
  match v with
  | PList l => flat_map leaves l
  | PTuple l => flat_map leaves l
  | _ => [v]
  end.

(** C8 (as amended).  On the empty-table and wrong-tab paths the overview
    returns, in order, "0" four times, an empty line chart and "N/A" three
    times, and logs nothing.  When the aggregation raises, the exception is
    caught and logged, and the values are "0" four times, an empty line chart
    and "Error" three times.  The callback itself never raises. *)
Theorem overview_failure_paths auth tab s t :
  heap s !! df = Some t ->
  (df_empty t = true \/ tab <> Some "overview" ->
     exists v,
       update_overview_content auth tab s = (Returns v, s)
       /\ leaves v = [PStr "0"; PStr "0"; PStr "0"; PStr "0"; PFig px_line_empty;
                      PStr "N/A"; PStr "N/A"; PStr "N/A"])
  /\
  (df_empty t = false -> tab = Some "overview" ->
   forall e s1, overview_body s = (Raises e, s1) ->
     exists v s',
       update_overview_content auth tab s = (Returns v, s')
       /\ leaves v = [PStr "0"; PStr "0"; PStr "0"; PStr "0"; PFig px_line_empty;
                      PStr "Error"; PStr "Error"; PStr "Error"]
       /\ log s' = log s ++ [LogError "Error updating overview" e])
  /\
  (exists v s', update_overview_content auth tab s = (Returns v, s')).
Proof.
  intros Hdf.
  assert (Hrun : forall b, df_empty t || negb (bool_decide (tab = Some "overview")) = b ->
            update_overview_content auth tab s
            = (if b
               then ret (PTuple [PList (replicate 4 (PStr "0")); PFig px_line_empty;
                                 PStr "N/A"; PStr "N/A"; PStr "N/A"])
               else try_except overview_body
                      (fun e =>
                         let* _ := logger_error "Error updating overview" e in
                         ret (PTuple [PList (replicate 4 (PStr "0")); PFig px_line_empty;
                                      PStr "Error"; PStr "Error"; PStr "Error"]))) s).
  { intros b <-. unfold update_overview_content, df_is_empty.
    by rewrite (bind_read _ t) by done. }
  split; [|split].
  - intros Hbad. eexists. split.
    + apply (Hrun true). destruct Hbad as [-> | Hne]; [done|].
      rewrite bool_decide_eq_false_2 by done. apply orb_true_r.
    + reflexivity.
  - intros He -> e s1 Hbody. do 2 eexists.
    rewrite (Hrun false) by (by rewrite He).
    rewrite try_except_run, Hbody.
    destruct (overview_body_sound s t Hdf) as (s0 & Hb & _ & Hlog).
    rewrite Hb in Hbody. injection Hbody as _ <-.
    split; [reflexivity|]. split; [reflexivity|].
    cbn [logger_error bind ret log]. by rewrite Hlog.
  - destruct (update_overview_content_sound auth tab s t Hdf) as (s' & E & _).
    eauto.
Qed.

(* ===================================================================== *)
(** * C1: the credential check *)
(* ===================================================================== *)

Lemma try_except_lift {A} (o : outcome A) (h : exn -> M A) s :
  try_except (lift o) h s
  = match o with Returns a => (Returns a, s) | Raises e => h e s end.
Proof. unfold try_except, lift. by destruct o. Qed.

Lemma verify_user_sound username password s users :
  heap s !! users_df = Some users ->
  exists s',
    verify_user username password s = (verify_value users username password, s')
    /\ uuids_drawn s' = uuids_drawn s.
Proof.
  intros Hu. unfold verify_user, verify_value.
  destruct (negb (truthy username) || negb (truthy password)); [by eexists|].
  run.
  all: try (eexists; split; reflexivity).
  match goal with
  | |- context [match ?c with CStr _ => _ | _ => _ end] => destruct c
  end; try (eexists; split; reflexivity).
  rewrite try_except_lift.
  match goal with
  | |- context [checkpw ?p ?h] => destruct (checkpw p h)
  end; eexists; split; reflexivity.
Qed.

Lemma verify_user_keeps_uuids username password s :
  uuids_drawn (snd (verify_user username password s)) = uuids_drawn s.
Proof.
  destruct (heap s !! users_df) as [users|] eqn:Hu.
  - destruct (verify_user_sound username password s users Hu) as (s' & -> & E).
    exact E.
  - unfold verify_user.
    destruct (negb (truthy username) || negb (truthy password)); [reflexivity|].
    unfold df_get, read, bind, deref. by rewrite Hu.
Qed.

Lemma verify_user_needs_input username password s :
  truthy username && truthy password = false ->
  verify_user username password s = (Returns false, s).
Proof.
  intros H. unfold verify_user.
  by destruct (truthy username), (truthy password).
Qed.

Lemma find_filter {A} (p : A -> bool) (l : list A) :
  List.find p l = List.hd_error (List.filter p l).
Proof.
  induction l as [|x l IH]; [reflexivity|].
  cbn [List.find List.filter]. by destruct (p x).
Qed.

(** C1.  [verify_user] always returns a boolean, and it returns [True]
    exactly when username and password are both non-empty, some row of the
    user table carries that username, and bcrypt accepts the password for
    the hash stored in the first such row.  (The user table has its
    [username] and [password_hash] columns, the latter turned into strings
    by [load_users].) *)
Theorem verify_user_spec username password s users iu ih :
  heap s !! users_df = Some users ->
  col_pos "username" (columns users) = Some iu ->
  col_pos "password_hash" (columns users) = Some ih ->
  forallb (fun r => is_str (at_pos ih r)) (rows users) = true ->
  exists b s',
    verify_user username password s = (Returns b, s')
    /\ (b = true <->
        truthy username = true /\ truthy password = true /\
        exists r hashed,
          List.find (fun r => cell_eq_str username (at_pos iu r)) (rows users) = Some r
          /\ at_pos ih r = CStr hashed
          /\ checkpw (py_str password) hashed = Returns true).
Proof.
  intros Hu Hiu Hih Hstr.
  destruct (verify_user_sound username password s users Hu) as (s' & -> & _).
  unfold verify_value.
  destruct (truthy username) eqn:Tu; cbn [negb orb].
  2:{ exists false, s'. split; [done|]. split; [done | by intros (? & _)]. }
  destruct (truthy password) eqn:Tp; cbn [negb orb].
  2:{ exists false, s'. split; [done|]. split; [done | by intros (_ & ? & _)]. }
  unfold getitem_opt. cbn [label obind]. rewrite (getitem_at _ _ iu Hiu). cbn [obind].
  unfold series_eq, df_mask. rewrite mask_map_rows.
  rewrite find_filter.
  pose proof (forallb_filter _ (fun r => cell_eq_str username (at_pos iu r)) _ Hstr) as Hstr'.
  destruct (List.filter _ (rows users)) as [|r rest] eqn:Ef.
  - rewrite df_empty_no_rows by done.
    exists false, s'. split; [done|]. split; [done|].
    by intros (_ & _ & r & h & [=] & _).
  - assert (Hne : df_empty (mkFrame (columns users) (r :: rest)) = false).
    { unfold df_empty. cbn [columns rows]. destruct (columns users); [done|reflexivity]. }
    rewrite Hne. unfold iloc0, col_pos_or_raise. cbn [rows columns].
    rewrite Hih. cbn [obind].
    cbn [forallb] in Hstr'. apply andb_prop in Hstr' as [Hr _].
    destruct (at_pos ih r) as [| |hashed| |] eqn:Eh; try done.
    cbn [List.hd_error].
    destruct (checkpw (py_str password) hashed) as [b|e] eqn:Ec.
    + exists b, s'. split; [done|]. split.
      * intros ->. do 2 (split; [done|]). by exists r, hashed.
      * intros (_ & _ & r' & h' & [= <-] & Eh' & Ec').
        rewrite Eh in Eh'. injection Eh' as <-. rewrite Ec in Ec'. by injection Ec'.
    + exists false, s'. split; [done|]. split; [done|].
      intros (_ & _ & r' & h' & [= <-] & Eh' & Ec').
      rewrite Eh in Eh'. injection Eh' as <-. by rewrite Ec in Ec'.
Qed.

(* ===================================================================== *)
(** * C10: a failed login leaves the session store alone *)
(* ===================================================================== *)

(** The contents of the [session-auth] store after Dash has processed the
    callback's answer: the first element of the returned tuple is assigned
    to it, unless it is [no_update]. *)
Definition session_after (old : option pyval) (r : outcome pyval) : option pyval :=
  match r with
  | Returns (PTuple (v :: _)) => dash_assign old v
  | _ => old
  end.

(** The record that a successful login stores. *)
Definition auth_record (username : option string) (session_id : string)
    (remember : bool) : pyval :=
  PDict ([("authenticated", PBool true); ("user", PStr (py_str username));
          ("session_id", PStr session_id)]
         ++ (if remember then [("persistent", PBool true)] else [])).

(** C10.  If [verify_user] returns [True], the login callback draws a new
    UUID and answers with a record holding authenticated = [True], the
    username and that session id, which replaces the stored state.  In every
    other case (username or password missing, or the credentials rejected)
    it answers [no_update] with an error message, draws no UUID, and the
    stored state stays what it was. *)
Theorem login_spec n username password remember s old :
  (fst (verify_user username password s) = Returns true ->
     fst (login n username password remember s)
     = Returns (PTuple [auth_record username (uuid4_str (uuids_drawn s)) remember;
                        PStr ""])
     /\ session_after old (fst (login n username password remember s))
        = Some (auth_record username (uuid4_str (uuids_drawn s)) remember)
     /\ uuids_drawn (snd (login n username password remember s))
        = S (uuids_drawn s))
  /\
  (fst (verify_user username password s) <> Returns true ->
     session_after old (fst (login n username password remember s)) = old
     /\ uuids_drawn (snd (login n username password remember s)) = uuids_drawn s
     /\ (truthy username && truthy password = false ->
           login n username password remember s
           = (Returns (PTuple [PNoUpdate;
                               PStr "Please enter both username and password."]), s))
     /\ (truthy username && truthy password = true ->
         fst (verify_user username password s) = Returns false ->
           fst (login n username password remember s)
           = Returns (PTuple [PNoUpdate; PStr "Invalid username or password."]))).
Proof.
  pose proof (verify_user_keeps_uuids username password s) as Hk.
  unfold login.
  destruct (truthy username && truthy password) eqn:T.
  - assert (Hc : negb (truthy username) || negb (truthy password) = false).
    { by destruct (truthy username), (truthy password). }
    rewrite Hc. unfold bind.
    destruct (verify_user username password s) as [[[|]|e] s1]; cbn [fst snd] in *.
    + split; [|done]. intros _. unfold uuid4, auth_record. cbn [fst snd uuids_drawn ret].
      rewrite Hk. destruct remember; done.
    + split; [done|]. intros _. cbn [ret fst snd session_after dash_assign]. done.
    + split; [done|]. intros _. cbn [fst snd session_after]. done.
  - assert (Hc : negb (truthy username) || negb (truthy password) = true).
    { by destruct (truthy username), (truthy password). }
    rewrite Hc. rewrite verify_user_needs_input by done. cbn [fst snd ret].
    split; [done|]. intros _. done.
Qed.

(* ===================================================================== *)
(** * C2: group totals add up to the column total *)
(* ===================================================================== *)















(* ===================================================================== *)
(** * C7: the percentage view *)
(* ===================================================================== *)




(* ===================================================================== *)
(** * C5: top and bottom countries in the geo tab *)
(* ===================================================================== *)

#[local] Instance desc_by_total i : Total (desc_by i).
Proof. intros a b. unfold desc_by. lia. Qed.

#[local] Instance desc_by_trans i : Transitive (desc_by i).
Proof. intros a b c. unfold desc_by. lia. Qed.

#[local] Instance asc_by_total i : Total (asc_by i).
Proof. intros a b. unfold asc_by. lia. Qed.

#[local] Instance asc_by_trans i : Transitive (asc_by i).
Proof. intros a b c. unfold asc_by. lia. Qed.




Lemma forallb_elem {A} (p : A -> bool) (l : list A) x :
  forallb p l = true -> x ∈ l -> p x = true.
Proof.
  rewrite forallb_forall. intros H Hx. apply H. by apply list_elem_of_In.
Qed.





(** The rows that the geo tab aggregates. *)
Definition row_selected_geo (j k : nat) (continent country : option string)
    (r : list cell) : bool :=
  region_ok continent (at_pos j r) && region_ok country (at_pos k r).


Lemma unique_elem c l : c ∈ unique l <-> c ∈ l.
Proof. unfold unique. by rewrite elem_of_reverse, elem_of_remove_dups, elem_of_reverse. Qed.

Lemma forallb_intro {A} (p : A -> bool) (l : list A) :
  (forall x, x ∈ l -> p x = true) -> forallb p l = true.
Proof.
  intros H. apply forallb_forall. intros x Hx. apply H. by apply list_elem_of_In.
Qed.




End App.

(* ===================================================================== *)
(** * A sample installation

    Concrete stand-ins for the library calls and two small tables, on which
    the theorems above are instantiated and the statements that fail are
    exhibited. *)
(* ===================================================================== *)

(** A toy hash: the stored hash of [p] is ["$" ++ p]; anything that does not
    start with ["$"] is malformed. *)
Definition sample_checkpw (password hashed : string) : outcome bool :=
  if String.prefix "$" hashed
  then Returns (bool_decide (hashed = "$" +:+ password))
  else Raises (ValueError "Invalid salt").

Definition sample_uuid4_str (n : nat) : string :=
  "00000000-0000-4000-8000-00000000000" +:+ String (Ascii.ascii_of_nat (48 + n)) "".

(** Timestamps in days since 1970-01-01. *)
Definition sample_to_datetime (text : string) : outcome (option Z) :=
  if bool_decide (text = "2024-01-01") then Returns (Some 19723)
  else if bool_decide (text = "2024-01-31") then Returns (Some 19753)
  else if bool_decide (text = "NaT") then Returns None
  else Raises (ValueError "Unknown datetime string format").

Definition sample_grouper_sum (keys : list string) (f : string)
    (cols : list (option string)) (d : DataFrame) : outcome DataFrame :=
  Returns (mkFrame (keys ++ "date" :: map py_str cols) []).

Definition sample_resample_sum (f : option string) (cols : list (option string))
    (d : DataFrame) : outcome DataFrame :=
  Returns (mkFrame ("date" :: map py_str cols) []).

Definition sample_title (text : string) : string := text.

Definition sample_columns : list string :=
  ["date"; "country"; "continent"; "job_type"; "age_group"; "request_type";
   "jobs_placed"; "scheduled_demos"; "ai_requests"; "promotional_events"].

Definition sample_sales : DataFrame :=
  mkFrame sample_columns
    [[CTime 19723; CStr "france"; CStr "europe"; CStr "full-time"; CStr "18-24";
      CStr "web"; CInt 3; CInt 1; CInt 4; CInt 0];
     [CTime 19730; CStr "germany"; CStr "europe"; CStr "part-time"; CStr "25-34";
      CStr "phone"; CInt 5; CInt 2; CInt 0; CInt 1];
     [CTime 19740; CStr "japan"; CStr "asia"; CStr "full-time"; CStr "18-24";
      CStr "web"; CInt 2; CInt 2; CInt 2; CInt 2];
     [CNull; CStr "kenya"; CStr "africa"; CStr "contract"; CStr "35-44";
      CStr "web"; CInt 7; CInt 0; CInt 1; CInt 1]].

Definition sample_users : DataFrame :=
  mkFrame ["username"; "password_hash"; "role"]
    [[CStr "analyst1"; CStr "$password1"; CStr "analyst"];
     [CStr "marketer1"; CStr "$password2"; CStr "marketer"]].

Definition sample_state : state := mkState [sample_sales; sample_users] [] 0.

(** The same process later on: more objects, a log entry, a UUID drawn. *)
Definition sample_state_later : state :=
  mkState [sample_sales; sample_users; sample_users]
    [LogError "Password verification failed" (ValueError "Invalid salt")] 1.





(** A table without the [jobs_placed] column. *)
Definition sample_sales_nojobs : DataFrame :=
  mkFrame ["date"; "country"; "continent"; "age_group"; "scheduled_demos";
           "ai_requests"; "promotional_events"]
    [[CTime 19723; CStr "france"; CStr "europe"; CStr "18-24";
      CInt 1; CInt 4; CInt 0]].

Definition sample_state_nojobs : state :=
  mkState [sample_sales_nojobs; sample_users] [] 0.

(** ** Instances of the theorems *)

Lemma verify_user_spec_witness :
  exists b s',
    verify_user sample_checkpw (Some "analyst1") (Some "password1") sample_state
    = (Returns b, s')
    /\ (b = true <->
        truthy (Some "analyst1") = true /\ truthy (Some "password1") = true /\
        exists r hashed,
          List.find (fun r => cell_eq_str (Some "analyst1") (at_pos 0 r))
            (rows sample_users) = Some r
          /\ at_pos 1 r = CStr hashed
          /\ sample_checkpw (py_str (Some "password1")) hashed = Returns true).
Proof.
  apply (verify_user_spec sample_checkpw (Some "analyst1") (Some "password1")
           sample_state sample_users 0 1); reflexivity.
Defined.



Lemma callbacks_are_pure_witness :
  fst (run_callback sample_to_datetime sample_grouper_sum sample_resample_sum
         sample_title (SummaryTab (Some "europe") (Some "all") (Some "percentage"))
         sample_state)
  = fst (run_callback sample_to_datetime sample_grouper_sum sample_resample_sum
           sample_title (SummaryTab (Some "europe") (Some "all") (Some "percentage"))
           sample_state_later)
  /\ heap (snd (run_callback sample_to_datetime sample_grouper_sum
                  sample_resample_sum sample_title
                  (SummaryTab (Some "europe") (Some "all") (Some "percentage"))
                  sample_state)) !! df = Some sample_sales
  /\ fst (run_callback sample_to_datetime sample_grouper_sum sample_resample_sum
            sample_title (SummaryTab (Some "europe") (Some "all") (Some "percentage"))
            (snd (run_callback sample_to_datetime sample_grouper_sum
                    sample_resample_sum sample_title
                    (SummaryTab (Some "europe") (Some "all") (Some "percentage"))
                    sample_state)))
      = fst (run_callback sample_to_datetime sample_grouper_sum sample_resample_sum
               sample_title (SummaryTab (Some "europe") (Some "all") (Some "percentage"))
               sample_state).
Proof.
  apply (callbacks_are_pure sample_to_datetime sample_grouper_sum
           sample_resample_sum sample_title
           (SummaryTab (Some "europe") (Some "all") (Some "percentage"))
           sample_state sample_state_later sample_sales); reflexivity.
Defined.




Lemma overview_failure_paths_witness :
  exists v s',
    update_overview_content sample_grouper_sum PNone (Some "overview")
      sample_state_nojobs = (Returns v, s')
    /\ leaves v = [PStr "0"; PStr "0"; PStr "0"; PStr "0"; PFig px_line_empty;
                   PStr "Error"; PStr "Error"; PStr "Error"]
    /\ log s' = log sample_state_nojobs
                ++ [LogError "Error updating overview" (KeyError "jobs_placed")].
Proof.
  apply (proj1 (proj2 (overview_failure_paths sample_grouper_sum PNone
                         (Some "overview") sample_state_nojobs
                         sample_sales_nojobs eq_refl))
           eq_refl eq_refl (KeyError "jobs_placed") sample_state_nojobs).
  reflexivity.
Defined.


(** ** Statements of the specification that fail *)




(** C8 as stated fails: when the aggregation raises (here the table has no
    [jobs_placed] column) the three texts are "Error", not "N/A", and the
    answer is not the tuple of eight placeholders. *)
Lemma overview_error_is_not_na :
  fst (update_overview_content sample_grouper_sum PNone (Some "overview")
         sample_state_nojobs)
  = Returns (PTuple [PList [PStr "0"; PStr "0"; PStr "0"; PStr "0"];
                     PFig px_line_empty;
                     PStr "Error"; PStr "Error"; PStr "Error"])
  /\ fst (update_overview_content sample_grouper_sum PNone (Some "overview")
            sample_state_nojobs)
     <> Returns (PTuple [PStr "0"; PStr "0"; PStr "0"; PStr "0";
                         PFig px_line_empty;
                         PStr "N/A"; PStr "N/A"; PStr "N/A"]).
Proof. split; [vm_compute; reflexivity | vm_compute; discriminate]. Qed.

(* ===================================================================== *)
(** * The session: logout, page selection, greeting, password toggle
      (app.py, lines 1420-1462) *)
(* ===================================================================== *)

(** Truthiness of [n_clicks]: [None] before the first click, then a count. *)
Definition clicked (n_clicks : option Z) : bool :=
  match n_clicks with
  | Some n => negb (n =? 0)
  | None => false
  end.

(** Python truthiness of the values a [dcc.Store] holds (JSON data, a
    missing cell standing for [null]); objects of the other kinds define
    neither [__bool__] nor [__len__] and are truthy. *)
Definition py_truthy (v : pyval) : bool :=
  match v with
  | PNone => false
  | PBool b => b
  | PStr s => negb (bool_decide (s = ""))
  | PCell (CInt z) => negb (z =? 0)
  | PCell (CFloat f) => negb (PrimFloat.eqb f 0)
  | PCell (CStr s) => negb (bool_decide (s = ""))
  | PCell CNull => false
  | PDict kvs => negb (bool_decide (kvs = []))
  | PList l => negb (bool_decide (l = []))
  | PTuple l => negb (bool_decide (l = []))
  | _ => true
  end.

(** [d[k]] for a dict written as the sequence of its insertions: the last
    value stored under the key. *)
Definition dict_last (kvs : list (string * pyval)) (k : string) : option pyval :=
  snd <$> List.find (fun kv => bool_decide (kv.1 = k)) (rev kvs).

(** [v.get(k)]: only a dict has the method. *)
Definition py_get (v : pyval) (k : string) : outcome pyval :=
  match v with
  | PDict kvs => Returns (default PNone (dict_last kvs k))
  | _ => Raises (AttributeError "object has no attribute 'get'")
  end.

(** ** Logout (app.py, lines 1420-1428) *)

Definition logout (n_clicks : option Z) : pyval :=
  if clicked n_clicks then PDict [("authenticated", PBool false); ("user", PNone)]
  else PNoUpdate.

(** ** Password visibility (app.py, lines 1431-1442): the new input type
    and the class of the icon. *)

Definition toggle_password (n_clicks : option Z) (current_type : option string)
  : string * string :=
  if bool_decide (current_type = Some "password") then ("text", "bi bi-eye")
  else ("password", "bi bi-eye-slash").

(** ** Page selection (app.py, lines 1445-1453).  The two layouts are kept
    by name; their HTML trees are static. *)

Inductive page : Type :=
  | dashboard_layout
  | login_layout.

Definition display_page (auth : pyval) : outcome page :=
  if py_truthy auth then
    obind (py_get auth "authenticated") (fun a =>
    Returns (if py_truthy a then dashboard_layout else login_layout))
  else Returns login_layout.

Section Session.

Set Default Proof Using "Type".

Variable checkpw : string -> string -> outcome bool.
Variable uuid4_str : nat -> string.
(** [text.capitalize()]. *)
Variable str_capitalize : string -> string.

(** ** Greeting (app.py, lines 1455-1462) *)

Definition update_user_display (auth : pyval) : outcome string :=
  if py_truthy auth then
    obind (py_get auth "user") (fun u =>
    if py_truthy u then
      match u with
      | PStr name => Returns ("Welcome, " +:+ str_capitalize name)
      | _ => Raises (AttributeError "object has no attribute 'capitalize'")
      end
    else Returns "Welcome")
  else Returns "Welcome".

(** ** The session store over a sequence of clicks

    Dash runs the login callback on a click on the login button and the
    logout callback on a click on the logout button, and assigns what they
    return to the [session-auth] store ([no_update] keeps it; so does a
    callback that raises).  The store starts out empty. *)

Inductive event : Type :=
  | LoginClick (n_clicks : option Z) (username password : option string)
      (remember : bool)
  | LogoutClick (n_clicks : option Z).

Definition session_step (st : option pyval * state) (ev : event)
  : option pyval * state :=
  match ev with
  | LoginClick n u p r =>
      let out := login checkpw uuid4_str n u p r (snd st) in
      (session_after (fst st) (fst out), snd out)
  | LogoutClick n => (dash_assign (fst st) (logout n), snd st)
  end.

Definition run_session (evs : list event) (st : option pyval * state)
  : option pyval * state :=
  foldl session_step st evs.

(** What the page and greeting callbacks receive from the store. *)
Definition store_data (st : option pyval * state) : pyval :=
  default PNone (fst st).


(** ** Calls that only allocate

    A computation [grows] the store when it leaves every existing object in
    place and at most appends new ones. *)

Definition grows {A} (m : M A) : Prop :=
  forall s, exists h', heap (snd (m s)) = heap s ++ h'.

Lemma grows_ret {A} (a : A) : grows (ret a).
Proof. intros s. exists []. by rewrite app_nil_r. Qed.

Lemma grows_raise {A} e : grows (raise (A := A) e).
Proof. intros s. exists []. by rewrite app_nil_r. Qed.

Lemma grows_lift {A} (o : outcome A) : grows (lift o).
Proof. intros s. exists []. by rewrite app_nil_r. Qed.

Lemma grows_bind {A B} (m : M A) (k : A -> M B) :
  grows m -> (forall a, grows (k a)) -> grows (bind m k).
Proof.
  intros Hm Hk s. unfold bind. destruct (Hm s) as [h1 E1].
  destruct (m s) as [[a|e] s1]; cbn [snd] in *.
  - destruct (Hk a s1) as [h2 E2]. exists (h1 ++ h2).
    by rewrite E2, E1, app_assoc.
  - by exists h1.
Qed.

Lemma grows_try_except {A} (m : M A) (h : exn -> M A) :
  grows m -> (forall e, grows (h e)) -> grows (try_except m h).
Proof.
  intros Hm Hh s. unfold try_except. destruct (Hm s) as [h1 E1].
  destruct (m s) as [[a|e] s1]; cbn [snd] in *.
  - by exists h1.
  - destruct (Hh e s1) as [h2 E2]. exists (h1 ++ h2).
    by rewrite E2, E1, app_assoc.
Qed.

Lemma grows_deref l : grows (deref l).
Proof.
  intros s. unfold deref. exists [].
  destruct (heap s !! l); by rewrite app_nil_r.
Qed.

Lemma grows_new d : grows (new d).
Proof. intros s. by exists [d]. Qed.

Lemma grows_logger_error msg e : grows (logger_error msg e).
Proof. intros s. exists []. by rewrite app_nil_r. Qed.

Lemma grows_read {A} l (f : DataFrame -> outcome A) : grows (read l f).
Proof.
  unfold read. apply grows_bind; [apply grows_deref | intros; apply grows_lift].
Qed.

Lemma grows_derive l (f : DataFrame -> outcome DataFrame) : grows (derive l f).
Proof.
  unfold derive. apply grows_bind; [apply grows_deref | intros d].
  apply grows_bind; [apply grows_lift | intros; apply grows_new].
Qed.

Lemma grows_uuid4 : grows (uuid4 uuid4_str).
Proof. intros s. exists []. by rewrite app_nil_r. Qed.

Lemma grows_lookup {A} (m : M A) s l d :
  grows m -> heap s !! l = Some d -> heap (snd (m s)) !! l = Some d.
Proof.
  intros Hm Hl. destruct (Hm s) as [h' ->]. by apply lookup_app_l_Some.
Qed.

Ltac grow :=
  repeat first
    [ apply grows_ret | apply grows_raise | apply grows_lift | apply grows_read
    | apply grows_derive | apply grows_logger_error | apply grows_uuid4
    | apply grows_deref | apply grows_new
    | apply grows_try_except; [|intros ?]
    | apply grows_bind; [|intros ?]
    | match goal with
      | |- grows (if ?c then _ else _) => destruct c
      | |- grows (match ?c with _ => _ end) => destruct c
      end ].

Lemma grows_verify_user username password :
  grows (verify_user checkpw username password).
Proof.
  unfold verify_user, df_get, df_filter, df_is_empty, df_iloc0. grow.
Qed.

Lemma grows_login n username password remember :
  grows (login checkpw uuid4_str n username password remember).
Proof.
  unfold login. grow; apply grows_verify_user.
Qed.

(** The answers of [login], by what the credential check says. *)
Lemma login_cases n username password remember s :
  login checkpw uuid4_str n username password remember s
  = if negb (truthy username) || negb (truthy password)
    then (Returns (PTuple [PNoUpdate;
                           PStr "Please enter both username and password."]), s)
    else
      match verify_user checkpw username password s with
      | (Returns true, s1) =>
          (Returns (PTuple [auth_record username (uuid4_str (uuids_drawn s1)) remember;
                            PStr ""]),
           mkState (heap s1) (log s1) (S (uuids_drawn s1)))
      | (Returns false, s1) =>
          (Returns (PTuple [PNoUpdate; PStr "Invalid username or password."]), s1)
      | (Raises e, s1) => (Raises e, s1)
      end.
Proof.
  unfold login.
  destruct (negb (truthy username) || negb (truthy password)); [reflexivity|].
  unfold bind. destruct (verify_user checkpw username password s) as [[[|]|e] s1];
    try reflexivity.
  unfold uuid4, auth_record, ret. by destruct remember.
Qed.

(** A store that does not open the dashboard: empty, or signed out. *)
Definition signed_out (store : option pyval) : Prop :=
  store = None \/ store = Some (PDict [("authenticated", PBool false); ("user", PNone)]).

Lemma signed_out_page store :
  signed_out store -> display_page (default PNone store) = Returns login_layout.
Proof. by intros [-> | ->]. Qed.

Lemma session_step_rejected st ev users :
  heap (snd st) !! users_df = Some users ->
  signed_out (fst st) ->
  (forall n u p r, ev = LoginClick n u p r ->
     verify_value checkpw users u p <> Returns true) ->
  heap (snd (session_step st ev)) !! users_df = Some users
  /\ signed_out (fst (session_step st ev)).
Proof.
  intros Hu Hs Hrej. destruct st as [store s]. cbn [fst snd] in *.
  destruct ev as [n u p r | n]; cbn [session_step fst snd].
  - split; [by apply grows_lookup; [apply grows_login|]|].
    rewrite login_cases.
    destruct (negb (truthy u) || negb (truthy p)); [done|].
    destruct (verify_user_sound checkpw u p s users Hu) as (s1 & -> & _).
    specialize (Hrej n u p r eq_refl).
    destruct (verify_value checkpw users u p) as [[|]|e]; done.
  - split; [done|]. unfold logout.
    destruct (clicked n); cbn [dash_assign]; [by right | done].
Qed.


(** X1.  Starting from an empty store, as long as no login click carries
    credentials that the user table accepts, the page callback keeps
    showing the login page, whatever the sequence of login and logout
    clicks (including logins on which the credential check raises). *)
Theorem dashboard_requires_credentials evs s users :
  heap s !! users_df = Some users ->
  (forall n u p r, LoginClick n u p r ∈ evs ->
     verify_value checkpw users u p <> Returns true) ->
  display_page (store_data (run_session evs (None, s))) = Returns login_layout.
Proof.
  intros Hu Hrej. unfold store_data. apply signed_out_page.
  assert (Hinv : heap (snd (None (A := pyval), s)) !! users_df = Some users
                 /\ signed_out (fst (None (A := pyval), s))) by (split; [done | by left]).
  revert Hinv. generalize (None (A := pyval), s). unfold run_session.
  induction evs as [|ev evs IH]; intros st [Hh Hs]; cbn [foldl]; [done|].
  apply IH.
  - intros n u p r Hin. apply (Hrej n u p r). by right.
  - apply (session_step_rejected st ev users Hh Hs).
    intros n u p r ->. apply (Hrej n u p r). by left.
Qed.

(** X2.  A login click with accepted credentials makes the page callback
    show the dashboard and the greeting name the user, whatever the store
    held before; a logout click after it brings back the login page and the
    anonymous greeting. *)
Theorem sign_in_then_out n u p r m s store :
  fst (verify_user checkpw u p s) = Returns true ->
  clicked m = true ->
  let st1 := session_step (store, s) (LoginClick n u p r) in
  let st2 := session_step st1 (LogoutClick m) in
  display_page (store_data st1) = Returns dashboard_layout
  /\ update_user_display (store_data st1)
     = Returns ("Welcome, " +:+ str_capitalize (py_str u))
  /\ display_page (store_data st2) = Returns login_layout
  /\ update_user_display (store_data st2) = Returns "Welcome".
Proof.
  intros Hv Hm st1 st2.
  assert (Ht : truthy u && truthy p = true).
  { destruct (truthy u && truthy p) eqn:T; [done|].
    rewrite verify_user_needs_input in Hv by done. done. }
  assert (Hu : negb (bool_decide (py_str u = "")) = true).
  { destruct u as [name|]; [|done]. by destruct (truthy (Some name)) eqn:E. }
  assert (E1 : store_data st1
               = auth_record u (uuid4_str (uuids_drawn (snd (verify_user checkpw u p s)))) r).
  { unfold st1, store_data. cbn [session_step fst snd]. rewrite login_cases.
    replace (negb (truthy u) || negb (truthy p)) with false
      by (by destruct (truthy u), (truthy p)).
    destruct (verify_user checkpw u p s) as [[[|]|e] s1]; cbn [fst snd] in *; try done. }
  assert (E2 : store_data st2 = PDict [("authenticated", PBool false); ("user", PNone)]).
  { unfold st2, store_data. cbn [session_step fst snd]. unfold logout. by rewrite Hm. }
  rewrite E1, E2. unfold auth_record.
  repeat split.
  - by destruct r.
  - unfold update_user_display.
    replace (py_truthy (PDict _)) with true by (by destruct r).
    replace (py_get _ "user") with (Returns (PStr (py_str u))) by (by destruct r).
    cbn [obind py_truthy]. by rewrite Hu.
Qed.

(** X3.  The credential check only reads: it leaves every frame object
    that exists (the user table, the sales table) as it is and draws no
    UUID; the log is unchanged, or gains the one entry that reports the
    exception of [bcrypt.checkpw], in which case the answer is [False]. *)
Theorem verify_user_only_reads username password s :
  (forall l d, heap s !! l = Some d ->
     heap (snd (verify_user checkpw username password s)) !! l = Some d)
  /\ uuids_drawn (snd (verify_user checkpw username password s)) = uuids_drawn s
  /\ (log (snd (verify_user checkpw username password s)) = log s
      \/ exists e,
           log (snd (verify_user checkpw username password s))
           = log s ++ [LogError "Password verification failed" e]
           /\ fst (verify_user checkpw username password s) = Returns false).
Proof.
  split; [|split].
  - intros l d Hl. by apply grows_lookup; [apply grows_verify_user|].
  - apply verify_user_keeps_uuids.
  - unfold verify_user, df_get, df_filter, df_is_empty, df_iloc0, read, derive,
      try_except, bind, deref, lift, new, ret, raise, logger_error, set_heap.
    repeat (case_match; simplify_eq/=); eauto.
Qed.

(** X4.  After a click on the eye the password field is a text or a
    password field, the icon is the open eye exactly when the text is
    visible, and from then on two clicks bring the field back to where it
    was. *)
Theorem toggle_password_alternates n n' n'' current_type :
  let t1 := (toggle_password n current_type).1 in
  (t1 = "text" /\ (toggle_password n current_type).2 = "bi bi-eye"
   \/ t1 = "password" /\ (toggle_password n current_type).2 = "bi bi-eye-slash")
  /\ (toggle_password n'' (Some (toggle_password n' (Some t1)).1)).1 = t1.
Proof.
  unfold toggle_password. case_bool_decide; cbn; split; auto.
Qed.

End Session.

(* ===================================================================== *)
(** * Navigation: the active tab and the summary titles
      (app.py, lines 1258-1276 and 1464-1491) *)
(* ===================================================================== *)

(** [text.split('.')[0]]: the text before the first dot. *)
Fixpoint before_dot (text : string) : string :=
  match text with
  | "" => ""
  | String c rest =>
      if bool_decide (String c "" = ".") then "" else String c (before_dot rest)
  end.

(** [text.replace(old, new)] for a non-empty [old]: the occurrences of [old]
    are replaced from left to right, without overlap.  [skip] counts the
    characters of an occurrence that remain to be dropped. *)
Fixpoint replace_from (old new : string) (skip : nat) (text : string) : string :=
  match text with
  | "" => ""
  | String c rest =>
      match skip with
      | S k => replace_from old new k rest
      | O =>
          if String.prefix old text
          then new +:+ replace_from old new (String.length old - 1) rest
          else String c (replace_from old new 0 rest)
      end
  end.

Definition str_replace (old new text : string) : string :=
  replace_from old new 0 text.

(** [sep.join(parts)]. *)
Fixpoint str_join (sep : string) (parts : list string) : string :=
  match parts with
  | [] => ""
  | [p] => p
  | p :: ps => p +:+ sep +:+ str_join sep ps
  end.

Definition TAB_ORDER : list string :=
  ["overview"; "geo"; "time"; "age"; "summary"; "analytics"].

(** The text [{"index":], with which Dash starts the serialised id of a
    quick link. *)
Definition index_prefix : string :=
  "{" +:+ String (Ascii.ascii_of_nat 34) "index"
      +:+ String (Ascii.ascii_of_nat 34) ":".

Section Navigation.

Set Default Proof Using "Type".

(** The HTML trees that the layout functions build. *)
Variable Html : Type.
(** [globals()[name]()]: the module-level function of that name, called
    without arguments; [KeyError] when there is none, and whatever the call
    raises. *)
Variable call_global : string -> outcome Html.
(** [json.loads(text)['index']] for a quick-link id (the indexes are
    strings). *)
Variable json_index : string -> outcome string.
(** [text.title()]. *)
Variable str_title : string -> string.

Definition overview_tab : outcome Html := call_global "overview_tab".

(** [triggered] lists the [prop_id]s of [dash.callback_context.triggered]. *)
Definition update_active_tab (triggered : list string) : outcome (string * Html) :=
  match triggered with
  | [] => obind overview_tab (fun page => Returns ("overview", page))
  | prop_id :: _ =>
      let triggered_id := before_dot prop_id in
      if String.prefix index_prefix triggered_id then
        match obind (json_index triggered_id) (fun tab_key =>
              obind (call_global (tab_key +:+ "_tab")) (fun page =>
              Returns (tab_key, page))) with
        | Returns answer => Returns answer
        | Raises _ => obind overview_tab (fun page => Returns ("overview", page))
        end
      else if String.prefix "tab-" triggered_id then
        let tab_key := str_replace "tab-" "" triggered_id in
        if bool_decide (tab_key ∈ TAB_ORDER) then
          obind (call_global (tab_key +:+ "_tab")) (fun page => Returns (tab_key, page))
        else obind overview_tab (fun page => Returns ("overview", page))
      else obind overview_tab (fun page => Returns ("overview", page))
  end.

(** ** Summary titles (app.py, lines 1258-1276) *)

Definition update_summary_titles (continent country : option string)
  : outcome pyval :=
  obind (if neq_all continent
         then obind (title_of str_title continent) (fun t => Returns [t])
         else Returns []) (fun part1 =>
  obind (if neq_all country
         then obind (title_of str_title country) (fun t => Returns [t])
         else Returns []) (fun part2 =>
  let location_parts := part1 ++ part2 in
  let location_label :=
    match location_parts with
    | [] => "Global"
    | _ => str_join " - " location_parts
    end in
  Returns (PTuple [PStr ("Metric Distribution - " +:+ location_label);
                   PStr ("Metric Comparison - " +:+ location_label);
                   PStr ("Monthly Trends - " +:+ location_label)]))).

(** X5.  The stored tab key always names the layout that is shown:
    whatever triggered the callback, an answer [(key, page)] has [page]
    built by the layout function [key_tab]; and the key is "overview", a
    key of [TAB_ORDER], or the index of the quick link that was clicked. *)
Theorem active_tab_matches_content triggered key page :
  update_active_tab triggered = Returns (key, page) ->
  call_global (key +:+ "_tab") = Returns page
  /\ (key = "overview" \/ key ∈ TAB_ORDER
      \/ exists prop_id rest, triggered = prop_id :: rest
           /\ json_index (before_dot prop_id) = Returns key).
Proof.
  assert (Hov : obind overview_tab (fun page => Returns ("overview", page))
                = Returns (key, page) ->
                call_global (key +:+ "_tab") = Returns page /\ key = "overview").
  { unfold overview_tab. destruct (call_global "overview_tab") eqn:E; [|done].
    cbn [obind]. intros [= <- <-]. done. }
  unfold update_active_tab. destruct triggered as [|prop_id rest].
  { intros H. destruct (Hov H) as [? ?]. auto. }
  cbv zeta. destruct (String.prefix index_prefix (before_dot prop_id)).
  - destruct (json_index (before_dot prop_id)) as [k|e] eqn:Ej; cbn [obind].
    + destruct (call_global (k +:+ "_tab")) eqn:Ec; cbn [obind].
      * intros [= <- <-]. split; [done|]. right; right. by exists prop_id, rest.
      * intros H. destruct (Hov H) as [? ?]. auto.
    + intros H. destruct (Hov H) as [? ?]. auto.
  - destruct (String.prefix "tab-" (before_dot prop_id)).
    + case_bool_decide as Hin.
      * destruct (call_global (str_replace _ _ _ +:+ _)) eqn:Ec; cbn [obind]; [|done].
        intros [= <- <-]. auto.
      * intros H. destruct (Hov H) as [? ?]. auto.
    + intros H. destruct (Hov H) as [? ?]. auto.
Qed.


(** X7.  With both selections made, the three titles of the summary tab
    end in the same location label: "Global" when both are "all", else the
    titles of the selected continent and country joined by " - ".  When a
    selection is cleared ([None]) the callback raises [AttributeError]. *)
Theorem summary_titles_label continent country :
  (forall ct cy, continent = Some ct -> country = Some cy ->
     let label :=
       if bool_decide (ct = "all") then
         if bool_decide (cy = "all") then "Global" else str_title cy
       else
         if bool_decide (cy = "all") then str_title ct
         else str_title ct +:+ " - " +:+ str_title cy in
     update_summary_titles continent country
     = Returns (PTuple [PStr ("Metric Distribution - " +:+ label);
                        PStr ("Metric Comparison - " +:+ label);
                        PStr ("Monthly Trends - " +:+ label)]))
  /\ (continent = None \/ country = None ->
      update_summary_titles continent country
      = Raises (AttributeError "'NoneType' object has no attribute 'title'")).
Proof.
  split.
  - intros ct cy -> ->. unfold update_summary_titles, neq_all.
    destruct (decide (ct = "all")) as [->|Hct], (decide (cy = "all")) as [->|Hcy].
    + reflexivity.
    + rewrite (bool_decide_eq_false_2 (Some cy = Some "all")) by congruence.
      by rewrite (bool_decide_eq_false_2 (cy = "all")).
    + rewrite (bool_decide_eq_false_2 (Some ct = Some "all")) by congruence.
      by rewrite (bool_decide_eq_false_2 (ct = "all")).
    + rewrite (bool_decide_eq_false_2 (Some ct = Some "all")) by congruence.
      rewrite (bool_decide_eq_false_2 (Some cy = Some "all")) by congruence.
      rewrite (bool_decide_eq_false_2 (ct = "all")) by done.
      by rewrite (bool_decide_eq_false_2 (cy = "all")).
  - unfold update_summary_titles, neq_all. intros [-> | ->]; [reflexivity|].
    destruct continent as [ct|]; [|reflexivity].
    by case_bool_decide.
Qed.

End Navigation.

(* ===================================================================== *)
(** * Start-up: loading the two tables (app.py, lines 24-87) *)
(* ===================================================================== *)

(** What [pd.read_csv] does with a file name: the file is missing, reading
    fails in another way, or a table comes back. *)
Inductive read_result : Type :=
  | FileNotFound
  | ReadFails (e : exn)
  | Table (d : DataFrame).

(** What the loaders write to the log. *)
Inductive startup_entry : Type :=
  | StartupError (msg : string)
  | StartupErrorWith (msg : string) (e : exn)
  | StartupWarning (msg : string)
  | MissingColumns (missing : list string).

(** Every row has one cell per column. *)
Definition rectangular (d : DataFrame) : Prop :=
  Forall (fun r => length r = length (columns d)) (rows d).

(** [d[c] = values] for a label that is the [i]-th column: the column is
    overwritten in place. *)
Definition set_column (d : DataFrame) (i : nat) (values : list cell) : DataFrame :=
  mkFrame (columns d) (zip_with (fun r v => <[i := v]> r) (rows d) values).

(** The positions at which a label occurs. *)
Fixpoint positions_from (c : string) (i : nat) (cols : list string) : list nat :=
  match cols with
  | [] => []
  | x :: cols' =>
      if bool_decide (x = c) then i :: positions_from c (S i) cols'
      else positions_from c (S i) cols'
  end.

Definition positions (c : string) (cols : list string) : list nat :=
  positions_from c 0 cols.

(** [pd.DataFrame(columns=['username', 'password_hash', 'role'])]. *)
Definition empty_users : DataFrame :=
  mkFrame ["username"; "password_hash"; "role"] [].

(** [pd.DataFrame()]. *)
Definition empty_frame : DataFrame := mkFrame [] [].

Definition required_columns : list string :=
  ["date"; "country"; "continent"; "jobs_placed"; "scheduled_demos"; "ai_requests";
   "promotional_events"; "job_type"; "age_group"; "request_type"].

(** [series.dropna()]. *)
Definition dropna (col : list cell) : list cell :=
  filter (fun c => isnull c = false) col.

Section Loading.

Set Default Proof Using "Type".

(** [pd.read_csv(name)]. *)
Variable read_csv : string -> read_result.
(** [str(x)] for a value that is not a string (a number, [nan]). *)
Variable str_of_value : cell -> string.
(** [text.strip()] and [text.lower()]. *)
Variable str_strip : string -> string.
Variable str_lower : string -> string.
(** [pd.to_datetime(x, format='%d/%m/%Y', errors='coerce')] on one value:
    the timestamp, or [NaT] ([None]) for whatever does not parse. *)
Variable parse_date : cell -> option Z.
(** [bcrypt.checkpw]. *)
Variable checkpw : string -> string -> outcome bool.

(** [series.astype(str)] on one value. *)
Definition astype_str (c : cell) : cell :=
  match c with
  | CStr s => CStr s
  | _ => CStr (str_of_value c)
  end.

(** ** [load_users] (app.py, lines 25-35).  [read_csv] gives every column a
    label of its own, so ['password_hash'] names at most one column. *)
Definition load_users : DataFrame * list startup_entry :=
  match read_csv "users.csv" with
  | Table users =>
      match col_pos "password_hash" (columns users) with
      | Some i =>
          (set_column users i (map (fun r => astype_str (at_pos i r)) (rows users)), [])
      | None =>
          (empty_users,
           [StartupErrorWith "Could not load users.csv" (KeyError "password_hash")])
      end
  | FileNotFound =>
      (empty_users,
       [StartupError "users.csv not found. Creating empty user DataFrame."])
  | ReadFails e =>
      (empty_users, [StartupErrorWith "Could not load users.csv" e])
  end.

(** ** [load_data] (app.py, lines 53-71) *)

(** [columns.str.strip().str.lower().str.replace(' ', '_')] on one label. *)
Definition normalise_label (c : string) : string :=
  str_replace " " "_" (str_lower (str_strip c)).

Definition to_timestamp (c : cell) : cell :=
  match parse_date c with
  | Some t => CTime t
  | None => CNull
  end.

(** After the labels are normalised two columns can share the label
    ['date']; [df['date']] is then a frame, which [pd.to_datetime] refuses. *)
Definition load_data : DataFrame * list startup_entry :=
  match read_csv "test_dataPD.csv" with
  | Table d =>
      let d := mkFrame (map normalise_label (columns d)) (rows d) in
      match positions "date" (columns d) with
      | [] => (empty_frame, [StartupErrorWith "Error loading data" (KeyError "date")])
      | [i] =>
          let d := set_column d i (map (fun r => to_timestamp (at_pos i r)) (rows d)) in
          let missing_columns :=
            filter (fun col => col ∉ columns d) required_columns in
          (d, if bool_decide (missing_columns = []) then []
              else [MissingColumns missing_columns])
      | _ =>
          (empty_frame,
           [StartupErrorWith "Error loading data"
              (ValueError "cannot assemble with duplicate keys")])
      end
  | FileNotFound =>
      (empty_frame, [StartupError "Data file 'test_dataPD.csv' not found."])
  | ReadFails e => (empty_frame, [StartupErrorWith "Error loading data" e])
  end.

(** ** Facts about column assignment *)

Lemma set_column_map d i (g : list cell -> cell) :
  set_column d i (map g (rows d))
  = mkFrame (columns d) (map (fun r => <[i := g r]> r) (rows d)).
Proof.
  unfold set_column. f_equal. induction (rows d) as [|r rs IH]; [done|].
  cbn [map zip_with]. by rewrite IH.
Qed.

Lemma at_pos_insert_eq i v (r : list cell) :
  (i < length r)%nat -> at_pos i (<[i := v]> r) = v.
Proof.
  intros Hi. unfold at_pos. by rewrite nth_lookup, list_lookup_insert_eq.
Qed.

Lemma at_pos_insert_ne i j v (r : list cell) :
  i <> j -> at_pos j (<[i := v]> r) = at_pos j r.
Proof.
  intros Hij. unfold at_pos. by rewrite !nth_lookup, list_lookup_insert_ne.
Qed.

Lemma col_pos_lt c cols i : col_pos c cols = Some i -> (i < length cols)%nat.
Proof.
  revert i. induction cols as [|x cols IH]; intros i; cbn [col_pos length]; [done|].
  case_bool_decide; [intros [= <-]; lia|].
  destruct (col_pos c cols) as [j|]; [|done].
  intros [= <-]. specialize (IH j eq_refl). lia.
Qed.

Lemma positions_from_col_pos c k cols i rest :
  positions_from c k cols = i :: rest ->
  (k <= i)%nat /\ col_pos c cols = Some (i - k)%nat.
Proof.
  revert k. induction cols as [|x cols IH]; intros k; cbn [positions_from col_pos]; [done|].
  case_bool_decide.
  - intros [= <- _]. split; [lia|]. f_equal. lia.
  - intros H'. destruct (IH _ H') as [Hk ->]. split; [lia|].
    cbn. f_equal. lia.
Qed.

Lemma positions_col_pos c cols i rest :
  positions c cols = i :: rest -> col_pos c cols = Some i.
Proof.
  intros H. destruct (positions_from_col_pos c 0 cols i rest H) as [_ ->].
  f_equal. lia.
Qed.

Lemma positions_from_nil c k cols : positions_from c k cols = [] -> c ∉ cols.
Proof.
  revert k. induction cols as [|x cols IH]; intros k; cbn [positions_from].
  - intros _. apply not_elem_of_nil.
  - case_bool_decide; [done|]. intros H'. apply not_elem_of_cons. split; [done|].
    by apply (IH (S k)).
Qed.

(** The table that a successful [load_users] returns. *)
Lemma load_users_table users i :
  read_csv "users.csv" = Table users ->
  col_pos "password_hash" (columns users) = Some i ->
  load_users
  = (mkFrame (columns users)
       (map (fun r => <[i := astype_str (at_pos i r)]> r) (rows users)), []).
Proof.
  intros Hr Hi. unfold load_users. rewrite Hr, Hi.
  by rewrite (set_column_map users i (fun r => astype_str (at_pos i r))).
Qed.

Lemma load_users_failed :
  snd load_users <> [] -> fst load_users = empty_users.
Proof.
  unfold load_users. destruct (read_csv "users.csv") as [|e|users]; [done..|].
  by destruct (col_pos "password_hash" (columns users)).
Qed.

Lemma astype_str_is_str c : is_str (astype_str c) = true.
Proof. by destruct c. Qed.

Lemma load_users_string_hashes :
  (forall d, read_csv "users.csv" = Table d -> rectangular d) ->
  exists ih,
    col_pos "password_hash" (columns (fst load_users)) = Some ih
    /\ forallb (fun r => is_str (at_pos ih r)) (rows (fst load_users)) = true.
Proof.
  intros Hrect.
  destruct (read_csv "users.csv") as [|e|users] eqn:Hr;
    try (unfold load_users; rewrite Hr; by exists 1%nat).
  destruct (col_pos "password_hash" (columns users)) as [i|] eqn:Hi.
  - rewrite (load_users_table users i Hr Hi). cbn [fst columns rows].
    exists i. split; [done|]. apply forallb_intro.
    intros r' (r & -> & Hin)%list_elem_of_fmap.
    rewrite at_pos_insert_eq; [apply astype_str_is_str|].
    pose proof (Hrect users eq_refl) as Hall. unfold rectangular in Hall.
    rewrite Forall_forall in Hall. rewrite (Hall r Hin).
    by apply (col_pos_lt "password_hash").
  - unfold load_users. rewrite Hr, Hi. by exists 1%nat.
Qed.

(** X8.  Whatever [read_csv] does, [load_users] returns a table with a
    [password_hash] column that holds only strings.  When the file has such
    a column, the table keeps the labels and rows of the file, every other
    cell, and every hash that already was a string; in every other case
    (file missing or unreadable, no such column) the table is the empty user
    table and the failure is logged. *)
Theorem load_users_hashes_are_strings :
  (forall d, read_csv "users.csv" = Table d -> rectangular d) ->
  (exists ih,
     col_pos "password_hash" (columns (fst load_users)) = Some ih
     /\ forallb (fun r => is_str (at_pos ih r)) (rows (fst load_users)) = true)
  /\ (forall d ih,
        read_csv "users.csv" = Table d ->
        col_pos "password_hash" (columns d) = Some ih ->
        snd load_users = []
        /\ columns (fst load_users) = columns d
        /\ length (rows (fst load_users)) = length (rows d)
        /\ forall k r, rows d !! k = Some r ->
             exists r', rows (fst load_users) !! k = Some r'
               /\ (forall j, j <> ih -> at_pos j r' = at_pos j r)
               /\ (forall h, at_pos ih r = CStr h -> at_pos ih r' = CStr h))
  /\ ((forall d, read_csv "users.csv" = Table d -> "password_hash" ∉ columns d) ->
      fst load_users = empty_users /\ snd load_users <> []).
Proof.
  intros Hrect. split; [by apply load_users_string_hashes|split].
  - intros d ih Hr Hi. rewrite (load_users_table d ih Hr Hi). cbn [fst snd columns rows].
    split; [done|]. split; [done|]. split; [by rewrite length_map|].
    intros k r Hk. exists (<[ih := astype_str (at_pos ih r)]> r).
    split; [by rewrite list_lookup_fmap, Hk|].
    split; [intros j Hj; by apply at_pos_insert_ne|].
    intros h Hh. rewrite at_pos_insert_eq; [by rewrite Hh|].
    pose proof (Hrect d Hr) as Hall. unfold rectangular in Hall.
    rewrite Forall_forall in Hall.
    rewrite (Hall r (list_elem_of_lookup_2 _ _ _ Hk)).
    by apply (col_pos_lt "password_hash").
  - intros Hno. unfold load_users.
    destruct (read_csv "users.csv") as [|e|users] eqn:Hr; [done..|].
    destruct (col_pos "password_hash" (columns users)) as [i|] eqn:Hi; [|done].
    exfalso. apply (Hno users eq_refl). apply col_pos_elem. by exists i.
Qed.

(** ** The credential check on the loaded user table *)

Lemma mask_elem {A} (m : list bool) (l : list A) x : x ∈ mask m l -> x ∈ l.
Proof.
  revert m. induction l as [|y l IH]; intros [|[] m]; cbn [mask];
    rewrite ?elem_of_cons; try (by intros ?%elem_of_nil).
  - intros [->|H]; [by left | right; eauto].
  - intros H. right. eauto.
Qed.

Lemma verify_value_returns users iu ih username password :
  col_pos "username" (columns users) = Some iu ->
  col_pos "password_hash" (columns users) = Some ih ->
  forallb (fun r => is_str (at_pos ih r)) (rows users) = true ->
  exists b, verify_value checkpw users username password = Returns b.
Proof.
  intros Hiu Hih Hstr. unfold verify_value.
  destruct (negb (truthy username) || negb (truthy password)); [by eexists|].
  unfold getitem_opt. cbn [label obind]. rewrite (getitem_at _ _ iu Hiu). cbn [obind].
  set (found := df_mask users _).
  destruct (df_empty found) eqn:He; [by eexists|].
  unfold iloc0, col_pos_or_raise.
  destruct (rows found) as [|r rs] eqn:Hrows.
  { unfold df_empty in He. rewrite Hrows in He. by destruct (columns found). }
  replace (columns found) with (columns users) by done. rewrite Hih. cbn [obind].
  assert (Hr : r ∈ rows users).
  { apply (mask_elem (series_eq (map (at_pos iu) (rows users)) username)).
    replace (mask _ _) with (rows found) by done. rewrite Hrows. by left. }
  pose proof (forallb_elem _ _ _ Hstr Hr) as E. cbn beta in E.
  destruct (at_pos ih r); try done. by eexists.
Qed.

(** X9.  When loading the user table failed in any way (no file, an
    unreadable file, no [password_hash] column), the credential check
    answers [False] to every username and password. *)
Theorem failed_load_rejects_every_login username password s :
  snd load_users <> [] ->
  heap s !! users_df = Some (fst load_users) ->
  exists s', verify_user checkpw username password s = (Returns false, s').
Proof.
  intros Hfail Hu. rewrite (load_users_failed Hfail) in Hu.
  destruct (verify_user_sound checkpw username password s _ Hu) as (s' & -> & _).
  exists s'. f_equal. unfold verify_value.
  by destruct (negb (truthy username) || negb (truthy password)).
Qed.

(** X10.  On the table that [load_users] builds from a file with a
    [password_hash] column, the credential check returns a boolean for
    every input if the file also has a [username] column; if it has none,
    the check raises [KeyError] as soon as both inputs are non-empty. *)
Theorem verify_user_on_loaded_table username password s d :
  read_csv "users.csv" = Table d ->
  rectangular d ->
  "password_hash" ∈ columns d ->
  heap s !! users_df = Some (fst load_users) ->
  ("username" ∈ columns d ->
     exists b s', verify_user checkpw username password s = (Returns b, s'))
  /\ ("username" ∉ columns d ->
      truthy username = true -> truthy password = true ->
      exists s', verify_user checkpw username password s
                 = (Raises (KeyError "username"), s')).
Proof.
  intros Hr Hrect Hhash Hu.
  destruct (verify_user_sound checkpw username password s _ Hu) as (s' & -> & _).
  apply col_pos_elem in Hhash as [ih Hih].
  assert (Hcols : columns (fst load_users) = columns d).
  { by rewrite (load_users_table d ih Hr Hih). }
  split.
  - intros [iu Hiu]%col_pos_elem.
    destruct load_users_string_hashes as (ih' & Hih' & Hstr).
    { intros d' Hd'. rewrite Hr in Hd'. by injection Hd' as <-. }
    rewrite <- Hcols in Hiu.
    destruct (verify_value_returns _ iu ih' username password Hiu Hih' Hstr) as [b ->].
    by exists b, s'.
  - intros Hno Tu Tp. exists s'. f_equal. unfold verify_value.
    rewrite Tu, Tp. cbn [negb orb]. unfold getitem_opt, getitem. cbn [label obind].
    rewrite Hcols.
    destruct (col_pos "username" (columns d)) as [i|] eqn:Hi; [|done].
    exfalso. apply Hno, col_pos_elem. by exists i.
Qed.

(** ** What [load_data] returns *)

Fixpoint has_space (text : string) : bool :=
  match text with
  | "" => false
  | String c rest => bool_decide (String c "" = " ") || has_space rest
  end.

Lemma replace_spaces_no_space text : has_space (str_replace " " "_" text) = false.
Proof.
  unfold str_replace. induction text as [|c rest IH]; [done|].
  cbn [replace_from String.prefix].
  destruct (Ascii.ascii_dec _ c) as [<-|Hc].
  - cbn [String.length Nat.sub]. destruct rest; cbn [String.prefix]; exact IH.
  - cbn [has_space]. rewrite IH, orb_false_r.
    apply bool_decide_eq_false_2. intros [= ->]. done.
Qed.

Lemma temporal_to_timestamp c : temporal (to_timestamp c) = true.
Proof. unfold to_timestamp. by destruct (parse_date c). Qed.

(** X11.  Whatever [read_csv] does, [load_data] returns either the empty
    frame together with one error entry (no file, an unreadable file, and
    also a file in which no or more than one label normalises to [date]),
    or the table of the file with normalised labels, none of which contains
    a space, with exactly one [date] column that holds only timestamps and
    [NaT], all other cells unchanged; in that case a warning, and nothing
    else, is logged exactly when a required column is missing. *)
Theorem load_data_table :
  (forall d, read_csv "test_dataPD.csv" = Table d -> rectangular d) ->
  (fst load_data = empty_frame
   /\ exists entry, snd load_data = [entry]
        /\ forall missing, entry <> MissingColumns missing)
  \/ (exists d i,
        read_csv "test_dataPD.csv" = Table d
        /\ columns (fst load_data) = map normalise_label (columns d)
        /\ Forall (fun c => has_space c = false) (columns (fst load_data))
        /\ positions "date" (columns (fst load_data)) = [i]
        /\ forallb (fun r => temporal (at_pos i r)) (rows (fst load_data)) = true
        /\ length (rows (fst load_data)) = length (rows d)
        /\ (forall k r, rows d !! k = Some r ->
              exists r', rows (fst load_data) !! k = Some r'
                /\ forall j, j <> i -> at_pos j r' = at_pos j r)
        /\ (snd load_data = []
            <-> forall c, c ∈ required_columns -> c ∈ columns (fst load_data))
        /\ (snd load_data <> [] ->
            exists missing,
              snd load_data = [MissingColumns missing]
              /\ forall c, c ∈ missing
                   <-> c ∈ required_columns /\ c ∉ columns (fst load_data))).
Proof.
  intros Hrect. unfold load_data.
  destruct (read_csv "test_dataPD.csv") as [|e|d] eqn:Hr;
    [left; split; [done|]; by eexists ..|].
  cbv zeta. cbn [columns rows].
  destruct (positions "date" (map normalise_label (columns d))) as [|i [|i' rest]] eqn:Hp;
    [left; split; [done|]; by eexists | | left; split; [done|]; by eexists].
  right. exists d, i. split; [done|].
  pose proof (set_column_map (mkFrame (map normalise_label (columns d)) (rows d)) i
                (fun r => to_timestamp (at_pos i r))) as Hset.
  cbn [columns rows] in Hset. rewrite Hset. clear Hset.
  cbn [fst snd columns rows].
  set (cols := map normalise_label (columns d)) in *.
  assert (Hi : (i < length (columns d))%nat).
  { apply positions_col_pos, col_pos_lt in Hp. unfold cols in Hp.
    by rewrite length_map in Hp. }
  pose proof (Hrect d eq_refl) as Hall. unfold rectangular in Hall.
  rewrite Forall_forall in Hall.
  split; [done|]. split.
  { unfold cols. apply Forall_forall. intros c (c0 & -> & _)%list_elem_of_fmap.
    apply replace_spaces_no_space. }
  split; [done|]. split.
  { apply forallb_intro. intros r' (r & -> & Hin)%list_elem_of_fmap.
    rewrite at_pos_insert_eq; [apply temporal_to_timestamp|].
    by rewrite (Hall r Hin). }
  split; [by rewrite length_map|]. split.
  { intros k r Hk. exists (<[i := to_timestamp (at_pos i r)]> r).
    split; [by rewrite list_lookup_fmap, Hk|].
    intros j Hj. by apply at_pos_insert_ne. }
  set (missing := filter (fun col => col ∉ cols) required_columns).
  assert (Hmiss : forall c, c ∈ missing <-> c ∈ required_columns /\ c ∉ cols).
  { intros c. unfold missing. by rewrite list_elem_of_filter, (comm and). }
  split.
  - case_bool_decide as Hm.
    + split; [|done]. intros _ c Hc.
      destruct (decide (c ∈ cols)) as [|Hn]; [done|].
      assert (c ∈ missing) as Hin by (by apply Hmiss).
      rewrite Hm in Hin. by apply elem_of_nil in Hin.
    + split; [done|]. intros Hreq. exfalso. apply Hm.
      destruct missing as [|c ms] eqn:E; [done|].
      assert (c ∈ c :: ms) as Hin by (by left).
      apply Hmiss in Hin as [Hc Hn]. by destruct (Hn (Hreq c Hc)).
  - case_bool_decide as Hm; [done|]. intros _. by exists missing.
Qed.

End Loading.

(* ===================================================================== *)
(** * Sorting labels *)
(* ===================================================================== *)

(** Merge sort commutes with a map that respects the two orders. *)
Section merge_sort_fmap.

Context {A B : Type} (f : A -> B).
Context (RA : relation A) `{!forall x y, Decision (RA x y)}.
Context (RB : relation B) `{!forall x y, Decision (RB x y)}.
Hypothesis agree : forall x y, RA x y <-> RB (f x) (f y).

Lemma list_merge_fmap l1 l2 :
  list_merge RB (f <$> l1) (f <$> l2) = f <$> list_merge RA l1 l2.
Proof using agree.
  revert l2. induction l1 as [|x1 l1 IH1]; intros l2; [by destruct l2|].
  induction l2 as [|x2 l2 IH2]; [done|].
  rewrite !fmap_cons, !list_merge_cons.
  destruct (decide (RA x1 x2)) as [Ha|Ha], (decide (RB (f x1) (f x2))) as [Hb|Hb];
    try (by apply agree in Ha); try (by apply agree in Hb).
  - rewrite fmap_cons. f_equal. by rewrite <- IH1.
  - rewrite fmap_cons. f_equal. by rewrite <- IH2.
Qed.

Definition stack_fmap (st : list (option (list A))) : list (option (list B)) :=
  map (option_map (map f)) st.

Lemma merge_list_to_stack_fmap st l :
  merge_list_to_stack RB (stack_fmap st) (f <$> l)
  = stack_fmap (merge_list_to_stack RA st l).
Proof using agree.
  revert l. induction st as [|[l'|] st IH]; intros l; [done| |done].
  cbn [merge_list_to_stack stack_fmap map option_map].
  f_equal. change (map f l') with (f <$> l'). rewrite list_merge_fmap. apply IH.
Qed.

Lemma merge_stack_fmap st :
  merge_stack RB (stack_fmap st) = f <$> merge_stack RA st.
Proof using agree.
  induction st as [|[l'|] st IH]; [done| |done].
  cbn [merge_stack stack_fmap map option_map].
  change (map f l') with (f <$> l'). rewrite <- list_merge_fmap. by f_equal.
Qed.

Lemma merge_sort_aux_fmap st (l : list A) :
  merge_sort_aux RB (stack_fmap st) (f <$> l) = f <$> merge_sort_aux RA st l.
Proof using agree.
  revert st. induction l as [|x l IH]; intros st; [apply merge_stack_fmap|].
  rewrite fmap_cons. cbn [merge_sort_aux]. rewrite <- IH. f_equal.
  apply (merge_list_to_stack_fmap st [x]).
Qed.

Lemma merge_sort_fmap (l : list A) :
  merge_sort RB (f <$> l) = f <$> merge_sort RA l.
Proof using agree. apply (merge_sort_aux_fmap []). Qed.

End merge_sort_fmap.

(** The order of [sorted] on strings. *)
Definition str_le (a b : string) : Prop := String.leb a b = true.

#[global] Instance str_le_dec a b : Decision (str_le a b).
Proof. unfold str_le. apply _. Defined.

#[global] Instance str_le_total : Total str_le.
Proof. intros a b. apply String.leb_total. Qed.

(** The text of a string cell. *)
Definition cell_text (c : cell) : string :=
  match c with
  | CStr s => s
  | _ => ""
  end.

#[global] Instance CStr_inj : Inj (=) (=) CStr.
Proof. by intros x y [= ->]. Qed.

Lemma texts_of_strings (l : list cell) :
  forallb is_str l = true -> CStr <$> (cell_text <$> l) = l.
Proof.
  induction l as [|c l IH]; [done|]. cbn [forallb].
  intros [Hc Hl]%andb_prop. rewrite !fmap_cons, IH by done. by destruct c.
Qed.

Lemma cells_of_texts (l : list string) : cell_text <$> (CStr <$> l) = l.
Proof. induction l as [|x l IH]; [done|]. by rewrite !fmap_cons, IH. Qed.

(** Sorting string cells puts their texts in ascending order. *)
Lemma merge_sort_strings (l : list cell) :
  forallb is_str l = true ->
  Sorted str_le (cell_text <$> merge_sort (fun a b : cell => cell_leb a b) l).
Proof.
  intros Hs. rewrite <- (texts_of_strings l Hs) at 1.
  rewrite (merge_sort_fmap CStr str_le (fun a b : cell => cell_leb a b)).
  - rewrite cells_of_texts. apply Sorted_merge_sort, _.
  - intros x y. unfold str_le. cbn [cell_leb]. by destruct (String.leb x y).
Qed.

Lemma py_sorted_strings (l : list cell) :
  forallb is_str l = true ->
  exists sorted,
    py_sorted l = Returns sorted
    /\ sorted ≡ₚ l
    /\ Sorted str_le (cell_text <$> sorted).
Proof.
  intros Hs. unfold py_sorted. rewrite Hs. eexists. split; [reflexivity|].
  split; [apply merge_sort_Permutation | by apply merge_sort_strings].
Qed.

(* ===================================================================== *)
(** * Start-up: the module-level lists (app.py, lines 73-87) *)
(* ===================================================================== *)

(** [sorted(t[c].dropna().unique())]. *)
Definition sorted_values (t : DataFrame) (c : string) : outcome (list cell) :=
  obind (getitem t c) (fun col => py_sorted (unique (dropna col))).

(** The log line for an empty table, then [continents], [countries] and
    [age_groups].  An exception here ends the start-up. *)
Definition module_lists (t : DataFrame)
  : outcome (list cell * list cell * list cell) * list startup_entry :=
  let entries :=
    if df_empty t
    then [StartupWarning "Empty DataFrame loaded. Dashboard may have limited functionality."]
    else [] in
  (obind (if negb (df_empty t) then sorted_values t "continent" else Returns [])
     (fun continents =>
   obind (if negb (df_empty t) then sorted_values t "country" else Returns [])
     (fun countries =>
   obind (if negb (df_empty t) && bool_decide ("age_group" ∈ columns t)
          then sorted_values t "age_group" else Returns [])
     (fun age_groups =>
   Returns (continents, countries, age_groups)))),
   entries).

(** A text column: strings and missing values. *)
Definition text_or_missing (c : cell) : bool := is_str c || isnull c.

(** [vs] lists the values of [col] that are not missing, each once, in
    ascending order. *)
Definition distinct_sorted (vs col : list cell) : Prop :=
  NoDup vs
  /\ (forall x, x ∈ vs <-> x ∈ col /\ isnull x = false)
  /\ Sorted str_le (cell_text <$> vs).

Lemma NoDup_unique (l : list cell) : NoDup (unique l).
Proof. unfold unique. rewrite reverse_Permutation. apply NoDup_remove_dups. Qed.

Lemma sorted_unique_strings (l : list cell) :
  (forall x, x ∈ l -> is_str x = true) ->
  exists vs,
    py_sorted (unique l) = Returns vs
    /\ NoDup vs
    /\ (forall x, x ∈ vs <-> x ∈ l)
    /\ Sorted str_le (cell_text <$> vs).
Proof.
  intros Hstr.
  destruct (py_sorted_strings (unique l)) as (vs & -> & Hperm & Hsorted).
  { apply forallb_intro. intros x Hx. by apply Hstr, unique_elem. }
  exists vs. split; [done|]. split; [|split; [|done]].
  - rewrite Hperm. apply NoDup_unique.
  - intros x. by rewrite Hperm, unique_elem.
Qed.

Lemma sorted_values_spec t c col :
  getitem t c = Returns col ->
  forallb text_or_missing col = true ->
  exists vs, sorted_values t c = Returns vs /\ distinct_sorted vs col.
Proof.
  intros Hget Htext. unfold sorted_values. rewrite Hget. cbn [obind].
  destruct (sorted_unique_strings (dropna col)) as (vs & -> & Hnd & Hin & Hs).
  { intros x [Hx Hin]%list_elem_of_filter.
    pose proof (forallb_elem _ _ _ Htext Hin) as E. unfold text_or_missing in E.
    rewrite Hx, orb_false_r in E. done. }
  exists vs. split; [done|]. split; [done|]. split; [|done].
  intros x. rewrite Hin. unfold dropna. by rewrite list_elem_of_filter, (comm and).
Qed.

(** X12.  For a table that is not empty and whose [continent], [country] and
    (if present) [age_group] columns hold text, the module-level lists are
    the distinct values of these columns that are not missing, in ascending
    order; without an [age_group] column that list is empty; nothing is
    logged. *)
Theorem module_lists_values t conts cs :
  df_empty t = false ->
  getitem t "continent" = Returns conts ->
  forallb text_or_missing conts = true ->
  getitem t "country" = Returns cs ->
  forallb text_or_missing cs = true ->
  (forall ages, getitem t "age_group" = Returns ages ->
                forallb text_or_missing ages = true) ->
  exists continents countries age_groups,
    module_lists t = (Returns (continents, countries, age_groups), [])
    /\ distinct_sorted continents conts
    /\ distinct_sorted countries cs
    /\ ("age_group" ∉ columns t -> age_groups = [])
    /\ (forall ages, getitem t "age_group" = Returns ages ->
          distinct_sorted age_groups ages).
Proof.
  intros He Hconts Tconts Hcs Tcs Hages. unfold module_lists. rewrite He.
  cbn [negb andb].
  destruct (sorted_values_spec t "continent" conts Hconts Tconts) as (a & -> & Ha).
  destruct (sorted_values_spec t "country" cs Hcs Tcs) as (b & -> & Hb).
  cbn [obind]. case_bool_decide as Hage.
  - apply col_pos_elem in Hage as [i Hi].
    pose proof (getitem_at t "age_group" i Hi) as Hg.
    destruct (sorted_values_spec t "age_group" _ Hg (Hages _ Hg)) as (c & -> & Hc).
    exists a, b, c. cbn [obind]. split; [done|]. split; [done|]. split; [done|].
    split.
    + intros Hno. exfalso. apply Hno, col_pos_elem. by exists i.
    + intros ages Hg'. rewrite Hg in Hg'. by injection Hg' as <-.
  - exists a, b, []. cbn [obind]. split; [done|]. split; [done|]. split; [done|].
    split; [done|]. intros ages Hg. exfalso. apply Hage.
    unfold getitem in Hg. apply col_pos_elem.
    destruct (col_pos "age_group" (columns t)); [by eexists | done].
Qed.

Section Startup.

Set Default Proof Using "Type".

Variable read_csv : string -> read_result.
Variable str_strip : string -> string.
Variable str_lower : string -> string.
Variable parse_date : cell -> option Z.

(** X13.  A data file with rows whose labels normalise to exactly one
    [date] but to no [continent] is accepted by [load_data] with a mere
    warning that names the missing column; the module-level statement that
    computes [continents] then raises [KeyError], so the application does
    not start.  A missing [age_group] column, in contrast, is guarded. *)
Theorem startup_needs_continent d i :
  read_csv "test_dataPD.csv" = Table d ->
  rows d <> [] ->
  positions "date" (map (normalise_label str_strip str_lower) (columns d)) = [i] ->
  "continent" ∉ map (normalise_label str_strip str_lower) (columns d) ->
  (exists missing,
     snd (load_data read_csv str_strip str_lower parse_date) = [MissingColumns missing]
     /\ "continent" ∈ missing)
  /\ module_lists (fst (load_data read_csv str_strip str_lower parse_date))
     = (Raises (KeyError "continent"), []).
Proof.
  intros Hr Hrows Hp Hno. unfold load_data. rewrite Hr. cbv zeta.
  cbn [columns rows]. rewrite Hp.
  set (cols := map (normalise_label str_strip str_lower) (columns d)) in *.
  set (t := set_column _ _ _).
  assert (Hcols : columns t = cols) by done.
  rewrite Hcols. cbn [fst snd]. split.
  - set (missing := filter (fun col => col ∉ cols) required_columns).
    assert (Hin : "continent" ∈ missing).
    { unfold missing. apply list_elem_of_filter. split; [done|].
      unfold required_columns. set_solver. }
    case_bool_decide as Hm; [rewrite Hm in Hin; by apply elem_of_nil in Hin|].
    by exists missing.
  - assert (He : df_empty t = false).
    { unfold df_empty. rewrite Hcols.
      destruct cols as [|c cols']; [done|].
      unfold t, set_column. cbn [rows].
      destruct (rows d) as [|r rs]; [done|]. done. }
    unfold module_lists. rewrite He. cbn [negb]. unfold sorted_values, getitem.
    rewrite Hcols.
    destruct (col_pos "continent" cols) as [j|] eqn:Hj; [|done].
    exfalso. apply Hno, col_pos_elem. by exists j.
Qed.

End Startup.

(* ===================================================================== *)
(** * PDF reports (app.py, lines 2075-2322) *)
(* ===================================================================== *)

(** The flowables of a reportlab story; lengths in tenths of an inch. *)
Inductive flowable : Type :=
  | Paragraph (text style : string)
  | Spacer (height : Z)
  | Image (png : string) (width height : Z).

(** What a report callback hands to its [dcc.Download]. *)
Inductive report_answer : Type :=
  | ReportNoUpdate
  | SendBytes (content : string) (filename : string).

(** The [figure] property of a graph as a callback state: [None] or the
    dict of the figure. *)
Definition figure_state : Type := option (list (string * pyval)).

(** [fig and 'data' in fig]. *)
Definition has_data (fig : figure_state) : bool :=
  match fig with
  | Some kvs => negb (bool_decide (kvs = [])) && bool_decide ("data" ∈ kvs.*1)
  | None => false
  end.

Section Reports.

Set Default Proof Using "Type".

(** [pio.to_image(fig, format="png", width=w, height=h, engine="kaleido")]. *)
Variable to_image : figure_state -> Z -> Z -> outcome string.
(** [doc.build(story)] followed by [buffer.getvalue()]: the bytes of the PDF. *)
Variable build_pdf : list flowable -> outcome string.

Definition export_age_report (n_clicks : option Z) (bar_fig pie_fig : figure_state)
  : M report_answer :=
  if negb (clicked n_clicks) then ret ReportNoUpdate else
  try_except
    (let story := [Paragraph "Age Group Analysis Report" "Title"; Spacer 2] in
     let* story :=
       if has_data bar_fig then
         try_except
           (let* bar_img := lift (to_image bar_fig 800 400) in
            ret (story ++ [Paragraph "Performance by Age Group" "Heading2";
                           Image bar_img 60 30; Spacer 3]))
           (fun e =>
              let* _ := logger_error "Error exporting bar chart" e in ret story)
       else ret story in
     let* story :=
       if has_data pie_fig then
         try_except
           (let* pie_img := lift (to_image pie_fig 800 400) in
            ret (story ++ [Paragraph "Percentage Breakdown" "Heading2";
                           Image pie_img 60 30]))
           (fun e =>
              let* _ := logger_error "Error exporting pie chart" e in ret story)
       else ret story in
     let* pdf := lift (build_pdf story) in
     ret (SendBytes pdf "age_group_report.pdf"))
    (fun e =>
       let* _ := logger_error "Error generating report" e in ret ReportNoUpdate).

Definition export_time_report (n_clicks : option Z) (trend_fig : figure_state)
  : M report_answer :=
  if negb (clicked n_clicks) then ret ReportNoUpdate else
  try_except
    (let story := [Paragraph "Time Trend Analysis Report" "Title"; Spacer 2] in
     let* story :=
       if has_data trend_fig then
         try_except
           (let* trend_img := lift (to_image trend_fig 800 400) in
            ret (story ++ [Paragraph "Trend Analysis" "Heading2";
                           Image trend_img 60 30]))
           (fun e =>
              let* _ := logger_error "Error exporting trend chart" e in ret story)
       else ret story in
     let* pdf := lift (build_pdf story) in
     ret (SendBytes pdf "time_trend_report.pdf"))
    (fun e =>
       let* _ := logger_error "Error generating report" e in ret ReportNoUpdate).

Definition export_geo_report (n_clicks : option Z) (map_fig bar_fig : figure_state)
  : M report_answer :=
  if negb (clicked n_clicks) then ret ReportNoUpdate else
  try_except
    (let story := [Paragraph "Geographic Analysis Report" "Title"; Spacer 2] in
     let* story :=
       if has_data map_fig then
         try_except
           (let* map_img := lift (to_image map_fig 800 400) in
            ret (story ++ [Paragraph "Geographic Distribution" "Heading2";
                           Image map_img 60 30; Spacer 3]))
           (fun e =>
              let* _ := logger_error "Error exporting map chart" e in ret story)
       else ret story in
     let* story :=
       if has_data bar_fig then
         try_except
           (let* bar_img := lift (to_image bar_fig 800 400) in
            ret (story ++ [Paragraph "Country Performance" "Heading2";
                           Image bar_img 60 30]))
           (fun e =>
              let* _ := logger_error "Error exporting bar chart" e in ret story)
       else ret story in
     let* pdf := lift (build_pdf story) in
     ret (SendBytes pdf "geo_analysis_report.pdf"))
    (fun e =>
       let* _ := logger_error "Error generating report" e in ret ReportNoUpdate).

Definition export_analytics_report (n_clicks : option Z)
    (gauge1_fig gauge2_fig heatmap_fig : figure_state) : M report_answer :=
  if negb (clicked n_clicks) then ret ReportNoUpdate else
  try_except
    (let story := [Paragraph "Performance Analytics Report" "Title"; Spacer 2] in
     let* story :=
       if has_data gauge1_fig then
         try_except
           (let* gauge1_img := lift (to_image gauge1_fig 400 200) in
            ret (story ++ [Paragraph "Total Metric Gauge" "Heading2";
                           Image gauge1_img 30 15]))
           (fun e =>
              let* _ := logger_error "Error exporting gauge 1" e in ret story)
       else ret story in
     let* story :=
       if has_data gauge2_fig then
         try_except
           (let* gauge2_img := lift (to_image gauge2_fig 400 200) in
            ret (story ++ [Paragraph "Consistency Gauge" "Heading2";
                           Image gauge2_img 30 15; Spacer 3]))
           (fun e =>
              let* _ := logger_error "Error exporting gauge 2" e in ret story)
       else ret story in
     let* story :=
       if has_data heatmap_fig then
         try_except
           (let* heatmap_img := lift (to_image heatmap_fig 800 400) in
            ret (story ++ [Paragraph "Performance Heatmap" "Heading2";
                           Image heatmap_img 60 30]))
           (fun e =>
              let* _ := logger_error "Error exporting heatmap" e in ret story)
       else ret story in
     let* pdf := lift (build_pdf story) in
     ret (SendBytes pdf "analytics_report.pdf"))
    (fun e =>
       let* _ := logger_error "Error generating report" e in ret ReportNoUpdate).

Definition export_summary_report (n_clicks : option Z)
    (donut_fig bar_fig trend_fig : figure_state) : M report_answer :=
  if negb (clicked n_clicks) then ret ReportNoUpdate else
  try_except
    (let story := [Paragraph "Metric Analysis Report" "Title"; Spacer 2] in
     let* story :=
       if has_data donut_fig then
         try_except
           (let* donut_img := lift (to_image donut_fig 600 400) in
            ret (story ++ [Paragraph "Metric Distribution" "Heading2";
                           Image donut_img 45 30; Spacer 3]))
           (fun e =>
              let* _ := logger_error "Error exporting donut chart" e in ret story)
       else ret story in
     let* story :=
       if has_data bar_fig then
         try_except
           (let* bar_img := lift (to_image bar_fig 600 400) in
            ret (story ++ [Paragraph "Metric Comparison" "Heading2";
                           Image bar_img 45 30; Spacer 3]))
           (fun e =>
              let* _ := logger_error "Error exporting bar chart" e in ret story)
       else ret story in
     let* story :=
       if has_data trend_fig then
         try_except
           (let* trend_img := lift (to_image trend_fig 600 400) in
            ret (story ++ [Paragraph "Monthly Trends" "Heading2";
                           Image trend_img 45 30]))
           (fun e =>
              let* _ := logger_error "Error exporting trend chart" e in ret story)
       else ret story in
     let* pdf := lift (build_pdf story) in
     ret (SendBytes pdf "summary_report.pdf"))
    (fun e =>
       let* _ := logger_error "Error generating report" e in ret ReportNoUpdate).

(** ** The report callbacks as one family *)

Inductive report : Type :=
  | AgeReport (bar_fig pie_fig : figure_state)
  | TimeReport (trend_fig : figure_state)
  | GeoReport (map_fig bar_fig : figure_state)
  | AnalyticsReport (gauge1_fig gauge2_fig heatmap_fig : figure_state)
  | SummaryReport (donut_fig bar_fig trend_fig : figure_state).

Definition run_report (n_clicks : option Z) (r : report) : M report_answer :=
  match r with
  | AgeReport b p => export_age_report n_clicks b p
  | TimeReport t => export_time_report n_clicks t
  | GeoReport m b => export_geo_report n_clicks m b
  | AnalyticsReport g1 g2 h => export_analytics_report n_clicks g1 g2 h
  | SummaryReport d b t => export_summary_report n_clicks d b t
  end.

(** ** What a report holds *)

(** A chart of a report: the figure, the size it is rendered at, its
    heading, the size of the image on the page, whether a spacer follows,
    and what the log says when rendering fails. *)
Record chart : Type := mkChart {
  chart_fig : figure_state;
  render_width : Z;
  render_height : Z;
  heading : string;
  image_width : Z;
  image_height : Z;
  spaced : bool;
  failure : string
}.

Definition report_title (r : report) : string :=
  match r with
  | AgeReport _ _ => "Age Group Analysis Report"
  | TimeReport _ => "Time Trend Analysis Report"
  | GeoReport _ _ => "Geographic Analysis Report"
  | AnalyticsReport _ _ _ => "Performance Analytics Report"
  | SummaryReport _ _ _ => "Metric Analysis Report"
  end.

Definition report_filename (r : report) : string :=
  match r with
  | AgeReport _ _ => "age_group_report.pdf"
  | TimeReport _ => "time_trend_report.pdf"
  | GeoReport _ _ => "geo_analysis_report.pdf"
  | AnalyticsReport _ _ _ => "analytics_report.pdf"
  | SummaryReport _ _ _ => "summary_report.pdf"
  end.

Definition report_charts (r : report) : list chart :=
  match r with
  | AgeReport b p =>
      [mkChart b 800 400 "Performance by Age Group" 60 30 true
         "Error exporting bar chart";
       mkChart p 800 400 "Percentage Breakdown" 60 30 false
         "Error exporting pie chart"]
  | TimeReport t =>
      [mkChart t 800 400 "Trend Analysis" 60 30 false
         "Error exporting trend chart"]
  | GeoReport m b =>
      [mkChart m 800 400 "Geographic Distribution" 60 30 true
         "Error exporting map chart";
       mkChart b 800 400 "Country Performance" 60 30 false
         "Error exporting bar chart"]
  | AnalyticsReport g1 g2 h =>
      [mkChart g1 400 200 "Total Metric Gauge" 30 15 false
         "Error exporting gauge 1";
       mkChart g2 400 200 "Consistency Gauge" 30 15 true
         "Error exporting gauge 2";
       mkChart h 800 400 "Performance Heatmap" 60 30 false
         "Error exporting heatmap"]
  | SummaryReport d b t =>
      [mkChart d 600 400 "Metric Distribution" 45 30 true
         "Error exporting donut chart";
       mkChart b 600 400 "Metric Comparison" 45 30 true
         "Error exporting bar chart";
       mkChart t 600 400 "Monthly Trends" 45 30 false
         "Error exporting trend chart"]
  end.

(** The part of the story that a chart contributes: nothing when the figure
    is absent or fails to render. *)
Definition chart_flowables (c : chart) : list flowable :=
  if has_data (chart_fig c) then
    match to_image (chart_fig c) (render_width c) (render_height c) with
    | Returns png =>
        [Paragraph (heading c) "Heading2"; Image png (image_width c) (image_height c)]
        ++ (if spaced c then [Spacer 3] else [])
    | Raises _ => []
    end
  else [].

(** The log entry of a chart that fails to render. *)
Definition chart_failures (c : chart) : list log_entry :=
  if has_data (chart_fig c) then
    match to_image (chart_fig c) (render_width c) (render_height c) with
    | Returns _ => []
    | Raises e => [LogError (failure c) e]
    end
  else [].

Definition report_story (r : report) : list flowable :=
  [Paragraph (report_title r) "Title"; Spacer 2]
  ++ flat_map chart_flowables (report_charts r).

(** X14.  A report callback never raises and leaves the frame objects
    alone.  Without a click it answers [no_update] and does nothing.  After
    a click it builds the PDF from the title and, in the order of the page,
    the heading and image of every chart whose figure is present and
    renders; a chart that fails to render is left out and logged, the
    others are unaffected.  It sends the PDF under the name of the report,
    or, when building the PDF fails, logs that and answers [no_update]. *)
Theorem report_contents n_clicks r s :
  run_report n_clicks r s
  = if negb (clicked n_clicks) then (Returns ReportNoUpdate, s)
    else
      let failures := flat_map chart_failures (report_charts r) in
      match build_pdf (report_story r) with
      | Returns pdf =>
          (Returns (SendBytes pdf (report_filename r)),
           mkState (heap s) (log s ++ failures) (uuids_drawn s))
      | Raises e =>
          (Returns ReportNoUpdate,
           mkState (heap s)
             (log s ++ failures ++ [LogError "Error generating report" e])
             (uuids_drawn s))
      end.
Proof.
  destruct s as [h lg u].
  destruct r; cbn [run_report];
    unfold export_age_report, export_time_report, export_geo_report,
      export_analytics_report, export_summary_report;
    (destruct (negb (clicked n_clicks)); [reflexivity|]);
    unfold report_story, chart_flowables, chart_failures;
    cbn [report_charts report_title report_filename flat_map chart_fig render_width
         render_height heading image_width image_height spaced failure];
    unfold try_except, bind, lift, ret, logger_error;
    repeat match goal with
      | |- context [has_data ?f] => destruct (has_data f)
      | |- context [to_image ?f ?w ?h] => destruct (to_image f w h)
      end;
    cbn [app heap log uuids_drawn];
    rewrite ?app_nil_r;
    repeat match goal with
      | |- context [build_pdf ?l] => destruct (build_pdf l)
      end;
    cbn [app heap log uuids_drawn]; rewrite <- ?app_assoc; reflexivity.
Qed.

End Reports.

(* ===================================================================== *)
(** * More about the tab callbacks *)
(* ===================================================================== *)

Lemma lookup_map {A B} (f : A -> B) (l : list A) i : map f l !! i = f <$> l !! i.
Proof. apply list_lookup_fmap. Qed.

Lemma elem_of_map {A B} (f : A -> B) (l : list A) y :
  y ∈ map f l <-> exists x, y = f x /\ x ∈ l.
Proof. apply list_elem_of_fmap. Qed.


(** ** The first maximum *)




(** ** Records *)

Lemma to_record_from (f : string -> cell) (l : list string) (m : gmap string cell) c :
  foldl (fun m kv => <[kv.1 := kv.2]> m) m (zip l (map f l)) !! c
  = if bool_decide (c ∈ l) then Some (f c) else m !! c.
Proof.
  revert m. induction l as [|x l IH]; intros m; [done|].
  cbn [map zip zip_with foldl fst snd]. rewrite IH.
  destruct (decide (c ∈ l)) as [Hin|Hin].
  - rewrite !bool_decide_eq_true_2; [done | by right | done].
  - rewrite (bool_decide_eq_false_2 (c ∈ l)) by done.
    destruct (decide (c = x)) as [->|Hne].
    + rewrite bool_decide_eq_true_2 by (by left). apply lookup_insert_eq.
    + rewrite bool_decide_eq_false_2 by (by intros [?|?]%elem_of_cons).
      by apply lookup_insert_ne.
Qed.

(** A record built from the cells under the labels maps every label to its
    cell, and nothing else. *)
Lemma to_record_lookup (f : string -> cell) (cols : list string) c :
  to_record cols (map f cols) !! c
  = if bool_decide (c ∈ cols) then Some (f c) else None.
Proof. unfold to_record. by rewrite to_record_from, lookup_empty. Qed.

Lemma col_pos_NoDup cols n c :
  NoDup cols -> cols !! n = Some c -> col_pos c cols = Some n.
Proof.
  intros Hnd. revert n. induction Hnd as [|x cols Hx Hnd IH]; intros n; [done|].
  destruct n as [|n]; cbn [col_pos].
  - intros [= ->]. by rewrite bool_decide_eq_true_2.
  - intros Hn. rewrite bool_decide_eq_false_2.
    + by rewrite (IH n Hn).
    + intros ->. apply Hx. by eapply list_elem_of_lookup_2.
Qed.

(** A full row is the list of its cells under the labels. *)
Lemma row_by_labels d r :
  NoDup (columns d) -> length r = length (columns d) ->
  map (fun c => cell_of d c r) (columns d) = r.
Proof.
  intros Hnd Hlen. apply list_eq. intros n. rewrite lookup_map.
  destruct (columns d !! n) as [c|] eqn:Hc; cbn.
  - unfold cell_of. rewrite (col_pos_NoDup _ _ _ Hnd Hc).
    unfold at_pos. destruct (nth_lookup_or_length r n CNull) as [->|Hge]; [done|].
    apply lookup_lt_Some in Hc. lia.
  - symmetry. apply lookup_ge_None. apply lookup_ge_None in Hc. lia.
Qed.

Lemma zsum_replicate_zero n : zsum (replicate n 0) = 0.
Proof.
  induction n as [|n IH]; [done|]. cbn [replicate zsum foldr].
  fold (zsum (replicate n 0)). by rewrite IH.
Qed.

Ltac returned :=
  repeat match goal with
    | H : obind ?o _ = Returns _ |- _ =>
        let E := fresh "E" in
        destruct o eqn:E; cbn [obind] in H; [|discriminate H]
    end.

Section Charts.

Set Default Proof Using "Type".

Variable to_datetime : string -> outcome (option Z).
Variable grouper_sum :
  list string -> string -> list (option string) -> DataFrame -> outcome DataFrame.
Variable resample_sum :
  option string -> list (option string) -> DataFrame -> outcome DataFrame.
Variable str_title : string -> string.


(** The option of a drop-down for a country. *)
Definition country_option (name : string) : pyval :=
  PDict [("label", PStr (str_title name)); ("value", PStr name)].

(** X16.  The country drop-downs of the time, age and summary tabs: for
    the continent "all" the only option is "All Countries" and the
    drop-down is disabled; for any other continent it is enabled and offers
    "All Countries" followed by the countries of the rows of that
    continent, each once, in ascending order. *)
Theorem country_options_listed continent s t j k :
  heap s !! df = Some t ->
  col_pos "continent" (columns t) = Some j ->
  col_pos "country" (columns t) = Some k ->
  forallb (fun r => is_str (at_pos k r)) (rows t) = true ->
  (continent = Some "all" ->
     fst (country_options str_title continent s)
     = Returns (PTuple [PList [all_countries]; PBool true]))
  /\ (continent <> Some "all" ->
      exists names,
        fst (country_options str_title continent s)
        = Returns (PTuple [PList (all_countries :: map country_option names);
                           PBool false])
        /\ NoDup names
        /\ Sorted str_le names
        /\ forall c, c ∈ names
             <-> exists r, r ∈ rows t
                   /\ cell_eq_str continent (at_pos j r) = true
                   /\ at_pos k r = CStr c).
Proof.
  intros Hdf Hj Hk Hstr.
  destruct (country_options_sound str_title continent s t Hdf) as (s' & -> & _).
  cbn [fst]. unfold country_options_value. split.
  - intros ->. reflexivity.
  - intros Hc. rewrite bool_decide_eq_false_2 by done.
    unfold countries_of, getitem_opt. cbn [label obind].
    rewrite (getitem_at _ _ j Hj). cbn [obind].
    rewrite (getitem_at _ _ k) by done. cbn [obind].
    unfold df_mask, series_eq. cbn [rows]. rewrite mask_map_rows.
    set (sel := List.filter _ (rows t)).
    assert (Hsel : forall r, r ∈ sel
                     <-> r ∈ rows t /\ cell_eq_str continent (at_pos j r) = true).
    { intros r. unfold sel. rewrite !list_elem_of_In, filter_In. done. }
    destruct (sorted_unique_strings (map (at_pos k) sel))
      as (vs & -> & Hnd & Hin & Hsorted).
    { intros x (r & -> & Hr)%elem_of_map. apply Hsel in Hr as [Hr _].
      apply (forallb_elem _ _ _ Hstr Hr). }
    cbn [obind].
    assert (Hvs : forallb is_str vs = true).
    { apply forallb_intro. intros x (r & -> & Hr)%Hin%elem_of_map.
      apply Hsel in Hr as [Hr _]. apply (forallb_elem _ _ _ Hstr Hr). }
    exists (cell_text <$> vs). split; [|split; [|split; [done|]]].
    + rewrite (mapE_map _ (fun c => country_option (cell_text c))).
      * cbn [obind]. by rewrite map_map.
      * intros c Hcin. pose proof (forallb_elem _ _ _ Hvs Hcin) as E.
        by destruct c.
    + rewrite <- (texts_of_strings vs Hvs) in Hnd.
      by apply (NoDup_fmap CStr) in Hnd.
    + intros c. rewrite <- (texts_of_strings vs Hvs) in Hin.
      rewrite <- (list_elem_of_fmap_inj CStr), Hin, elem_of_map.
      split.
      * intros (r & Hr & [Hr1 Hr2]%Hsel). by exists r.
      * intros (r & Hr1 & Hr2 & Hr3). exists r. split; [done|]. by apply Hsel.
Qed.

(** X17.  The export preview shows one record for each of the first ten
    rows that pass the date range and the continent filter; the record of a
    row maps every exported column label to the cell of that row under the
    label, and has no other key. *)
Theorem preview_records sd ed metric continent s t i j k lo hi :
  heap s !! df = Some t ->
  df_empty t = false ->
  loaded_at t i j k ->
  bound to_datetime sd = Returns lo ->
  bound to_datetime ed = Returns hi ->
  rectangular t ->
  NoDup (columns t) ->
  exists records header s',
    update_export_preview to_datetime sd ed metric continent s
    = (Returns (PTuple [PRecords records; PStr header]), s')
    /\ length records
       = min 10 (length (List.filter (row_selected i j lo hi continent) (rows t)))
    /\ forall n record, records !! n = Some record ->
         exists r,
           List.filter (row_selected i j lo hi continent) (rows t) !! n = Some r
           /\ forall c, record !! c
                = if bool_decide (c ∈ export_columns t metric)
                  then Some (cell_of t c r) else None.
Proof.
  intros Hdf He Hl Hlo Hhi Hrect Hnd.
  destruct (update_export_preview_sound to_datetime sd ed metric continent s t Hdf)
    as (s' & -> & _).
  unfold export_preview_value. rewrite He.
  rewrite (export_view_rows to_datetime _ _ _ _ _ i j k lo hi) by done.
  cbn [obind]. set (sel := List.filter _ (rows t)).
  eexists _, _, s'. split; [reflexivity|].
  unfold to_records, head. cbn [columns rows].
  split; [by rewrite length_map, length_take, length_map|].
  intros n record. rewrite lookup_map.
  destruct (take 10 (map (export_row t metric) sel) !! n) as [row|] eqn:Hrow; [|done].
  intros [= <-].
  apply lookup_take_Some in Hrow as [Hrow _]. rewrite lookup_map in Hrow.
  destruct (sel !! n) as [r|] eqn:Hr; [|done]. injection Hrow as <-.
  exists r. split; [done|]. intros c.
  assert (Hrow : export_row t metric r
                 = map (fun c => cell_of t c r) (export_columns t metric)).
  { unfold export_row, export_columns. destruct (neq_all metric); [done|].
    symmetry. apply row_by_labels; [done|].
    unfold rectangular in Hrect. rewrite Forall_forall in Hrect. apply Hrect.
    apply list_elem_of_lookup_2 in Hr. unfold sel in Hr.
    apply list_elem_of_In, filter_In in Hr as [Hr _]. by apply list_elem_of_In. }
  rewrite Hrow. apply to_record_lookup.
Qed.


(** X19.  A group whose totals are all zero gets no percentages: in the
    percentage view each of its values is [NaN] (0/0), not 0. *)
Theorem zero_row_has_no_percentages (n : nat) :
  pct_row (R := float) (replicate n 0) = replicate n PrimFloat.nan.
Proof.
  unfold pct_row. rewrite zsum_replicate_zero.
  induction n as [|n IH]; [done|]. cbn [replicate map]. by rewrite IH.
Qed.

End Charts.

(* ===================================================================== *)
(** * The age, summary and geo tabs on their edge cases *)
(* ===================================================================== *)


Lemma in_region_rows t continent country j k :
  col_pos "continent" (columns t) = Some j ->
  col_pos "country" (columns t) = Some k ->
  in_region t continent country
  = Returns (mkFrame (columns t)
               (List.filter (row_selected_geo j k continent country) (rows t))).
Proof.
  intros Hj Hk. unfold in_region, row_selected_geo.
  rewrite (where_eq_rows _ _ _ j) by done. cbn [obind].
  rewrite (where_eq_rows _ _ _ k) by done. cbn [columns rows].
  by rewrite filter_filter_andb.
Qed.





Section Edges.

Set Default Proof Using "Type".

Variable to_datetime : string -> outcome (option Z).
Variable resample_sum :
  option string -> list (option string) -> DataFrame -> outcome DataFrame.
Variable str_title : string -> string.


(** X21.  The summary tab needs all four metric columns: on a table that
    is not empty and lacks one of them it raises, for every choice of
    continent, country and view (the donut leaves the missing metric out,
    but the stacked bars group all four). *)
Theorem summary_needs_all_metrics m continent country view_type s t :
  heap s !! df = Some t ->
  df_empty t = false ->
  m ∈ metrics ->
  m ∉ columns t ->
  exists e,
    fst (update_summary_tab resample_sum continent country view_type s) = Raises e.
Proof.
  intros Hdf He Hm Hno.
  destruct (update_summary_tab_sound resample_sum continent country view_type s t Hdf)
    as (s' & -> & _).
  cbn [fst]. unfold summary_value. rewrite He.
  destruct (in_region t continent country) as [d|e] eqn:Hd; cbn [obind]; [|by eexists].
  assert (Hcols : columns d = columns t).
  { unfold in_region, where_eq in Hd.
    destruct (neq_all continent); destruct (neq_all country);
      cbn [obind] in Hd; returned; by simplify_eq. }
  destruct (mapE _ (filter _ metrics)) as [totals|e]; cbn [obind]; [|by eexists].
  assert (Hst : exists e, stacked_table d continent view_type = Raises e).
  { unfold stacked_table, groupby_sum_opt.
    assert (Hmap : mapE label (map Some metrics) = Returns metrics).
    { reflexivity. }
    rewrite Hmap. cbn [obind]. unfold groupby_sum.
    destruct (getitem d _); cbn [obind]; [|by eexists].
    assert (Hraise : exists e, mapE (getitem d) metrics = Raises e).
    { unfold metrics, metric_map in *. cbn [map fst] in *.
      assert (Hget : getitem d m = Raises (KeyError m)).
      { unfold getitem. rewrite Hcols.
        destruct (col_pos m (columns t)) as [i|] eqn:Hi; [|done].
        exfalso. apply Hno, col_pos_elem. by exists i. }
      repeat (apply elem_of_cons in Hm as [-> | Hm];
              [ cbn [mapE]; rewrite ?Hget;
                repeat match goal with
                  | |- context [getitem d ?c] =>
                      lazymatch goal with
                      | H : getitem d c = _ |- _ => fail
                      | _ => destruct (getitem d c) eqn:?
                      end
                  end; cbn [obind mapE]; rewrite ?Hget; cbn [obind]; by eexists |]).
      by apply elem_of_nil in Hm. }
    destruct Hraise as [e ->]. by eexists. }
  destruct Hst as [e ->]. by eexists.
Qed.

(** X22.  The geo and age tabs answer with placeholders instead of
    raising: on an empty table or for a metric that is not a column, the geo
    tab returns no options, a disabled drop-down, two empty figures and the
    prompt, and the age tab two empty figures; the age tab also returns two
    empty figures when the table has no [age_group] column or when no row
    passes the region filters.  The store is untouched on the first paths. *)
Theorem geo_and_age_placeholders
    metric continent country performance_type performance_count s t :
  heap s !! df = Some t ->
  (df_empty t = true \/ has_column t metric = false ->
     update_geo_tab str_title metric continent country performance_type
       performance_count s
     = (Returns (PTuple [PList []; PBool true; PFig go_Figure; PFig go_Figure;
                         PStr "Select a metric"]), s))
  /\ (df_empty t = true \/ has_column t metric = false
      \/ has_column t (Some "age_group") = false ->
      update_age_tab metric continent country s
      = (Returns (PTuple [PFig go_Figure; PFig go_Figure]), s))
  /\ (forall j k,
        col_pos "continent" (columns t) = Some j ->
        col_pos "country" (columns t) = Some k ->
        List.filter (row_selected_geo j k continent country) (rows t) = [] ->
        exists s',
          update_age_tab metric continent country s
          = (Returns (PTuple [PFig go_Figure; PFig go_Figure]), s')).
Proof.
  intros Hdf. split; [|split].
  - intros Hbad.
    assert (Hc : df_empty t || negb (has_column t metric) = true).
    { destruct Hbad as [-> | ->]; [done | by rewrite orb_true_r]. }
    unfold update_geo_tab, df_is_empty, df_has_column.
    repeat (rewrite (bind_read _ t) by done; cbn beta iota).
    by rewrite Hc.
  - intros Hbad.
    assert (Hc : df_empty t || negb (has_column t (Some "age_group"))
                 || negb (has_column t metric) = true).
    { destruct Hbad as [-> | [-> | ->]]; [done | by rewrite orb_true_r |].
      by rewrite orb_true_r. }
    unfold update_age_tab, df_is_empty, df_has_column.
    repeat (rewrite (bind_read _ t) by done; cbn beta iota).
    by rewrite Hc.
  - intros j k Hj Hk Hnone.
    destruct (update_age_tab_sound metric continent country s t Hdf) as (s' & -> & _).
    exists s'. f_equal. unfold age_value.
    destruct (df_empty t || negb (has_column t (Some "age_group"))
              || negb (has_column t metric)); [done|].
    rewrite (in_region_rows t continent country j k) by done. cbn [obind].
    rewrite Hnone.
    replace (df_empty (mkFrame (columns t) [])) with true; [done|].
    unfold df_empty. cbn [columns rows]. by destruct (columns t).
Qed.


End Edges.

(* ===================================================================== *)
(** * The peak day of the overview; filters only remove rows *)
(* ===================================================================== *)



Lemma sublist_filter_list {A} (p : A -> bool) (l : list A) :
  List.filter p l `sublist_of` l.
Proof.
  induction l as [|x l IH]; [done|]. cbn [List.filter].
  destruct (p x); [by apply sublist_skip | by apply sublist_cons].
Qed.

Lemma sublist_map {A B} (f : A -> B) (l1 l2 : list A) :
  l1 `sublist_of` l2 -> map f l1 `sublist_of` map f l2.
Proof.
  induction 1 as [|x l1 l2 _ IH|x l1 l2 _ IH]; cbn [map].
  - constructor.
  - by apply sublist_skip.
  - by apply sublist_cons.
Qed.

Section Peak.

Set Default Proof Using "Type".

Variable to_datetime : string -> outcome (option Z).
Variable grouper_sum :
  list string -> string -> list (option string) -> DataFrame -> outcome DataFrame.


(** X25.  Filters only remove rows: whatever the date range, the metric
    and the continent, the rows of the CSV download are a sub-list, in the
    same order, of the rows of the download with no date range and the
    continent "all" for the same metric. *)
Theorem filters_only_remove_rows n sd ed metric continent s t i j k lo hi :
  heap s !! df = Some t ->
  df_empty t = false ->
  loaded_at t i j k ->
  bound to_datetime sd = Returns lo ->
  bound to_datetime ed = Returns hi ->
  exists d all,
    fst (download_csv to_datetime n sd ed metric continent s)
    = Returns (PDownload "exported_data.csv" d)
    /\ fst (download_csv to_datetime n None None metric (Some "all") s)
       = Returns (PDownload "exported_data.csv" all)
    /\ columns d = columns all
    /\ rows d `sublist_of` rows all
    /\ length (rows all) = length (rows t).
Proof.
  intros Hdf He Hl Hlo Hhi.
  destruct (download_csv_sound to_datetime n sd ed metric continent s t Hdf)
    as (s1 & -> & _).
  destruct (download_csv_sound to_datetime n None None metric (Some "all") s t Hdf)
    as (s2 & -> & _).
  unfold download_value. rewrite He.
  rewrite (export_view_rows to_datetime _ _ _ _ _ i j k lo hi) by done.
  rewrite (export_view_rows to_datetime _ _ _ _ _ i j k None None) by done.
  cbn [obind fst]. eexists _, _. split; [reflexivity|]. split; [reflexivity|].
  cbn [columns rows]. split; [done|].
  assert (Hall : List.filter (row_selected i j None None (Some "all")) (rows t)
                 = rows t).
  { rewrite <- (filter_true (rows t)) at 2. apply filter_ext. intros r. done. }
  rewrite Hall. split; [|by rewrite length_map].
  apply sublist_map, sublist_filter_list.
Qed.

End Peak.

(* ===================================================================== *)
(** * The sample installation, continued *)
(* ===================================================================== *)

Definition sample_capitalize (text : string) : string := text.

(** The layout functions of the module, each returning its own name. *)
Definition sample_call_global (name : string) : outcome string :=
  if bool_decide (name ∈ ["overview_tab"; "analytics_tab"; "geo_tab"; "time_tab";
                          "age_tab"; "summary_tab"; "export_tab"])
  then Returns name
  else Raises (KeyError name).

Definition sample_json_index (text : string) : outcome string :=
  Raises (ValueError "Expecting value").

(** A user file in which one hash was read as a number. *)
Definition sample_users_file : DataFrame :=
  mkFrame ["username"; "password_hash"; "role"]
    [[CStr "analyst1"; CStr "$password1"; CStr "analyst"];
     [CStr "guest"; CInt 1234; CStr "guest"]].

(** A data file with a label that holds a space, and one without a
    [continent] column. *)
Definition sample_data_file : DataFrame :=
  mkFrame ["date"; "country"; "continent"; "job_type"; "age_group"; "request_type";
           "jobs placed"; "scheduled_demos"; "ai_requests"; "promotional_events"]
    [[CStr "01/01/2024"; CStr "france"; CStr "europe"; CStr "full-time"; CStr "18-24";
      CStr "web"; CInt 3; CInt 1; CInt 4; CInt 0];
     [CStr "soon"; CStr "japan"; CStr "asia"; CStr "full-time"; CStr "25-34";
      CStr "web"; CInt 2; CInt 2; CInt 2; CInt 2]].

Definition sample_data_file_no_continent : DataFrame :=
  mkFrame ["date"; "country"; "jobs_placed"]
    [[CStr "01/01/2024"; CStr "france"; CInt 3]].

Definition sample_read_csv (name : string) : read_result :=
  if bool_decide (name = "users.csv") then Table sample_users_file
  else if bool_decide (name = "test_dataPD.csv") then Table sample_data_file
  else FileNotFound.

Definition sample_read_csv_no_continent (name : string) : read_result :=
  if bool_decide (name = "test_dataPD.csv") then Table sample_data_file_no_continent
  else FileNotFound.

Definition sample_no_files (name : string) : read_result := FileNotFound.

Definition sample_str_of_value (c : cell) : string :=
  match c with
  | CInt 1234 => "1234"
  | _ => "nan"
  end.

Definition sample_strip (text : string) : string := text.
Definition sample_lower (text : string) : string := text.

Definition sample_parse_date (c : cell) : option Z :=
  match c with
  | CStr text => if bool_decide (text = "01/01/2024") then Some 19723 else None
  | _ => None
  end.

(** The process after start-up on the sample files, and without files. *)
Definition sample_state_loaded : state :=
  mkState [sample_sales; fst (load_users sample_read_csv sample_str_of_value)] [] 0.

Definition sample_state_no_users : state :=
  mkState [sample_sales; fst (load_users sample_no_files sample_str_of_value)] [] 0.

(** ** Instances of the further theorems *)

Lemma dashboard_requires_credentials_witness :
  display_page
    (store_data
       (run_session sample_checkpw sample_uuid4_str
          [LoginClick (Some 1) (Some "analyst1") (Some "guess") false;
           LogoutClick (Some 1);
           LoginClick (Some 2) (Some "nobody") (Some "password1") true]
          (None, sample_state)))
  = Returns login_layout.
Proof.
  apply (dashboard_requires_credentials sample_checkpw sample_uuid4_str _
           sample_state sample_users); [reflexivity|].
  intros n u p r Hin.
  repeat (apply elem_of_cons in Hin as [Hin | Hin];
          [try discriminate Hin; injection Hin as -> -> -> ->; by vm_compute |]).
  by apply elem_of_nil in Hin.
Defined.

Lemma sign_in_then_out_witness :
  display_page
    (store_data
       (session_step sample_checkpw sample_uuid4_str (None, sample_state)
          (LoginClick (Some 1) (Some "analyst1") (Some "password1") true)))
  = Returns dashboard_layout
  /\ display_page
       (store_data
          (session_step sample_checkpw sample_uuid4_str
             (session_step sample_checkpw sample_uuid4_str (None, sample_state)
                (LoginClick (Some 1) (Some "analyst1") (Some "password1") true))
             (LogoutClick (Some 1))))
     = Returns login_layout.
Proof.
  destruct (sign_in_then_out sample_checkpw sample_uuid4_str sample_capitalize
              (Some 1) (Some "analyst1") (Some "password1") true (Some 1)
              sample_state None eq_refl eq_refl) as (H1 & _ & H3 & _).
  split; [exact H1 | exact H3].
Defined.

Lemma active_tab_matches_content_witness :
  sample_call_global ("geo" +:+ "_tab") = Returns "geo_tab"
  /\ ("geo" = "overview" \/ "geo" ∈ TAB_ORDER
      \/ exists prop_id rest,
           ["tab-geo.n_clicks"] = prop_id :: rest
           /\ sample_json_index (before_dot prop_id) = Returns "geo").
Proof.
  apply (active_tab_matches_content string sample_call_global sample_json_index
           ["tab-geo.n_clicks"] "geo" "geo_tab").
  reflexivity.
Defined.

Lemma load_users_hashes_are_strings_witness :
  exists ih,
    col_pos "password_hash"
      (columns (fst (load_users sample_read_csv sample_str_of_value))) = Some ih
    /\ forallb (fun r => is_str (at_pos ih r))
         (rows (fst (load_users sample_read_csv sample_str_of_value))) = true.
Proof.
  apply (load_users_hashes_are_strings sample_read_csv sample_str_of_value).
  intros d [= <-]. repeat constructor.
Defined.

Lemma failed_load_rejects_every_login_witness :
  exists s',
    verify_user sample_checkpw (Some "analyst1") (Some "password1")
      sample_state_no_users = (Returns false, s').
Proof.
  apply (failed_load_rejects_every_login sample_no_files sample_str_of_value
           sample_checkpw (Some "analyst1") (Some "password1") sample_state_no_users).
  - discriminate.
  - reflexivity.
Defined.

Lemma verify_user_on_loaded_table_witness :
  exists b s',
    verify_user sample_checkpw (Some "guest") (Some "1234") sample_state_loaded
    = (Returns b, s').
Proof.
  apply (verify_user_on_loaded_table sample_read_csv sample_str_of_value
           sample_checkpw (Some "guest") (Some "1234") sample_state_loaded
           sample_users_file).
  - reflexivity.
  - repeat constructor.
  - compute_done.
  - reflexivity.
  - compute_done.
Defined.

Lemma load_data_table_witness :
  columns (fst (load_data sample_read_csv sample_strip sample_lower sample_parse_date))
  = ["date"; "country"; "continent"; "job_type"; "age_group"; "request_type";
     "jobs_placed"; "scheduled_demos"; "ai_requests"; "promotional_events"]
  /\ map (at_pos 0)
       (rows (fst (load_data sample_read_csv sample_strip sample_lower
                     sample_parse_date)))
     = [CTime 19723; CNull]
  /\ snd (load_data sample_read_csv sample_strip sample_lower sample_parse_date) = [].
Proof.
  destruct (load_data_table sample_read_csv sample_strip sample_lower sample_parse_date)
    as [[_ (entry & Hlog & _)] | _].
  - intros d [= <-]. repeat constructor.
  - discriminate Hlog.
  - repeat split; reflexivity.
Defined.

Lemma module_lists_values_witness :
  exists continents countries age_groups,
    module_lists sample_sales = (Returns (continents, countries, age_groups), [])
    /\ distinct_sorted continents (map (at_pos 2) (rows sample_sales))
    /\ distinct_sorted countries (map (at_pos 1) (rows sample_sales)).
Proof.
  destruct (module_lists_values sample_sales
              (map (at_pos 2) (rows sample_sales))
              (map (at_pos 1) (rows sample_sales)))
    as (a & b & c & H1 & H2 & H3 & _); try reflexivity.
  - intros ages [= <-]. reflexivity.
  - by exists a, b, c.
Defined.

Lemma startup_needs_continent_witness :
  module_lists
    (fst (load_data sample_read_csv_no_continent sample_strip sample_lower
            sample_parse_date))
  = (Raises (KeyError "continent"), []).
Proof.
  apply (startup_needs_continent sample_read_csv_no_continent sample_strip
           sample_lower sample_parse_date sample_data_file_no_continent 0%nat).
  - reflexivity.
  - discriminate.
  - reflexivity.
  - compute_done.
Defined.


Lemma country_options_listed_witness :
  exists names,
    fst (country_options sample_title (Some "europe") sample_state)
    = Returns (PTuple [PList (all_countries :: map (country_option sample_title) names);
                       PBool false])
    /\ NoDup names
    /\ Sorted str_le names
    /\ forall c, c ∈ names
         <-> exists r, r ∈ rows sample_sales
               /\ cell_eq_str (Some "europe") (at_pos 2 r) = true
               /\ at_pos 1 r = CStr c.
Proof.
  apply (country_options_listed sample_title (Some "europe") sample_state sample_sales
           2 1); try reflexivity.
  discriminate.
Defined.

Lemma preview_records_witness :
  exists records header s',
    update_export_preview sample_to_datetime (Some "2024-01-01") None
      (Some "jobs_placed") (Some "europe") sample_state
    = (Returns (PTuple [PRecords records; PStr header]), s')
    /\ length records = 2%nat.
Proof.
  destruct (preview_records sample_to_datetime (Some "2024-01-01") None
              (Some "jobs_placed") (Some "europe") sample_state sample_sales 0 2 1
              (Some (Some 19723)) None)
    as (records & header & s' & Hrun & Hlen & _); try reflexivity.
  - repeat split; reflexivity.
  - repeat constructor.
  - unfold sample_sales, sample_columns. cbn [columns].
    compute_done.
  - by exists records, header, s'.
Defined.



Lemma summary_needs_all_metrics_witness :
  exists e,
    fst (update_summary_tab sample_resample_sum (Some "all") (Some "all")
           (Some "count") sample_state_nojobs) = Raises e.
Proof.
  apply (summary_needs_all_metrics sample_resample_sum "jobs_placed" (Some "all")
           (Some "all") (Some "count") sample_state_nojobs sample_sales_nojobs).
  - reflexivity.
  - reflexivity.
  - compute_done.
  - compute_done.
Defined.

Lemma geo_and_age_placeholders_witness :
  update_geo_tab sample_title (Some "revenue") (Some "all") (Some "all") (Some "top") 5
    sample_state
  = (Returns (PTuple [PList []; PBool true; PFig go_Figure; PFig go_Figure;
                      PStr "Select a metric"]), sample_state).
Proof.
  apply (geo_and_age_placeholders sample_title (Some "revenue") (Some "all")
           (Some "all") (Some "top") 5 sample_state sample_sales eq_refl).
  right. reflexivity.
Defined.



Lemma filters_only_remove_rows_witness :
  exists d all,
    fst (download_csv sample_to_datetime None (Some "2024-01-01") (Some "2024-01-31")
           (Some "jobs_placed") (Some "europe") sample_state)
    = Returns (PDownload "exported_data.csv" d)
    /\ fst (download_csv sample_to_datetime None None None (Some "jobs_placed")
              (Some "all") sample_state)
       = Returns (PDownload "exported_data.csv" all)
    /\ columns d = columns all
    /\ rows d `sublist_of` rows all
    /\ length (rows all) = length (rows sample_sales).
Proof.
  apply (filters_only_remove_rows sample_to_datetime None (Some "2024-01-01")
           (Some "2024-01-31") (Some "jobs_placed") (Some "europe") sample_state
           sample_sales 0 2 1 (Some (Some 19723)) (Some (Some 19753)));
    try reflexivity.
  repeat split; reflexivity.
Defined.
